(** * de-agent: schema profiling, relationship discovery and recommendations

    A shallow embedding of
      - backend/app/models/schemas.py
      - backend/app/services/analyzer.py      (class MultiSourceAnalyzer)
      - backend/app/services/llm_service.py   (class LLMService)
      - backend/app/services/pipeline_generator.py (generate_sql_scripts)
      - backend/app/main.py                   (upload_csv_file,
        find_data_relationships and the profiling loop of the endpoints)
    together with the properties of these functions.

    Conventions of the embedding.
      - Python [str] is [string]; a literal is the UTF-8 byte sequence of the
        source literal.  [str.lower] maps the ASCII letters A-Z and the two
        characters outside ASCII whose lower case holds an ASCII letter.
      - Python [int] is [Z].  The quotient of two ints ([/]) is a float:
        [Binary64.truediv] rounds the exact quotient to the nearest double
        and gives the number that double denotes (a [Qc]), or raises.
        [Py.truediv] is the exact quotient, without the rounding; the
        relationship detector is given with both, in [Analyzer] with exact
        quotients and in [Detector64] with floats.
      - A Python [dict] keyed by column names is a [gmap string _]; a Python
        [set] of column names is a [gset string].
      - An exception is a value of type [exn]; code that can raise returns a
        [result]; code that also touches the outside world runs in the monad
        [M] (state and exceptions).
      - pandas, sqlalchemy, json and httpx are outside the repository: what
        they read from the outside world, and what pandas makes of the
        values of a column, is a field of the record [world]. *)

From Stdlib Require Import ZArith QArith Qcanon Ascii String List Bool Lia DecimalString.
From stdpp Require Import base option list strings gmap sets fin_maps.

Set Warnings "-register-all,-clear-no-such-hyp".
Open Scope Z_scope.
Open Scope string_scope.
Open Scope list_scope.

(* ===================================================================== *)
(** ** Python values the services work on                                 *)
(* ===================================================================== *)

Module Py.

(** The newline character of the triple-quoted literals. *)
Definition nl : string := String (ascii_of_nat 10) EmptyString.

(** [c.lower()] on one ASCII character. *)
Definition lower_ascii (c : ascii) : ascii :=
  let n := nat_of_ascii c in
  if (Nat.leb 65 n && Nat.leb n 90)%bool then ascii_of_nat (n + 32) else c.

(** The bytes of a character, by their numbers. *)
Definition bytes (l : list nat) : string :=
  string_of_list_ascii (List.map ascii_of_nat l).

Definition is_byte (c : ascii) (n : nat) : bool := Nat.eqb (nat_of_ascii c) n.

(** [s.lower()].  Two characters outside ASCII have a lower case that
    holds an ASCII letter: U+212A KELVIN SIGN (bytes E2 84 AA) becomes [k],
    and U+0130 LATIN CAPITAL LETTER I WITH DOT ABOVE (bytes C4 B0) becomes
    [i] followed by U+0307 (bytes CC 87).  The lower case of any other
    character outside ASCII holds no ASCII character; such a character is
    left as it is here, which keeps every occurrence of an ASCII text in
    the result, the one thing the services ask of it. *)
Fixpoint lower (s : string) : string :=
  match s with
  | EmptyString => EmptyString
  | String c r =>
      match r with
      | EmptyString => String (lower_ascii c) EmptyString
      | String c1 r1 =>
          if is_byte c 196%nat && is_byte c1 176%nat then
            String "i" (bytes [204; 135]%nat +:+ lower r1)
          else
            match r1 with
            | EmptyString => String (lower_ascii c) (lower r)
            | String c2 r2 =>
                if is_byte c 226%nat && is_byte c1 132%nat && is_byte c2 170%nat then
                  String "k" (lower r2)
                else String (lower_ascii c) (lower r)
            end
      end
  end.

(** [hay.startswith(needle)] *)
Fixpoint startswith (needle hay : string) : bool :=
  match needle, hay with
  | EmptyString, _ => true
  | String _ _, EmptyString => false
  | String a n', String b h' => Ascii.eqb a b && startswith n' h'
  end.

(** [needle in hay] for two strings. *)
Fixpoint str_in (needle hay : string) : bool :=
  match hay with
  | EmptyString => startswith needle EmptyString
  | String _ h' => startswith needle hay || str_in needle h'
  end.

(** [x in l] for a list of strings. *)
Definition list_in (x : string) (l : list string) : bool :=
  existsb (String.eqb x) l.

(** [any(p(x) for x in l)] *)
Definition any {A} (p : A → bool) (l : list A) : bool := existsb p l.

(** [s.find(c)]: index of the first occurrence, [-1] when there is none. *)
Fixpoint find_from (c : ascii) (s : string) (i : Z) : Z :=
  match s with
  | EmptyString => -1
  | String a r => if Ascii.eqb a c then i else find_from c r (i + 1)
  end.
Definition find (c : ascii) (s : string) : Z := find_from c s 0.

(** [s.rfind(c)]: index of the last occurrence, [-1] when there is none. *)
Fixpoint rfind_from (c : ascii) (s : string) (i : Z) (last : Z) : Z :=
  match s with
  | EmptyString => last
  | String a r => rfind_from c r (i + 1) (if Ascii.eqb a c then i else last)
  end.
Definition rfind (c : ascii) (s : string) : Z := rfind_from c s 0 (-1).

(** [s[start:stop]] for [0 <= start] and [0 <= stop]. *)
Definition slice (s : string) (start stop : Z) : string :=
  String.substring (Z.to_nat start) (Z.to_nat (stop - start)) s.

(** Characters removed by [str.strip()] (the ASCII ones). *)
Definition is_space (c : ascii) : bool :=
  let n := nat_of_ascii c in
  (Nat.leb 9 n && Nat.leb n 13) || (Nat.leb 28 n && Nat.leb n 32).

Fixpoint lstrip (s : string) : string :=
  match s with
  | EmptyString => EmptyString
  | String c r => if is_space c then lstrip r else s
  end.

Fixpoint rstrip (s : string) : string :=
  match s with
  | EmptyString => EmptyString
  | String c r =>
      match rstrip r with
      | EmptyString => if is_space c then EmptyString else String c EmptyString
      | r' => String c r'
      end
  end.

(** [s.strip()] *)
Definition strip (s : string) : string := rstrip (lstrip s).

(** [sep.join(l)] *)
Fixpoint join (sep : string) (l : list string) : string :=
  match l with
  | [] => EmptyString
  | [x] => x
  | x :: r => x +:+ sep +:+ join sep r
  end.

(** [str(n)] for an int. *)
Definition str_of_int (n : Z) : string := NilZero.string_of_int (Z.to_int n).

(** The exact quotient of two ints, for [b <> 0]: [a / b] before it is
    rounded to a float (both call sites divide by a [max(_, 1)] or by the
    size of a set that is not empty, see [divisors_positive]).  The float
    itself is [Binary64.truediv]. *)
Definition truediv (a b : Z) : Qc := (Q2Qc (inject_Z a) / Q2Qc (inject_Z b))%Qc.

(** [min(a, b)]: the first of the two unless the second is smaller. *)
Definition min (a b : Qc) : Qc := if Qclt_le_dec b a then b else a.

(** [a > b] on such quotients. *)
Definition gt (a b : Qc) : bool := if Qclt_le_dec b a then true else false.

(** Exceptions, by class. *)
Inductive exn : Type :=
| KeyError (key : string)
| ValueError (msg : string)
| TypeError (msg : string)
| AttributeError (msg : string)
| IndexError
| OSError (msg : string)
| DecodeError (msg : string)
| HTTPError (msg : string)
| DatabaseError (msg : string)
| ZeroDivisionError (msg : string)
| OverflowError (msg : string).

(** The outcome of an expression that can raise. *)
Inductive result (A : Type) : Type :=
| Ok (a : A)
| Raise (e : exn).
Arguments Ok {A} a.
Arguments Raise {A} e.

Definition rbind {A B} (r : result A) (k : A → result B) : result B :=
  match r with
  | Ok a => k a
  | Raise e => Raise e
  end.

End Py.

Notation "'let?' x ':=' r 'in' k" := (Py.rbind r (fun x => k))
  (at level 10, x name, r at level 100, k at level 200).

Import Py.

(* ===================================================================== *)
(** ** The quotient of two ints as a float                                *)
(* ===================================================================== *)

Module Binary64.

(** The integer nearest to [n / d], for [0 < d]; of two integers equally
    near, the even one. *)
Definition nearest_even (n d : Z) : Z :=
  let q := n / d in
  match 2 * (n mod d) ?= d with
  | Lt => q
  | Gt => q + 1
  | Eq => if Z.even q then q else q + 1
  end.

(** The [e] with [2^e <= a / b < 2^(e+1)], for [0 < a] and [0 < b]. *)
Definition exponent (a b : Z) : Z :=
  let d := Z.log2 a - Z.log2 b in
  if (if Z.leb 0 d then Z.ltb a (b * 2 ^ d) else Z.ltb (a * 2 ^ (- d)) b) then d - 1 else d.

(** The double nearest to [a / b], for [0 < a] and [0 < b]: the multiple
    [m * 2^q] of the spacing [2^q] of the doubles around [a / b] (53 bits
    down to 2^-1022, and the spacing 2^-1074 below). *)
Definition nearest (a b : Z) : Z * Z :=
  let q := Z.max (exponent a b) (-1022) - 52 in
  (if Z.leb 0 q then nearest_even a (b * 2 ^ q) else nearest_even (a * 2 ^ (- q)) b, q).

(** The number [m * 2^q]. *)
Definition value (m q : Z) : Qc :=
  if Z.leb 0 q then Q2Qc (inject_Z (m * 2 ^ q))
  else Q2Qc (Qmake m (Z.to_pos (2 ^ (- q)))).

(** [a / b] on two ints: the float nearest to the quotient, as the
    number it denotes.  The interpreter rounds the exact quotient once
    (ties to even), raises ZeroDivisionError for [b = 0] and OverflowError
    when the rounded quotient does not fit a float. *)
Definition truediv (a b : Z) : result Qc :=
  if Z.eqb b 0 then Raise (ZeroDivisionError "division by zero")
  else if Z.eqb a 0 then Ok (Q2Qc 0)
  else
    let '(m, q) := nearest (Z.abs a) (Z.abs b) in
    if Z.leb 0 q && Z.leb (2 ^ 1024) (m * 2 ^ q) then
      Raise (OverflowError "integer division result too large for a float")
    else Ok (value (Z.sgn a * Z.sgn b * m) q).

End Binary64.

(* ===================================================================== *)
(** ** models/schemas.py                                                  *)
(* ===================================================================== *)

Module Schemas.

Inductive SourceType := CSV | POSTGRESQL | CLICKHOUSE | JSON | EXCEL | REST_API.

Inductive TargetType := T_POSTGRESQL | T_CLICKHOUSE | T_HDFS.

Inductive UpdateFrequency := ONCE | HOURLY | DAILY | WEEKLY | REALTIME.

(** [update_frequency.value] *)
Definition frequency_value (f : UpdateFrequency) : string :=
  match f with
  | ONCE => "once" | HOURLY => "hourly" | DAILY => "daily"
  | WEEKLY => "weekly" | REALTIME => "realtime"
  end.

(** A JSON value: what [json.load] returns, and what a cell of a data
    frame holds ([JNull] is the missing value, None or NaN; [JFloat] is a
    number with a fraction or an exponent, as the rational it denotes). *)
Inductive json : Type :=
| JNull
| JBool (b : bool)
| JInt (z : Z)
| JFloat (x : Q)
| JStr (s : string)
| JArr (l : list json)
| JObj (fields : list (string * json)).

(** A value of a source configuration ([Dict[str, Any]]): a string, an
    int, or an uploaded file object. *)
Inductive pyval := VStr (s : string) | VInt (z : Z) | VFile (handle : nat).

(** [str(v)], as an f-string renders it. *)
Definition str_of (v : pyval) : string :=
  match v with
  | VStr s => s
  | VInt z => str_of_int z
  | VFile h => "<file " +:+ str_of_int (Z.of_nat h) +:+ ">"
  end.

(** class SchemaInfo *)
Record SchemaInfo := {
  columns : list string;
  dtypes : gmap string string;
  sample_data : list (gmap string json);
  row_count : Z;
  null_counts : gmap string Z;
  unique_counts : gmap string Z
}.

(** [DataSourceConfig.schema_info : Optional[Dict[str, Any]]], for the
    dicts that hold, under the keys of [SchemaInfo.dict()] or a subset of
    them, values of the types that [SchemaInfo] gives them: a key that is
    absent is [None] here.  A dict with another value under one of these
    keys (say null under [columns]) is outside the embedding; the
    services raise TypeError on it. *)
Record SchemaDict := {
  d_columns : option (list string);
  d_dtypes : option (gmap string string);
  d_sample_data : option (list (gmap string json));
  d_row_count : option Z;
  d_null_counts : option (gmap string Z);
  d_unique_counts : option (gmap string Z)
}.

(** [SchemaInfo.dict()] *)
Definition to_dict (s : SchemaInfo) : SchemaDict :=
  {| d_columns := Some (columns s); d_dtypes := Some (dtypes s);
     d_sample_data := Some (sample_data s); d_row_count := Some (row_count s);
     d_null_counts := Some (null_counts s); d_unique_counts := Some (unique_counts s) |}.

(** [key in d] *)
Definition present {A} (o : option A) : bool :=
  match o with Some _ => true | None => false end.

(** Truth value of the dict: false exactly for the dict without keys. *)
Definition dict_truthy (d : SchemaDict) : bool :=
  present (d_columns d) || present (d_dtypes d) || present (d_sample_data d)
  || present (d_row_count d) || present (d_null_counts d) || present (d_unique_counts d).

(** class DataSourceConfig *)
Record DataSourceConfig := {
  id : string;
  name : string;
  type : SourceType;
  config : gmap string pyval;
  schema_info : option SchemaDict
}.

(** [if source.schema_info:] *)
Definition has_schema (s : DataSourceConfig) : bool :=
  match schema_info s with
  | Some d => dict_truthy d
  | None => false
  end.

(** class BusinessRequirements *)
Record BusinessRequirements := {
  goal : string;
  target_metrics : list string;
  update_frequency : UpdateFrequency;
  expected_load : string;
  data_retention : string
}.

(** class DataRelationship *)
Record DataRelationship := {
  source1_id : string;
  source2_id : string;
  join_type : string;
  join_keys : gmap string string;
  confidence : Qc
}.

End Schemas.
Import Schemas.

(* ===================================================================== *)
(** ** The pandas calls of the analyzer                                   *)
(* ===================================================================== *)

Module Pandas.

(** A data frame: the column labels with their dtype labels, and the
    rows.  A cell missing from a row reads as [JNull]. *)
Record DataFrame := {
  df_header : list (string * string);
  df_rows : list (list json)
}.

(** [df.columns.tolist()] *)
Definition df_columns (df : DataFrame) : list string := map fst (df_header df).

(** [df.dtypes.items()], with [str(dtype)] already applied. *)
Definition df_dtypes_items (df : DataFrame) : list (string * string) := df_header df.

(** [len(df)] *)
Definition df_len (df : DataFrame) : Z := Z.of_nat (length (df_rows df)).

(** [df.head(n)]; also the effect of [nrows=n] on what a reader returns. *)
Definition df_head (n : nat) (df : DataFrame) : DataFrame :=
  {| df_header := df_header df; df_rows := firstn n (df_rows df) |}.

(** [df.fillna(v)] *)
Definition fillna (v : json) (df : DataFrame) : DataFrame :=
  {| df_header := df_header df;
     df_rows := map (map (λ c, match c with JNull => v | _ => c end)) (df_rows df) |}.

(** [{k: v for k, v in items}]: a later item replaces an earlier one. *)
Definition py_dict {V} (items : list (string * V)) : gmap string V :=
  fold_left (λ m kv, <[kv.1 := kv.2]> m) items ∅.

(** [df.to_dict('records')]: one record per row of a frame that has a
    column, and no record at all for a frame without columns. *)
Definition to_dict_records (df : DataFrame) : list (gmap string json) :=
  match df_columns df with
  | [] => []
  | cols => map (λ row, py_dict (imap (λ i c, (c, nth i row JNull)) cols)) (df_rows df)
  end.

(** Positions of a label among the columns. *)
Fixpoint positions (col : string) (cols : list string) (i : nat) : list nat :=
  match cols with
  | [] => []
  | c :: r => if String.eqb c col then i :: positions col r (S i) else positions col r (S i)
  end.

(** [df[col]] as the code uses it, under [int(... .sum())] or
    [int(... .nunique())]: the values of the one column so labelled.
    With a repeated label [df[col]] is a frame, the aggregate a series,
    and [int] of it raises TypeError. *)
Definition getitem (df : DataFrame) (col : string) : result (list json) :=
  match positions col (df_columns df) 0 with
  | [] => Raise (KeyError col)
  | [i] => Ok (map (λ row, nth i row JNull) (df_rows df))
  | _ => Raise (TypeError "cannot convert the series to <class 'int'>")
  end.

Definition isnull (c : json) : bool :=
  match c with JNull => true | _ => false end.

(** [series.isnull().sum()] *)
Definition isnull_sum (vals : list json) : Z :=
  Z.of_nat (length (filter (λ c, isnull c = true) vals)).

(** Values pandas cannot hash. *)
Definition unhashable (c : json) : bool :=
  match c with JArr _ | JObj _ => true | _ => false end.

(** The message of the TypeError for the first such value. *)
Fixpoint unhashable_type (vals : list json) : string :=
  match vals with
  | JArr _ :: _ => "unhashable type: 'list'"
  | JObj _ :: _ => "unhashable type: 'dict'"
  | _ :: r => unhashable_type r
  | [] => "unhashable type"
  end.

(** The number a cell stands for ([True] is 1 and [False] is 0 in Python). *)
Definition number (c : json) : option Q :=
  match c with
  | JBool b => Some (inject_Z (if b then 1 else 0))
  | JInt z => Some (inject_Z z)
  | JFloat x => Some x
  | _ => None
  end.

(** [==] on hashable cells. *)
Definition cell_eqb (a b : json) : bool :=
  match number a, number b with
  | Some x, Some y => Qeq_bool x y
  | None, None =>
      match a, b with
      | JNull, JNull => true
      | JStr x, JStr y => String.eqb x y
      | _, _ => false
      end
  | _, _ => false
  end.

Fixpoint distinct (l : list json) : list json :=
  match l with
  | [] => []
  | x :: r => if existsb (cell_eqb x) r then distinct r else x :: distinct r
  end.

(** [series.nunique()]: the number of distinct values that are not
    missing; TypeError on a value that cannot be hashed. *)
Definition nunique (vals : list json) : result Z :=
  if existsb unhashable vals then Raise (TypeError (unhashable_type vals))
  else Ok (Z.of_nat (length (distinct (filter (λ c, isnull c = false) vals)))).

(** Flattening of one record by [pd.json_normalize]: the fields of a
    nested object get the path of their keys, joined by a dot. *)
Definition path (prefix key : string) : string :=
  match prefix with
  | EmptyString => key
  | _ => prefix +:+ "." +:+ key
  end.

Fixpoint flatten (prefix : string) (j : json) : list (string * json) :=
  match j with
  | JObj fields =>
      (fix go (l : list (string * json)) : list (string * json) :=
         match l with
         | [] => []
         | (k, v) :: r => flatten (path prefix k) v ++ go r
         end) fields
  | _ => [(prefix, j)]
  end.

Definition is_obj (j : json) : bool :=
  match j with JObj _ => true | _ => false end.

(** One element of the document as a flat record: the fields that are
    not objects first, then the flattened nested objects; an element that
    is not an object gives a record without fields. *)
Definition normalise_record (j : json) : list (string * json) :=
  match j with
  | JObj fields =>
      filter (λ kv, is_obj kv.2 = false) fields
      ++ flatten EmptyString (JObj (filter (λ kv, is_obj kv.2 = true) fields))
  | _ => []
  end.

(** Labels in the order of their first occurrence. *)
Fixpoint first_seen (seen : list string) (l : list string) : list string :=
  match l with
  | [] => []
  | x :: r => if list_in x seen then first_seen seen r else x :: first_seen (x :: seen) r
  end.

(** What a record gives for a label: the last value under it, or nothing
    (the cell is then NaN, not None). *)
Definition raw_field (rec : list (string * json)) (col : string) : option json :=
  py_dict rec !! col.

Definition is_arr (j : json) : bool :=
  match j with JArr _ => true | _ => false end.

(** The columns pandas makes of the raw columns, in order: [column] gives
    the dtype label and the cells of one of them, or raises. *)
Fixpoint convert_columns (column : list (option json) → result (string * list json))
    (raw : list (list (option json))) : result (list (string * list json)) :=
  match raw with
  | [] => Ok []
  | c :: r =>
      let? d := column c in
      let? rest := convert_columns column r in
      Ok (d :: rest)
  end.

(** [pd.json_normalize(data)] for a list.  An element that is an object
    gives a flat record, any other element that is not a list a record
    without fields, and the frame has one row per record; which dtype a
    column gets, and which cells that makes of its values, is decided by
    pandas ([column]).  With a list among the elements the records are no
    longer flat, and the frame, if any, is the one pandas builds
    ([nested]). *)
Definition json_normalize (column : list (option json) → result (string * list json))
    (nested : list json → result DataFrame) (data : list json) : result DataFrame :=
  if existsb is_arr data then nested data
  else
    let records := map normalise_record data in
    let cols := first_seen [] (concat (map (map fst) records)) in
    let? converted :=
      convert_columns column (map (λ c, map (λ r, raw_field r c) records) cols) in
    Ok {| df_header := zip cols (map fst converted);
          df_rows := imap (λ i _, map (λ d, nth i d.2 JNull) converted) records |}.

End Pandas.
Import Pandas.

(* ===================================================================== *)
(** ** The outside world and the effects of a call                        *)
(* ===================================================================== *)

Module Effects.

(** What the libraries answer.  A reader is asked for at most [nrows]
    rows; the engine of a database is named by its connection string. *)
Record world := {
  w_read_csv : pyval → pyval → pyval → nat → result DataFrame;
  w_read_excel : pyval → nat → result DataFrame;
  w_open : pyval → result pyval;
  w_json_load : pyval → result json;
  w_column : list (option json) → result (string * list json);
  w_nested : list json → result DataFrame;
  w_create_engine : string → result unit;
  w_read_sql : string → string → result DataFrame
}.

(** What a call leaves behind: engines created and disposed, and the
    lines written by [logger.error]. *)
Inductive event :=
| EngineCreated (engine : nat) (url : string)
| EngineDisposed (engine : nat)
| ErrorLogged (line : string).

Definition trace := list event.

(** Computations with a trace that may raise. *)
Definition M (A : Type) : Type := trace → result A * trace.

Definition ret {A} (a : A) : M A := λ t, (Ok a, t).

Definition bind {A B} (c : M A) (k : A → M B) : M B :=
  λ t, match c t with
       | (Ok a, t') => k a t'
       | (Raise e, t') => (Raise e, t')
       end.

Definition raise {A} (e : exn) : M A := λ t, (Raise e, t).

Definition lift {A} (r : result A) : M A := λ t, (r, t).

Definition emit (ev : event) : M unit := λ t, (Ok tt, t ++ [ev]).

(** [try: body  except Exception as e: handler(e)] *)
Definition try_except {A} (body : M A) (handler : exn → M A) : M A :=
  λ t, match body t with
       | (Ok a, t') => (Ok a, t')
       | (Raise e, t') => handler e t'
       end.

Definition is_created (ev : event) : bool :=
  match ev with EngineCreated _ _ => true | _ => false end.

(** [create_engine(url)]: a new engine, numbered in order of creation. *)
Definition create_engine (w : world) (url : string) : M nat :=
  λ t, match w_create_engine w url with
       | Ok _ =>
           let engine := length (List.filter is_created t) in
           (Ok engine, t ++ [EngineCreated engine url])
       | Raise e => (Raise e, t)
       end.

(** [engine.dispose()] *)
Definition dispose (engine : nat) : M unit := emit (EngineDisposed engine).

(** [str(e)] *)
Definition exn_str (e : exn) : string :=
  match e with
  | KeyError k => "'" +:+ k +:+ "'"
  | ValueError m | TypeError m | AttributeError m | OSError m
  | DecodeError m | HTTPError m | DatabaseError m
  | ZeroDivisionError m | OverflowError m => m
  | IndexError => "list index out of range"
  end.

(** [logger.error(line)] *)
Definition logger_error (line : string) : M unit := emit (ErrorLogged line).

(** The engines of a trace that were created and not disposed. *)
Definition disposed (t : trace) (engine : nat) : bool :=
  existsb (λ ev, match ev with EngineDisposed e => Nat.eqb e engine | _ => false end) t.

Definition live_engines (t : trace) : list nat :=
  flat_map (λ ev, match ev with
                  | EngineCreated e _ => if disposed t e then [] else [e]
                  | _ => []
                  end) t.

End Effects.
Import Effects.

Notation "'do!' x ':=' c 'in' k" := (Effects.bind c (fun x => k))
  (at level 10, x name, c at level 100, k at level 200).

(* ===================================================================== *)
(** ** services/analyzer.py: class MultiSourceAnalyzer                    *)
(* ===================================================================== *)

Module Analyzer.

(** [self.supported_types] *)
Definition supported_types : list SourceType := [CSV; POSTGRESQL; JSON; EXCEL].

(** [config[key]] *)
Definition item (config : gmap string pyval) (key : string) : result pyval :=
  match config !! key with
  | Some v => Ok v
  | None => Raise (KeyError key)
  end.

(** [config.get(key, dflt)] *)
Definition get (config : gmap string pyval) (key : string) (dflt : pyval) : pyval :=
  default dflt (config !! key).

(** [key in config] *)
Definition has_key (config : gmap string pyval) (key : string) : bool :=
  present (config !! key).

(** [pd.read_csv(src, delimiter=.., encoding=.., nrows=n)] *)
Definition read_csv (w : world) (src delimiter encoding : pyval) (nrows : nat)
  : result DataFrame :=
  let? df := w_read_csv w src delimiter encoding nrows in Ok (df_head nrows df).

(** [pd.read_excel(src, nrows=n)] *)
Definition read_excel (w : world) (src : pyval) (nrows : nat) : result DataFrame :=
  let? df := w_read_excel w src nrows in Ok (df_head nrows df).

(** [{col: f(col) for col in cols}] where [f] may raise. *)
Fixpoint dict_comp {V} (f : string → result V) (cols : list string)
    (acc : gmap string V) : result (gmap string V) :=
  match cols with
  | [] => Ok acc
  | col :: r => let? v := f col in dict_comp f r (<[col := v]> acc)
  end.

Definition _create_schema_info (df : DataFrame) : result SchemaInfo :=
  let df_clean := fillna (JStr EmptyString) df in
  let? nulls :=
    dict_comp (λ col, let? s := getitem df col in Ok (isnull_sum s)) (df_columns df) ∅ in
  let? uniques :=
    dict_comp (λ col, let? s := getitem df col in nunique s) (df_columns df) ∅ in
  Ok {| columns := df_columns df;
        dtypes := py_dict (df_dtypes_items df);
        sample_data := to_dict_records (df_head 5 df_clean);
        row_count := df_len df;
        null_counts := nulls;
        unique_counts := uniques |}.

Definition _analyze_csv (w : world) (config : gmap string pyval) : result SchemaInfo :=
  let? df :=
    if has_key config "file_data" then
      let? src := item config "file_data" in
      read_csv w src (get config "delimiter" (VStr ",")) (get config "encoding" (VStr "utf-8")) 1000
    else
      let? src := item config "file_path" in
      read_csv w src (get config "delimiter" (VStr ",")) (get config "encoding" (VStr "utf-8")) 1000
  in _create_schema_info df.

(** The f-string of the connection string; its fields are read in the
    order in which they appear. *)
Definition connection_string (config : gmap string pyval) : result string :=
  let? username := item config "username" in
  let? password := item config "password" in
  let? host := item config "host" in
  let port := get config "port" (VInt 5432) in
  let? database := item config "database" in
  Ok ("postgresql://" +:+ str_of username +:+ ":" +:+ str_of password
      +:+ "@" +:+ str_of host +:+ ":" +:+ str_of port +:+ "/" +:+ str_of database).

Definition _analyze_postgresql (w : world) (config : gmap string pyval) : M SchemaInfo :=
  do! url := lift (connection_string config) in
  do! engine := create_engine w url in
  do! table := lift (item config "table") in
  let query := "SELECT * FROM " +:+ str_of table +:+ " LIMIT 1000" in
  do! df := lift (w_read_sql w query url) in
  do! _ := dispose engine in
  lift (_create_schema_info df).

Definition _analyze_json (w : world) (config : gmap string pyval) : result SchemaInfo :=
  let? data :=
    if has_key config "file_data" then
      let? src := item config "file_data" in w_json_load w src
    else
      let? file_path := item config "file_path" in
      let? f := w_open w file_path in
      w_json_load w f
  in
  let? df := match data with
             | JArr l => json_normalize (w_column w) (w_nested w) l
             | _ => json_normalize (w_column w) (w_nested w) [data]
             end in
  _create_schema_info df.

Definition _analyze_excel (w : world) (config : gmap string pyval) : result SchemaInfo :=
  let? df :=
    if has_key config "file_data" then
      let? src := item config "file_data" in read_excel w src 1000
    else
      let? src := item config "file_path" in read_excel w src 1000
  in _create_schema_info df.

(** [source.type] as an f-string renders it (the name of the member,
    as the interpreter does from version 3.11 on). *)
Definition type_str (t : SourceType) : string :=
  match t with
  | CSV => "SourceType.CSV" | POSTGRESQL => "SourceType.POSTGRESQL"
  | CLICKHOUSE => "SourceType.CLICKHOUSE" | JSON => "SourceType.JSON"
  | EXCEL => "SourceType.EXCEL" | REST_API => "SourceType.REST_API"
  end.

(** The schema returned by the handler of [analyze_source]. *)
Definition empty_schema : SchemaInfo :=
  {| columns := []; dtypes := ∅; sample_data := []; row_count := 0;
     null_counts := ∅; unique_counts := ∅ |}.

(** The body of the [try] of [analyze_source]. *)
Definition analyze_source_body (w : world) (source : DataSourceConfig) : M SchemaInfo :=
  match type source with
  | CSV => lift (_analyze_csv w (config source))
  | POSTGRESQL => _analyze_postgresql w (config source)
  | JSON => lift (_analyze_json w (config source))
  | EXCEL => lift (_analyze_excel w (config source))
  | _ => raise (ValueError ("Unsupported source type: " +:+ type_str (type source)))
  end.

(** The line [analyze_source] logs for an exception. *)
Definition analyze_error (source : DataSourceConfig) (e : exn) : string :=
  "Error analyzing source " +:+ name source +:+ ": " +:+ exn_str e.

Definition analyze_source (w : world) (source : DataSourceConfig) : M SchemaInfo :=
  try_except
    (analyze_source_body w source)
    (λ e,
       do! _ := logger_error (analyze_error source e) in
       ret empty_schema).

(** [d.get("columns", [])] and its neighbours. *)
Definition get_columns (d : SchemaDict) : list string := default [] (d_columns d).
Definition get_unique_counts (d : SchemaDict) : gmap string Z := default ∅ (d_unique_counts d).
Definition get_row_count (d : SchemaDict) (dflt : Z) : Z := default dflt (d_row_count d).

Definition priority_patterns : list string := ["id"; "uuid"; "key"; "code"].

(** [for field in common_fields: if pattern in field.lower(): return field] *)
Fixpoint first_field (pattern : string) (fields : list string) : option string :=
  match fields with
  | [] => None
  | field :: r => if str_in pattern (lower field) then Some field else first_field pattern r
  end.

(** [for pattern in priority_patterns: ...] *)
Fixpoint by_pattern (patterns : list string) (fields : list string) : option string :=
  match patterns with
  | [] => None
  | pattern :: ps =>
      match first_field pattern fields with
      | Some field => Some field
      | None => by_pattern ps fields
      end
  end.

(** The quantity compared in the second loop of [_identify_primary_key],
    with its two quotients taken exactly. *)
Definition uniqueness (d1 d2 : SchemaDict) (field : string) : Qc :=
  Py.min
    (truediv (default 0 (get_unique_counts d1 !! field)) (Z.max (get_row_count d1 1) 1))
    (truediv (default 0 (get_unique_counts d2 !! field)) (Z.max (get_row_count d2 1) 1)).

(** The state of the second loop: [(best_field, max_uniqueness)]. *)
Definition best_step (d1 d2 : SchemaDict) (st : option string * Qc) (field : string)
  : option string * Qc :=
  let u := uniqueness d1 d2 field in
  if gt u st.2 then (Some field, u) else st.

(** [common_fields] is a Python set; [fields] is the sequence in which
    the interpreter iterates over it.  The scores are compared as exact
    quotients here; [Detector64._identify_primary_key] below compares them
    as the floats the interpreter computes, and can raise. *)
Definition _identify_primary_key (fields : list string)
    (source1 source2 : DataSourceConfig) : option string :=
  match by_pattern priority_patterns fields with
  | Some field => Some field
  | None =>
      match schema_info source1, schema_info source2 with
      | Some d1, Some d2 =>
          if dict_truthy d1 && dict_truthy d2 then
            (fold_left (best_step d1 d2) fields (None, Q2Qc 0)).1
          else head fields
      | _, _ => head fields
      end
  end.

(** [{primary_key: primary_key} if primary_key else {}]: no key for
    [None], and none for the column whose name is the empty string. *)
Definition join_keys_of (primary_key : option string) : gmap string string :=
  match primary_key with
  | Some (String c r) => {[ String c r := String c r ]}
  | _ => ∅
  end.

(** The body of the inner loop of [find_relationships]: what one pair
    appends to [relationships]. *)
Definition pair_step (iter : gset string → list string)
    (source1 source2 : DataSourceConfig) : list DataRelationship :=
  match schema_info source1, schema_info source2 with
  | Some d1, Some d2 =>
      if negb (dict_truthy d1) || negb (dict_truthy d2) then []
      else
        let cols1 : gset string := list_to_set (get_columns d1) in
        let cols2 : gset string := list_to_set (get_columns d2) in
        let common_fields := cols1 ∩ cols2 in
        if bool_decide (common_fields ≠ ∅) then
          let primary_key := _identify_primary_key (iter common_fields) source1 source2 in
          let confidence :=
            truediv (Z.of_nat (size common_fields))
                    (Z.max (Z.of_nat (size cols1)) (Z.of_nat (size cols2))) in
          [ {| source1_id := id source1;
               source2_id := id source2;
               join_type := "LEFT JOIN";
               join_keys := join_keys_of primary_key;
               confidence := confidence |} ]
        else []
  | _, _ => []
  end.

(** [iter] gives the iteration order of a set of column names. *)
Definition find_relationships (iter : gset string → list string)
    (sources : list DataSourceConfig) : list DataRelationship :=
  fold_left
    (λ relationships '(i, source1),
       fold_left
         (λ relationships source2, relationships ++ pair_step iter source1 source2)
         (drop (S i) sources) relationships)
    (imap (λ i s, (i, s)) sources) [].

(** The dict [patterns] of [analyze_data_patterns]. *)
Record Patterns := {
  has_temporal_data : bool;
  temporal_columns : list string;
  has_geographical_data : bool;
  geographical_columns : list string;
  total_estimated_rows : Z;
  data_types_distribution : gmap string Z;
  suggested_partitioning : option string
}.

Definition temporal_keywords : list string :=
  ["date"; "time"; "created"; "updated"; "timestamp"].
Definition geo_keywords : list string :=
  ["lat"; "lon"; "city"; "country"; "region"; "address"].

(** [any(keyword in col.lower() for keyword in keywords)] *)
Definition matches (keywords : list string) (col : string) : bool :=
  let col_lower := lower col in
  any (λ keyword, str_in keyword col_lower) keywords.

Definition mark_temporal (p : Patterns) (col : string) : Patterns :=
  if matches temporal_keywords col then
    {| has_temporal_data := true;
       temporal_columns := temporal_columns p ++ [col];
       has_geographical_data := has_geographical_data p;
       geographical_columns := geographical_columns p;
       total_estimated_rows := total_estimated_rows p;
       data_types_distribution := data_types_distribution p;
       suggested_partitioning := suggested_partitioning p |}
  else p.

Definition mark_geo (p : Patterns) (col : string) : Patterns :=
  if matches geo_keywords col then
    {| has_temporal_data := has_temporal_data p;
       temporal_columns := temporal_columns p;
       has_geographical_data := true;
       geographical_columns := geographical_columns p ++ [col];
       total_estimated_rows := total_estimated_rows p;
       data_types_distribution := data_types_distribution p;
       suggested_partitioning := suggested_partitioning p |}
  else p.

(** The local variables of [analyze_data_patterns] that the loop over
    the sources updates. *)
Record loop_state := {
  patterns : Patterns;
  total_rows : Z;
  all_columns : list string
}.

Definition source_step (st : loop_state) (source : DataSourceConfig) : loop_state :=
  match schema_info source with
  | Some d =>
      if dict_truthy d then
        let columns := get_columns d in
        {| patterns := fold_left mark_geo columns (fold_left mark_temporal columns (patterns st));
           total_rows := total_rows st + get_row_count d 0;
           all_columns := all_columns st ++ columns |}
      else st
  | None => st
  end.

Definition set_total (p : Patterns) (n : Z) : Patterns :=
  {| has_temporal_data := has_temporal_data p;
     temporal_columns := temporal_columns p;
     has_geographical_data := has_geographical_data p;
     geographical_columns := geographical_columns p;
     total_estimated_rows := n;
     data_types_distribution := data_types_distribution p;
     suggested_partitioning := suggested_partitioning p |}.

Definition set_partitioning (p : Patterns) (s : string) : Patterns :=
  {| has_temporal_data := has_temporal_data p;
     temporal_columns := temporal_columns p;
     has_geographical_data := has_geographical_data p;
     geographical_columns := geographical_columns p;
     total_estimated_rows := total_estimated_rows p;
     data_types_distribution := data_types_distribution p;
     suggested_partitioning := Some s |}.

Definition analyze_data_patterns (sources : list DataSourceConfig) : Patterns :=
  let init :=
    {| patterns := {| has_temporal_data := false; temporal_columns := [];
                      has_geographical_data := false; geographical_columns := [];
                      total_estimated_rows := 0; data_types_distribution := ∅;
                      suggested_partitioning := None |};
       total_rows := 0;
       all_columns := [] |} in
  let st := fold_left source_step sources init in
  let patterns := set_total (patterns st) (total_rows st) in
  if has_temporal_data patterns then
    if total_rows st >? 1000000 then set_partitioning patterns "monthly"
    else if total_rows st >? 100000 then set_partitioning patterns "yearly"
    else patterns
  else patterns.

End Analyzer.
Import Analyzer.

(* ===================================================================== *)
(** ** _identify_primary_key, with its quotients as floats                *)
(* ===================================================================== *)

Module Detector64.

(** The quantity compared in the second loop of [_identify_primary_key]:
    [min] of the two ratios, each the float quotient of two ints, the
    first ratio computed first. *)
Definition uniqueness (d1 d2 : SchemaDict) (field : string) : result Qc :=
  let? ratio1 :=
    Binary64.truediv (default 0 (get_unique_counts d1 !! field))
                     (Z.max (get_row_count d1 1) 1) in
  let? ratio2 :=
    Binary64.truediv (default 0 (get_unique_counts d2 !! field))
                     (Z.max (get_row_count d2 1) 1) in
  Ok (Py.min ratio1 ratio2).

(** The body of the second loop, on the state [(best_field, max_uniqueness)]. *)
Definition best_step (d1 d2 : SchemaDict) (st : option string * Qc) (field : string)
  : result (option string * Qc) :=
  let? u := uniqueness d1 d2 field in
  Ok (if gt u st.2 then (Some field, u) else st).

(** [for field in common_fields: ...]; an exception ends the loop. *)
Fixpoint second_loop (d1 d2 : SchemaDict) (fields : list string)
    (st : option string * Qc) : result (option string * Qc) :=
  match fields with
  | [] => Ok st
  | field :: r =>
      let? st' := best_step d1 d2 st field in
      second_loop d1 d2 r st'
  end.

(** [common_fields] is a Python set; [fields] is the sequence in which
    the interpreter iterates over it. *)
Definition _identify_primary_key (fields : list string)
    (source1 source2 : DataSourceConfig) : result (option string) :=
  match by_pattern priority_patterns fields with
  | Some field => Ok (Some field)
  | None =>
      match schema_info source1, schema_info source2 with
      | Some d1, Some d2 =>
          if dict_truthy d1 && dict_truthy d2 then
            let? st := second_loop d1 d2 fields (None, Q2Qc 0) in
            Ok st.1
          else Ok (head fields)
      | _, _ => Ok (head fields)
      end
  end.

(** The body of the inner loop of [find_relationships]: the key is
    selected first, then the confidence is computed, a float as well. *)
Definition pair_step (iter : gset string → list string)
    (source1 source2 : DataSourceConfig) : result (list DataRelationship) :=
  match schema_info source1, schema_info source2 with
  | Some d1, Some d2 =>
      if negb (dict_truthy d1) || negb (dict_truthy d2) then Ok []
      else
        let cols1 : gset string := list_to_set (get_columns d1) in
        let cols2 : gset string := list_to_set (get_columns d2) in
        let common_fields := cols1 ∩ cols2 in
        if bool_decide (common_fields ≠ ∅) then
          let? primary_key := _identify_primary_key (iter common_fields) source1 source2 in
          let? confidence :=
            Binary64.truediv (Z.of_nat (size common_fields))
                             (Z.max (Z.of_nat (size cols1)) (Z.of_nat (size cols2))) in
          Ok [ {| source1_id := id source1;
                  source2_id := id source2;
                  join_type := "LEFT JOIN";
                  join_keys := join_keys_of primary_key;
                  confidence := confidence |} ]
        else Ok []
  | _, _ => Ok []
  end.

(** [for j, source2 in enumerate(sources[i+1:], i+1): ...] *)
Fixpoint inner_loop (iter : gset string → list string) (source1 : DataSourceConfig)
    (rest : list DataSourceConfig) (relationships : list DataRelationship)
  : result (list DataRelationship) :=
  match rest with
  | [] => Ok relationships
  | source2 :: r =>
      let? found := pair_step iter source1 source2 in
      inner_loop iter source1 r (relationships ++ found)
  end.

(** [for i, source1 in enumerate(sources): ...], from the sources that
    are left. *)
Fixpoint outer_loop (iter : gset string → list string) (sources : list DataSourceConfig)
    (relationships : list DataRelationship) : result (list DataRelationship) :=
  match sources with
  | [] => Ok relationships
  | source1 :: rest =>
      let? relationships' := inner_loop iter source1 rest relationships in
      outer_loop iter rest relationships'
  end.

(** [find_relationships] as the interpreter runs it: an exception of a
    quotient ends it. *)
Definition find_relationships (iter : gset string → list string)
    (sources : list DataSourceConfig) : result (list DataRelationship) :=
  outer_loop iter sources [].

End Detector64.

(* ===================================================================== *)
(** ** services/llm_service.py: class LLMService                          *)
(* ===================================================================== *)

Module LLM.

(** [data_patterns : Dict[str, Any]], read with [.get(key, default)]: a
    key that is absent is [None] here. *)
Record DataPatterns := {
  p_has_temporal_data : option bool;
  p_temporal_columns : option (list string);
  p_has_geographical_data : option bool;
  p_total_estimated_rows : option Z
}.

(** The dict returned by [analyze_data_patterns], as [main.py] passes it. *)
Definition of_patterns (p : Patterns) : DataPatterns :=
  {| p_has_temporal_data := Some (has_temporal_data p);
     p_temporal_columns := Some (temporal_columns p);
     p_has_geographical_data := Some (has_geographical_data p);
     p_total_estimated_rows := Some (total_estimated_rows p) |}.

(** The dicts of the recommendation. *)
Record Storage := {
  primary : string;
  reasoning : string;
  alternatives : list string
}.

Record Design := {
  main_table : string;
  partitioning : option string;
  indexes : list string;
  ddl_script : string
}.

Record Pipeline := {
  steps : list string;
  schedule : string;
  estimated_runtime : string
}.

Record Recommendations := {
  storage_recommendation : Storage;
  schema_design : Design;
  etl_pipeline : Pipeline
}.

Definition analytics_keywords : list string :=
  ["продажи"; "аналитика"; "отчет"; "дашборд"].

Definition reasoning_analytics : string :=
  "Аналитические запросы по временным данным с большим объемом".
Definition reasoning_volume : string :=
  "Большой объем данных требует колоночного хранилища".
Definition reasoning_default : string :=
  "Стандартные операционные данные средней нагрузки".

Definition monthly_expr : string := "PARTITION BY toYYYYMM(date)".
Definition yearly_expr : string := "PARTITION BY toYear(date)".

Definition freq_map : gmap string string :=
  py_dict [("once", "# Run once manually"); ("hourly", "0 * * * *");
           ("daily", "0 2 * * *"); ("weekly", "0 2 * * 0")].

(** The f-string of the ClickHouse statement. *)
Definition ddl_clickhouse (main_table : string) (partitioning : option string)
    (indexes : list string) : string :=
  nl +:+ "CREATE TABLE " +:+ main_table +:+ nl
  +:+ "(" +:+ nl
  +:+ "    date Date," +:+ nl
  +:+ "    timestamp DateTime," +:+ nl
  +:+ "    -- Add your columns here based on source analysis" +:+ nl
  +:+ ") ENGINE = MergeTree()" +:+ nl
  +:+ (match partitioning with
       | Some p => if String.eqb p EmptyString then EmptyString else p
       | None => EmptyString
       end) +:+ nl
  +:+ "ORDER BY (" +:+ (match indexes with [] => "date" | _ => join ", " indexes end)
  +:+ ")" +:+ nl.

(** The f-string of the PostgreSQL statement. *)
Definition ddl_postgresql (main_table : string) (indexes : list string) : string :=
  nl +:+ "CREATE TABLE " +:+ main_table +:+ " (" +:+ nl
  +:+ "    id SERIAL PRIMARY KEY," +:+ nl
  +:+ "    created_at TIMESTAMP DEFAULT CURRENT_TIMESTAMP," +:+ nl
  +:+ "    -- Add your columns here based on source analysis" +:+ nl
  +:+ ");" +:+ nl
  +:+ (match indexes with
       | [] => EmptyString
       | _ => "CREATE INDEX ON " +:+ main_table +:+ " (" +:+ join ", " indexes +:+ ");"
       end) +:+ nl.

Definition _generate_rule_based_recommendations (sources : list DataSourceConfig)
    (business_requirements : BusinessRequirements) (data_patterns : DataPatterns)
  : Recommendations :=
  let total_rows := default 0 (p_total_estimated_rows data_patterns) in
  let has_temporal := default false (p_has_temporal_data data_patterns) in
  let is_analytics :=
    any (λ metric, list_in metric analytics_keywords)
        (target_metrics business_requirements) in
  let '(storage, reasoning) :=
    if is_analytics && has_temporal && (total_rows >? 100000) then
      ("clickhouse", reasoning_analytics)
    else if total_rows >? 1000000 then
      ("clickhouse", reasoning_volume)
    else
      ("postgresql", reasoning_default) in
  let partitioning :=
    if has_temporal && String.eqb storage "clickhouse" then
      if total_rows >? 1000000 then Some monthly_expr else Some yearly_expr
    else None in
  let temporal_cols := default [] (p_temporal_columns data_patterns) in
  let indexes :=
    match temporal_cols with
    | [] => []
    | _ => [] ++ firstn 2 temporal_cols
    end in
  let main_table := if is_analytics then "analytics_data" else "processed_data" in
  let ddl :=
    if String.eqb storage "clickhouse" then ddl_clickhouse main_table partitioning indexes
    else ddl_postgresql main_table indexes in
  let schedule :=
    default "0 2 * * *"
      (freq_map !! frequency_value (update_frequency business_requirements)) in
  {| storage_recommendation :=
       {| primary := storage;
          reasoning := reasoning;
          alternatives := if String.eqb storage "hdfs" then ["postgresql"; "clickhouse"]
                          else ["hdfs"] |};
     schema_design :=
       {| main_table := main_table;
          partitioning := partitioning;
          indexes := indexes;
          ddl_script := strip ddl |};
     etl_pipeline :=
       {| steps := ["Extract from sources"; "Join data on common keys";
                    "Apply transformations"; "Load to " +:+ storage];
          schedule := schedule;
          estimated_runtime := "10-30 minutes" |} |}.

(** What [_create_analysis_prompt] interpolates into the text of the
    prompt, field by field; the text around the fields is fixed. *)
Record SourceLine := {
  sl_name : string;
  sl_type : SourceType;
  sl_columns : Z;
  sl_rows : Z;
  sl_key_fields : option (list string)
}.

Record Prompt := {
  pr_sources : list SourceLine;
  pr_has_temporal : bool;
  pr_temporal_columns : list string;
  pr_has_geographical : bool;
  pr_total_rows : Z;
  pr_goal : string;
  pr_metrics : list string;
  pr_frequency : UpdateFrequency;
  pr_load : string
}.

(** One line of [sources_info]; [source.schema_info.get] raises
    AttributeError when the source has no schema. *)
Definition source_line (source : DataSourceConfig) : result SourceLine :=
  match schema_info source with
  | None => Raise (AttributeError "'NoneType' object has no attribute 'get'")
  | Some d =>
      Ok {| sl_name := name source;
            sl_type := type source;
            sl_columns := Z.of_nat (length (get_columns d));
            sl_rows := get_row_count d 0;
            sl_key_fields := match d_columns d with
                             | Some (c :: r) => Some (firstn 5 (c :: r))
                             | _ => None
                             end |}
  end.

Fixpoint sources_info (sources : list DataSourceConfig) : result (list SourceLine) :=
  match sources with
  | [] => Ok []
  | source :: r =>
      let? info := source_line source in
      let? rest := sources_info r in
      Ok (info :: rest)
  end.

Definition _create_analysis_prompt (sources : list DataSourceConfig)
    (business_requirements : BusinessRequirements) (data_patterns : DataPatterns)
  : result Prompt :=
  let? lines := sources_info sources in
  Ok {| pr_sources := lines;
        pr_has_temporal := default false (p_has_temporal_data data_patterns);
        pr_temporal_columns := default [] (p_temporal_columns data_patterns);
        pr_has_geographical := default false (p_has_geographical_data data_patterns);
        pr_total_rows := default 0 (p_total_estimated_rows data_patterns);
        pr_goal := goal business_requirements;
        pr_metrics := target_metrics business_requirements;
        pr_frequency := update_frequency business_requirements;
        pr_load := expected_load business_requirements |}.

(** The outcome of [client.post]: an exception of httpx (no connection,
    timeout after 30 seconds), or a response with its status code, its
    text and the value of [response.json()]. *)
Inductive http_outcome :=
| Failed (e : exn)
| Response (status_code : Z) (text : string) (body : result json).

(** The generative backends and [json.loads]. *)
Record backend := {
  b_yandex : Prompt → http_outcome;
  b_deepseek : Prompt → http_outcome;
  b_json_loads : string → result json
}.

(** The attributes of the service read from the environment. *)
Record LLMService := {
  yandex_api_key : option string;
  deepseek_api_key : option string
}.

(** [if key:] for an [Optional[str]] *)
Definition key_set (k : option string) : bool :=
  match k with
  | Some (String _ _) => true
  | _ => false
  end.

(** [j[key]] *)
Definition subscript (j : json) (key : string) : result json :=
  match j with
  | JObj fields =>
      match py_dict fields !! key with
      | Some v => Ok v
      | None => Raise (KeyError key)
      end
  | _ => Raise (TypeError "indices must be integers")
  end.

(** [j[0]] *)
Definition subscript0 (j : json) : result json :=
  match j with
  | JArr (x :: _) => Ok x
  | JArr [] => Raise IndexError
  | JStr (String c _) => Ok (JStr (String c EmptyString))
  | JStr EmptyString => Raise IndexError
  | JObj _ => Raise (KeyError "0")
  | _ => Raise (TypeError "object is not subscriptable")
  end.

(** Truth value of what a call returns. *)
Definition truthy (j : json) : bool :=
  match j with
  | JNull | JBool false | JInt 0 | JStr EmptyString | JArr [] | JObj [] => false
  | JFloat x => negb (Qeq_bool x 0)
  | _ => true
  end.

Definition _call_yandex_gpt (b : backend) (prompt : Prompt) : M json :=
  match b_yandex b prompt with
  | Failed e => raise e
  | Response status_code text body =>
      if Z.eqb status_code 200 then
        lift (let? result := body in
              let? r := subscript result "result" in
              let? a := subscript r "alternatives" in
              let? a0 := subscript0 a in
              let? m := subscript a0 "message" in
              subscript m "text")
      else
        do! _ := logger_error ("YandexGPT API error: " +:+ str_of_int status_code
                               +:+ " - " +:+ text) in
        ret JNull
  end.

Definition _call_deepseek (b : backend) (prompt : Prompt) : M json :=
  match b_deepseek b prompt with
  | Failed e => raise e
  | Response status_code text body =>
      if Z.eqb status_code 200 then
        lift (let? result := body in
              let? c := subscript result "choices" in
              let? c0 := subscript0 c in
              let? m := subscript c0 "message" in
              subscript m "content")
      else
        do! _ := logger_error ("DeepSeek API error: " +:+ str_of_int status_code
                               +:+ " - " +:+ text) in
        ret JNull
  end.

(** What [generate_recommendations] returns: a dict decoded from the
    reply of a backend, or the dict of the rules. *)
Inductive answer :=
| Decoded (j : json)
| Rules (r : Recommendations).

(** The dict without keys. *)
Definition empty_dict : answer := Decoded (JObj []).

(** [type(j).__name__] *)
Definition type_name (j : json) : string :=
  match j with
  | JNull => "NoneType" | JBool _ => "bool" | JInt _ => "int" | JFloat _ => "float"
  | JStr _ => "str" | JArr _ => "list" | JObj _ => "dict"
  end.

Definition _parse_llm_response (b : backend) (response : json) : M answer :=
  try_except
    (match response with
     | JStr response =>
         let start := find "{" response in
         let end_ := rfind "}" response + 1 in
         if negb (Z.eqb start (-1)) && negb (Z.eqb end_ 0) then
           let json_str := slice response start end_ in
           do! j := lift (b_json_loads b json_str) in
           ret (Decoded j)
         else raise (ValueError "JSON not found in response")
     | _ => raise (AttributeError ("'" +:+ type_name response
                                  +:+ "' object has no attribute 'find'"))
     end)
    (λ e,
       do! _ := logger_error ("Error parsing LLM response: " +:+ exn_str e) in
       ret empty_dict).

Definition generate_recommendations (self : LLMService) (b : backend)
    (sources : list DataSourceConfig) (business_requirements : BusinessRequirements)
    (data_patterns : DataPatterns) : M answer :=
  do! prompt := lift (_create_analysis_prompt sources business_requirements data_patterns) in
  let rule_based :=
    Rules (_generate_rule_based_recommendations sources business_requirements data_patterns) in
  let after_yandex : M answer :=
    let after_deepseek : M answer := ret rule_based in
    if key_set (deepseek_api_key self) then
      do! response := _call_deepseek b prompt in
      if truthy response then _parse_llm_response b response else after_deepseek
    else after_deepseek in
  try_except
    (if key_set (yandex_api_key self) then
       do! response := _call_yandex_gpt b prompt in
       if truthy response then _parse_llm_response b response else after_yandex
     else after_yandex)
    (λ e,
       do! _ := logger_error ("Error generating LLM recommendations: " +:+ exn_str e) in
       ret rule_based).

End LLM.
Import LLM.

(* ===================================================================== *)
(** ** The properties, as the specification words them                    *)
(* ===================================================================== *)

Module Spec.

(** [needle] occurs in [hay]. *)
Definition occurs (needle hay : string) : Prop :=
  ∃ pre post, hay = pre +:+ needle +:+ post.

(** A column name carries one of the keywords, case-insensitively. *)
Definition carries (keywords : list string) (col : string) : Prop :=
  ∃ keyword, keyword ∈ keywords ∧ occurs keyword (lower col).

(** The columns a source contributes: those of its schema, if it has one. *)
Definition columns_of (s : DataSourceConfig) : list string :=
  match schema_info s with
  | Some d => if dict_truthy d then get_columns d else []
  | None => []
  end.

(** The rows a source contributes. *)
Definition rows_of (s : DataSourceConfig) : Z :=
  match schema_info s with
  | Some d => if dict_truthy d then get_row_count d 0 else 0
  | None => 0
  end.



(** The column sets of a pair and what they share. *)
Definition column_set (s : DataSourceConfig) : gset string := list_to_set (columns_of s).
Definition common (s1 s2 : DataSourceConfig) : gset string :=
  column_set s1 ∩ column_set s2.

(** |common columns| / max(|cols1|, |cols2|) *)
Definition confidence_of (s1 s2 : DataSourceConfig) : Qc :=
  truediv (Z.of_nat (size (common s1 s2)))
          (Z.max (Z.of_nat (size (column_set s1))) (Z.of_nat (size (column_set s2)))).

(** The keys of the three per-column mappings are the columns. *)
Definition keys_match (s : SchemaInfo) : Prop :=
  dom (dtypes s) = (list_to_set (columns s) : gset string)
  ∧ dom (null_counts s) = (list_to_set (columns s) : gset string)
  ∧ dom (unique_counts s) = (list_to_set (columns s) : gset string).

(** The target metrics meet the analytics keywords. *)
Definition analytics (br : BusinessRequirements) : Prop :=
  ∃ metric, metric ∈ target_metrics br ∧ metric ∈ analytics_keywords.

(** The first field of [fields] that carries [pattern]. *)
Definition first_with (pattern : string) (fields : list string) (k : string) : Prop :=
  ∃ before after, fields = before ++ k :: after
    ∧ occurs pattern (lower k)
    ∧ ∀ f, f ∈ before → ¬ occurs pattern (lower f).

(** [k] is chosen by name: it is the first field with the first of the
    priority patterns that any field carries. *)
Definition chosen_by_name (fields : list string) (k : string) : Prop :=
  ∃ earlier pattern later, priority_patterns = earlier ++ pattern :: later
    ∧ (∀ q f, q ∈ earlier → f ∈ fields → ¬ occurs q (lower f))
    ∧ first_with pattern fields k.

(** No field carries a priority pattern. *)
Definition no_name_match (fields : list string) : Prop :=
  ∀ q f, q ∈ priority_patterns → f ∈ fields → ¬ occurs q (lower f).

(** [k] is the first field, in iteration order, of the highest score. *)
Definition first_best (score : string → Qc) (fields : list string) (k : string) : Prop :=
  ∃ before after, fields = before ++ k :: after
    ∧ (∀ f, f ∈ before → (score f < score k)%Qc)
    ∧ (∀ f, f ∈ after → (score f <= score k)%Qc).

(** [kept] is [l] without the elements that fail [P], in the order of [l]. *)
Inductive keeps {A} (P : A → Prop) : list A → list A → Prop :=
| keeps_nil : keeps P [] []
| keeps_yes x l kept : P x → keeps P l kept → keeps P (x :: l) (x :: kept)
| keeps_no x l kept : ¬ P x → keeps P l kept → keeps P (x :: l) kept.

(** The sum of a list of ints. *)
Definition sum (l : list Z) : Z := foldr Z.add 0 l.

(** The effect of the two inner loops of [analyze_data_patterns] on
    [patterns], for the columns [cols] of one or more sources. *)
Definition marked (p : Patterns) (cols : list string) : Patterns :=
  {| has_temporal_data :=
       has_temporal_data p || existsb (matches temporal_keywords) cols;
     temporal_columns :=
       temporal_columns p ++ List.filter (matches temporal_keywords) cols;
     has_geographical_data :=
       has_geographical_data p || existsb (matches geo_keywords) cols;
     geographical_columns :=
       geographical_columns p ++ List.filter (matches geo_keywords) cols;
     total_estimated_rows := total_estimated_rows p;
     data_types_distribution := data_types_distribution p;
     suggested_partitioning := suggested_partitioning p |}.

(** The pairs of sources at positions [i < j], [i] ascending, then [j]. *)
Fixpoint source_pairs (sources : list DataSourceConfig)
  : list (DataSourceConfig * DataSourceConfig) :=
  match sources with
  | [] => []
  | s1 :: rest => map (pair s1) rest ++ source_pairs rest
  end.



(** The elements of a JSON document: those of the root array, or the
    root itself when it is not an array. *)
Definition root_elements (data : json) : list json :=
  match data with
  | JArr l => l
  | _ => [data]
  end.

(** [stream] is what a file-backed source is read from: the uploaded
    file under [file_data], or else the file opened at [file_path]. *)
Definition reads_from (w : world) (config : gmap string pyval) (stream : pyval) : Prop :=
  config !! "file_data" = Some stream
  ∨ (config !! "file_data" = None
     ∧ ∃ file_path, config !! "file_path" = Some file_path ∧ w_open w file_path = Ok stream).

(** The distinct counts of the schema of a source, if it has one, lie
    within its row count. *)
Definition within_rows (s : DataSourceConfig) : Prop :=
  ∀ d, schema_info s = Some d →
       ∀ f n, get_unique_counts d !! f = Some n → 0 <= n <= get_row_count d 1.

(** [score] gives the score the code computes for each of [fields]. *)
Definition scores (d1 d2 : SchemaDict) (fields : list string) (score : string → Qc) : Prop :=
  ∀ f, f ∈ fields → Detector64.uniqueness d1 d2 f = Ok (score f).

(** "If no common column matches any substring, the key with the highest
    score is selected." *)
Definition highest_score_is_selected : Prop :=
  ∀ fields s1 s2 d1 d2 score k,
    schema_info s1 = Some d1 → dict_truthy d1 = true →
    schema_info s2 = Some d2 → dict_truthy d2 = true →
    no_name_match fields →
    scores d1 d2 fields score →
    first_best score fields k →
    Detector64._identify_primary_key fields s1 s2 = Ok (Some k).

(** "profile raises an error to the caller if and only if the source
    kind is not in the supported enumeration." *)
Definition raises_iff_unsupported : Prop :=
  ∀ w source t,
    (∃ e, (analyze_source w source t).1 = Raise e) ↔ type source ∉ supported_types.

End Spec.
Import Spec.

(* ===================================================================== *)
(** ** Concrete inputs                                                    *)
(* ===================================================================== *)

Module Samples.

(** What pandas makes of the columns of the sample documents: a column
    of small ints is [int64] and a column of strings is [object], with
    the cells as they are. *)
Definition int_or_object (raw : list (option json)) : result (string * list json) :=
  Ok (if forallb (λ c, match c with Some (JInt _) => true | _ => false end) raw
      then "int64" else "object",
      map (default JNull) raw).

(** A world in which no file can be read and no database reached. *)
Definition offline : world :=
  {| w_read_csv := λ _ _ _ _, Raise (OSError "No such file or directory");
     w_read_excel := λ _ _, Raise (OSError "No such file or directory");
     w_open := λ _, Raise (OSError "No such file or directory");
     w_json_load := λ _, Raise (DecodeError "Expecting value");
     w_column := int_or_object;
     w_nested := λ _, Raise (TypeError "unhashable type: 'dict'");
     w_create_engine := λ _, Raise (DatabaseError "could not connect");
     w_read_sql := λ _ _, Raise (DatabaseError "could not connect") |}.

(** A world whose JSON files all hold the document [doc]. *)
Definition with_document (doc : json) : world :=
  {| w_read_csv := w_read_csv offline;
     w_read_excel := w_read_excel offline;
     w_open := λ path, Ok path;
     w_json_load := λ _, Ok doc;
     w_column := w_column offline;
     w_nested := w_nested offline;
     w_create_engine := w_create_engine offline;
     w_read_sql := w_read_sql offline |}.

(** A world whose database accepts connections and answers every query
    with [answer]. *)
Definition with_database (answer : result DataFrame) : world :=
  {| w_read_csv := w_read_csv offline;
     w_read_excel := w_read_excel offline;
     w_open := w_open offline;
     w_json_load := w_json_load offline;
     w_column := w_column offline;
     w_nested := w_nested offline;
     w_create_engine := λ _, Ok tt;
     w_read_sql := λ _ _, answer |}.

(** A document whose root is a list of 1001 objects. *)
Definition long_document : json :=
  JArr (replicate 1001 (JObj [("id", JInt 7)])).

Definition json_source : DataSourceConfig :=
  {| id := "events"; name := "events"; type := JSON;
     config := {[ "file_path" := VStr "events.json" ]};
     schema_info := None |}.

Definition csv_source : DataSourceConfig :=
  {| id := "sales"; name := "sales"; type := CSV;
     config := {[ "file_path" := VStr "sales.csv" ]};
     schema_info := None |}.

Definition clickhouse_source : DataSourceConfig :=
  {| id := "warehouse"; name := "warehouse"; type := CLICKHOUSE;
     config := ∅; schema_info := None |}.

Definition postgres_source : DataSourceConfig :=
  {| id := "crm"; name := "crm"; type := POSTGRESQL;
     config := py_dict [("username", VStr "etl"); ("password", VStr "secret");
                        ("host", VStr "db"); ("database", VStr "crm");
                        ("table", VStr "missing_table")];
     schema_info := None |}.

(** The answer of a database that does not know the table. *)
Definition undefined_table : result DataFrame :=
  Raise (DatabaseError "relation does not exist").

(** A table of two rows. *)
Definition two_rows : DataFrame :=
  {| df_header := [("customer_id", "int64"); ("name", "object")];
     df_rows := [[JInt 1; JStr "a"]; [JInt 2; JNull]] |}.

(** A profiled source: its columns, row count and distinct counts. *)
Definition profiled (i : string) (cols : list string) (rows : Z)
    (uniques : list (string * Z)) : DataSourceConfig :=
  {| id := i; name := i; type := CSV; config := ∅;
     schema_info :=
       Some {| d_columns := Some cols; d_dtypes := Some ∅; d_sample_data := Some [];
               d_row_count := Some rows; d_null_counts := Some ∅;
               d_unique_counts := Some (py_dict uniques) |} |}.

(** The Schema Info whose dict a profiled sample source carries. *)
Definition sample_profile (cols : list string) (rows : Z) (uniques : list (string * Z))
  : SchemaInfo :=
  {| columns := cols; dtypes := ∅; sample_data := []; row_count := rows;
     null_counts := ∅; unique_counts := py_dict uniques |}.

Definition orders : DataSourceConfig :=
  profiled "orders" ["order_id"; "customer_id"; "amount"; "created_at"] 500000
           [("order_id", 1000); ("customer_id", 400); ("amount", 800); ("created_at", 990)].

Definition customers : DataSourceConfig :=
  profiled "customers" ["customer_id"; "name"; "country"] 10000
           [("customer_id", 1000); ("name", 950); ("country", 30)].

(** Two files that hold a header and no row. *)
Definition left_header_only : DataSourceConfig :=
  profiled "left" ["name"] 0 [("name", 0)].
Definition right_header_only : DataSourceConfig :=
  profiled "right" ["name"] 0 [("name", 0)].

(** Two tables whose columns [name] and [amount] have scores that differ
    as quotients, 99999998/99999999 and 99999999/100000000, and are the
    same float. *)
Definition left_rounding : DataSourceConfig :=
  profiled "left" ["name"; "amount"] 99999999
           [("name", 99999998); ("amount", 99999999)].
Definition right_rounding : DataSourceConfig :=
  profiled "right" ["name"; "amount"] 100000000
           [("name", 100000000); ("amount", 99999999)].

(** The score of both of these columns: the float nearest to
    99999999/100000000. *)
Definition one_float : Qc :=
  match Binary64.truediv 99999999 100000000 with
  | Ok u => u
  | Raise _ => Q2Qc 0
  end.

(** The schema of a sample source. *)
Definition schema_of (s : DataSourceConfig) : SchemaDict :=
  default {| d_columns := None; d_dtypes := None; d_sample_data := None;
             d_row_count := None; d_null_counts := None; d_unique_counts := None |}
          (schema_info s).

(** A distinct count that no profile has: the quotient by the row count
    exceeds every float. *)
Definition left_overflowing : DataSourceConfig :=
  profiled "left" ["name"] 1 [("name", 10 ^ 400)].

(** A column name written with U+212A KELVIN SIGN. *)
Definition kelvin_ey : string := bytes [226; 132; 170]%nat +:+ "EY".

Definition requirements : BusinessRequirements :=
  {| goal := "reporting"; target_metrics := ["аналитика"];
     update_frequency := DAILY; expected_load := "medium"; data_retention := "1y" |}.

(** Patterns of two million rows with a temporal column. *)
Definition large_temporal : DataPatterns :=
  {| p_has_temporal_data := Some true; p_temporal_columns := Some ["created_at"];
     p_has_geographical_data := Some false; p_total_estimated_rows := Some 2000000 |}.

Definition service : LLMService :=
  {| yandex_api_key := Some "key"; deepseek_api_key := None |}.

(** The body of a YandexGPT response carrying the text [text]. *)
Definition yandex_body (text : string) : json :=
  JObj [("result",
         JObj [("alternatives",
                JArr [JObj [("message", JObj [("role", JStr "assistant");
                                              ("text", JStr text)])]])])].

(** A backend that answers with status 200 and prose without a JSON
    object; [json.loads] rejects every string. *)
Definition prose_backend : backend :=
  {| b_yandex := λ _, Response 200 "OK" (Ok (yandex_body "I cannot answer that."));
     b_deepseek := λ _, Failed (HTTPError "unreachable");
     b_json_loads := λ _, Raise (DecodeError "Expecting value") |}.

(** A backend that answers with status 500. *)
Definition broken_backend : backend :=
  {| b_yandex := λ _, Response 500 "Internal Server Error" (Raise (DecodeError "Expecting value"));
     b_deepseek := λ _, Failed (HTTPError "unreachable");
     b_json_loads := λ _, Raise (DecodeError "Expecting value") |}.

End Samples.

(* ===================================================================== *)
(** ** services/pipeline_generator.py: generate_sql_scripts               *)
(* ===================================================================== *)

Module Generator.

(** The lines of a triple-quoted literal. *)
Definition lines (l : list string) : string := join nl l.

(** [None] or a string, as a value of a dict. *)
Definition json_opt (o : option string) : json :=
  match o with
  | Some s => JStr s
  | None => JNull
  end.

(** The dict literal that [_generate_rule_based_recommendations] returns. *)
Definition rules_json (r : Recommendations) : json :=
  JObj [("storage_recommendation",
         JObj [("primary", JStr (primary (storage_recommendation r)));
               ("reasoning", JStr (reasoning (storage_recommendation r)));
               ("alternatives", JArr (map JStr (alternatives (storage_recommendation r))))]);
        ("schema_design",
         JObj [("main_table", JStr (main_table (schema_design r)));
               ("partitioning", json_opt (partitioning (schema_design r)));
               ("indexes", JArr (map JStr (indexes (schema_design r))));
               ("ddl_script", JStr (ddl_script (schema_design r)))]);
        ("etl_pipeline",
         JObj [("steps", JArr (map JStr (steps (etl_pipeline r))));
               ("schedule", JStr (schedule (etl_pipeline r)));
               ("estimated_runtime", JStr (estimated_runtime (etl_pipeline r)))])].

(** What [generate_recommendations] returns, as the dict it is. *)
Definition answer_json (a : answer) : json :=
  match a with
  | Decoded j => j
  | Rules r => rules_json r
  end.

(** [d.get(key, dflt)]; AttributeError when [d] is not a dict. *)
Definition dict_get (d : json) (key : string) (dflt : json) : result json :=
  match d with
  | JObj fields => Ok (default dflt (py_dict fields !! key))
  | _ => Raise (AttributeError "object has no attribute 'get'")
  end.

(** [v == s] for a string literal [s]. *)
Definition is_str (v : json) (s : string) : bool :=
  match v with
  | JStr x => String.eqb x s
  | _ => false
  end.

(** The text of [scripts["optimization"]] for ClickHouse. *)
Definition clickhouse_optimization : string :=
  lines [
    EmptyString;
    "-- Оптимизация для ClickHouse";
    "OPTIMIZE TABLE analytics_data FINAL;";
    EmptyString;
    "-- Проверка размера таблицы";
    "SELECT ";
    "    table,";
    "    formatReadableSize(sum(bytes)) as size,";
    "    sum(rows) as rows";
    "FROM system.parts ";
    "WHERE table = 'analytics_data' ";
    "GROUP BY table;";
    EmptyString ].

(** The text of [scripts["optimization"]] otherwise. *)
Definition postgresql_optimization : string :=
  lines [
    EmptyString;
    "-- Оптимизация для PostgreSQL";
    "ANALYZE processed_data;";
    EmptyString;
    "-- Создание дополнительных индексов при необходимости  ";
    "-- CREATE INDEX CONCURRENTLY IF NOT EXISTS idx_processed_data_timestamp ";
    "-- ON processed_data(etl_timestamp);";
    EmptyString;
    "-- Статистика по таблице";
    "SELECT ";
    "    schemaname,";
    "    tablename,";
    "    n_tup_ins as inserts,";
    "    n_tup_upd as updates,";
    "    n_tup_del as deletes";
    "FROM pg_stat_user_tables ";
    "WHERE tablename = 'processed_data';" ].

Definition generate_sql_scripts (recommendations : json) : result (gmap string json) :=
  let? schema_design := dict_get recommendations "schema_design" (JObj []) in
  let? ddl_script := dict_get schema_design "ddl_script" (JStr EmptyString) in
  let? storage := dict_get recommendations "storage_recommendation" (JObj []) in
  let? storage_type := dict_get storage "primary" (JStr "postgresql") in
  let scripts : gmap string json := {[ "ddl" := ddl_script ]} in
  if is_str storage_type "clickhouse" then
    Ok (<["optimization" := JStr clickhouse_optimization]> scripts)
  else
    Ok (<["optimization" := JStr postgresql_optimization]> scripts).

End Generator.
Import Generator.

(* ===================================================================== *)
(** ** main.py: the endpoints over the analyzer                           *)
(* ===================================================================== *)

Module Api.

(** What an endpoint answers: the body it returns, or the HTTPException
    it raises to the framework. *)
Inductive response (A : Type) : Type :=
| Answer (body : A)
| HTTPException (status_code : Z) (detail : string).
Arguments Answer {A} body.
Arguments HTTPException {A} status_code detail.

(** [source.schema_info = d] *)
Definition set_schema_info (source : DataSourceConfig) (d : SchemaDict) : DataSourceConfig :=
  {| id := id source; name := name source; type := type source;
     config := config source; schema_info := Some d |}.

(** [for source in sources:
       if not source.schema_info:
           source.schema_info = analyzer.analyze_source(source).dict()]
    The sources after the loop. *)
Fixpoint profile_missing (w : world) (sources : list DataSourceConfig)
  : M (list DataSourceConfig) :=
  match sources with
  | [] => ret []
  | source :: rest =>
      do! source' :=
        (if negb (has_schema source) then
           do! info := analyze_source w source in
           ret (set_schema_info source (to_dict info))
         else ret source) in
      do! rest' := profile_missing w rest in
      ret (source' :: rest')
  end.

(** POST /find-relationships: the relationships and their count. *)
Definition find_data_relationships (w : world) (iter : gset string → list string)
    (sources : list DataSourceConfig) : M (response (list DataRelationship * Z)) :=
  try_except
    (do! sources' := profile_missing w sources in
     do! relationships := lift (Detector64.find_relationships iter sources') in
     ret (Answer (relationships, Z.of_nat (length relationships))))
    (λ e,
       do! _ := logger_error ("Error finding relationships: " +:+ exn_str e) in
       ret (HTTPException 500 (exn_str e))).

(** [s.endswith(suffix)] *)
Fixpoint endswith (suffix s : string) : bool :=
  String.eqb suffix s
  || match s with
     | EmptyString => false
     | String _ r => endswith suffix r
     end.

(** The source configuration that POST /upload-csv builds for a file. *)
Definition uploaded_source (filename : string) (file : nat) : DataSourceConfig :=
  {| id := "uploaded_csv"; name := filename; type := CSV;
     config := py_dict [("file_data", VFile file); ("delimiter", VStr ",");
                        ("encoding", VStr "utf-8")];
     schema_info := None |}.

(** POST /upload-csv: the file name, the schema and the status.  The
    HTTPException raised for another file name is an Exception like any
    other: [str_http] gives [str] of an HTTPException of the framework. *)
Definition upload_csv_file (w : world) (str_http : Z → string → string)
    (filename : option string) (file : nat) : M (response (string * SchemaDict * string)) :=
  try_except
    (match filename with
     | None => raise (AttributeError "'NoneType' object has no attribute 'endswith'")
     | Some filename =>
         if negb (endswith ".csv" filename) then
           raise (HTTPError (str_http 400 "File must be a CSV"))
         else
           let source_config := uploaded_source filename file in
           do! schema_info := analyze_source w source_config in
           ret (Answer (filename, to_dict schema_info, "success"))
     end)
    (λ e,
       do! _ := logger_error ("Error uploading CSV: " +:+ exn_str e) in
       ret (HTTPException 500 (exn_str e))).

(** The Schema Info the profiler returns for a source; it never raises
    ([analyze_source_never_raises]) and its result does not depend on what
    was logged before ([analyze_source_result_fixed]). *)
Definition profile_of (w : world) (source : DataSourceConfig) : SchemaInfo :=
  match (analyze_source w source []).1 with
  | Ok info => info
  | Raise _ => empty_schema
  end.

(** A source after the profiling loop. *)
Definition profiled_by (w : world) (source : DataSourceConfig) : DataSourceConfig :=
  if has_schema source then source
  else set_schema_info source (to_dict (profile_of w source)).

(** The distinct counts of a Schema Info lie within its row count. *)
Definition counts_within (info : SchemaInfo) : Prop :=
  ∀ col n, unique_counts info !! col = Some n → 0 <= n <= row_count info.

(** A source as an endpoint may receive it: not profiled, or carrying
    the dict of a Schema Info whose counts lie within its row count. *)
Definition well_formed (source : DataSourceConfig) : Prop :=
  has_schema source = false
  ∨ ∃ info, schema_info source = Some (to_dict info) ∧ counts_within info.

End Api.
Import Api.

(* ===================================================================== *)
(** ** More concrete inputs                                               *)
(* ===================================================================== *)

Module Cases.

Import Samples.

(** A world whose delimited files all hold the frame [df]. *)
Definition with_csv (df : DataFrame) : world :=
  {| w_read_csv := λ _ _ _ _, Ok df;
     w_read_excel := w_read_excel offline;
     w_open := w_open offline;
     w_json_load := w_json_load offline;
     w_column := w_column offline;
     w_nested := w_nested offline;
     w_create_engine := w_create_engine offline;
     w_read_sql := w_read_sql offline |}.

(** A PostgreSQL source whose configuration names no table. *)
Definition tableless_source : DataSourceConfig :=
  {| id := "crm"; name := "crm"; type := POSTGRESQL;
     config := py_dict [("username", VStr "etl"); ("password", VStr "secret");
                        ("host", VStr "db"); ("database", VStr "crm")];
     schema_info := None |}.

(** A PostgreSQL source whose configuration names no password. *)
Definition passwordless_source : DataSourceConfig :=
  {| id := "crm"; name := "crm"; type := POSTGRESQL;
     config := py_dict [("username", VStr "etl"); ("host", VStr "db");
                        ("database", VStr "crm"); ("table", VStr "clients")];
     schema_info := None |}.

(** An uploaded JSON document with a path beside it. *)
Definition uploaded_json_source : DataSourceConfig :=
  {| id := "events"; name := "events"; type := JSON;
     config := py_dict [("file_data", VFile 3); ("file_path", VStr "events.json")];
     schema_info := None |}.

(** A source that was never profiled. *)
Definition unprofiled : DataSourceConfig :=
  {| id := "raw"; name := "raw"; type := CSV;
     config := {[ "file_path" := VStr "raw.csv" ]}; schema_info := None |}.

Definition both_keys : LLMService :=
  {| yandex_api_key := Some "key"; deepseek_api_key := Some "key" |}.

(** The body of a DeepSeek response carrying the text [text]. *)
Definition deepseek_body (text : string) : json :=
  JObj [("choices",
         JArr [JObj [("message", JObj [("role", JStr "assistant");
                                       ("content", JStr text)])]])].

(** [json.loads] that accepts the one string [{}]. *)
Definition loads_empty_object (s : string) : result json :=
  if String.eqb s "{}" then Ok (JObj []) else Raise (DecodeError "Expecting value").

(** YandexGPT answers 500, DeepSeek answers 200 with the text [{}]. *)
Definition second_backend : backend :=
  {| b_yandex := λ _, Response 500 "Internal Server Error" (Raise (DecodeError "Expecting value"));
     b_deepseek := λ _, Response 200 "OK" (Ok (deepseek_body "{}"));
     b_json_loads := loads_empty_object |}.

(** YandexGPT answers 200 with the text [{}]. *)
Definition first_backend : backend :=
  {| b_yandex := λ _, Response 200 "OK" (Ok (yandex_body "{}"));
     b_deepseek := λ _, Failed (HTTPError "unreachable");
     b_json_loads := loads_empty_object |}.

(** Both backends answer 503. *)
Definition unavailable_backend : backend :=
  {| b_yandex := λ _, Response 503 "Service Unavailable" (Raise (DecodeError "Expecting value"));
     b_deepseek := λ _, Response 503 "Service Unavailable" (Raise (DecodeError "Expecting value"));
     b_json_loads := loads_empty_object |}.

(** YandexGPT answers 200 with a body that is not the expected one. *)
Definition malformed_backend : backend :=
  {| b_yandex := λ _, Response 200 "OK" (Ok (JObj [("error", JStr "quota")]));
     b_deepseek := λ _, Response 200 "OK" (Ok (deepseek_body "{}"));
     b_json_loads := loads_empty_object |}.

(** The prompt for [orders] and [customers]. *)
Definition sample_prompt : Prompt :=
  {| pr_sources :=
       [ {| sl_name := "orders"; sl_type := CSV; sl_columns := 4; sl_rows := 500000;
            sl_key_fields := Some ["order_id"; "customer_id"; "amount"; "created_at"] |};
         {| sl_name := "customers"; sl_type := CSV; sl_columns := 3; sl_rows := 10000;
            sl_key_fields := Some ["customer_id"; "name"; "country"] |} ];
     pr_has_temporal := true;
     pr_temporal_columns := ["created_at"];
     pr_has_geographical := false;
     pr_total_rows := 2000000;
     pr_goal := "reporting";
     pr_metrics := ["аналитика"];
     pr_frequency := DAILY;
     pr_load := "medium" |}.

End Cases.

(* ===================================================================== *)
(** ** Strings                                                            *)
(* ===================================================================== *)

Section Strings.

Lemma startswith_spec (needle hay : string) :
  startswith needle hay = true ↔ ∃ post, hay = needle +:+ post.
Proof.
  revert hay. induction needle as [|a n IH]; intros hay; simpl.
  - split; [intros _; by exists hay | done].
  - destruct hay as [|b h]; simpl.
    + split; [done | by intros [post ?]].
    + rewrite andb_true_iff, IH. split.
      * intros [Hab [post ->]]. apply Ascii.eqb_eq in Hab as ->. by exists post.
      * intros [post [= -> ->]]. split; [apply Ascii.eqb_refl | by exists post].
Qed.

Lemma str_in_spec (needle hay : string) :
  str_in needle hay = true ↔ occurs needle hay.
Proof.
  unfold occurs. induction hay as [|c h IH].
  - cbn [str_in]. rewrite startswith_spec. split.
    + intros [post Hp]. by exists EmptyString, post.
    + intros [pre [post Hp]]. destruct pre; simpl in Hp; [by exists post | done].
  - cbn [str_in]. rewrite orb_true_iff, startswith_spec, IH. split.
    + intros [[post Hp] | [pre [post Hp]]].
      * by exists EmptyString, post.
      * exists (String c pre), post. simpl. by rewrite Hp.
    + intros [pre [post Hp]]. destruct pre as [|a pre]; simpl in Hp.
      * left. by exists post.
      * right. injection Hp as -> ->. by exists pre, post.
Qed.

Lemma str_in_false (needle hay : string) :
  str_in needle hay = false ↔ ¬ occurs needle hay.
Proof. rewrite <- str_in_spec. by destruct (str_in needle hay). Qed.

Lemma list_in_spec (x : string) (l : list string) : list_in x l = true ↔ x ∈ l.
Proof.
  unfold list_in. rewrite existsb_exists, list_elem_of_In. split.
  - intros [y [Hy Heq]]. apply String.eqb_eq in Heq. by subst.
  - intros Hx. exists x. split; [done | apply String.eqb_refl].
Qed.

Lemma matches_spec (keywords : list string) (col : string) :
  matches keywords col = true ↔ carries keywords col.
Proof.
  unfold matches, any, carries. rewrite existsb_exists. split.
  - intros [k [Hk Hin]]. exists k. by rewrite list_elem_of_In, <- str_in_spec.
  - intros [k [Hk Hin]]. exists k. by rewrite <- list_elem_of_In, str_in_spec.
Qed.

End Strings.

(* ===================================================================== *)
(** ** The rule-based recommender                                         *)
(* ===================================================================== *)

Section RuleBased.

Variables (sources : list DataSourceConfig) (br : BusinessRequirements)
          (dp : DataPatterns).

Let r := _generate_rule_based_recommendations sources br dp.
Let rows := default 0 (p_total_estimated_rows dp).
Let temporal := default false (p_has_temporal_data dp).
Let is_analytics :=
  any (λ metric, list_in metric analytics_keywords) (target_metrics br).

Lemma is_analytics_spec : is_analytics = true ↔ analytics br.
Proof.
  unfold is_analytics, any, analytics. rewrite existsb_exists. split.
  - intros [m [Hm Hk]]. exists m. by rewrite list_elem_of_In, <- list_in_spec.
  - intros [m [Hm Hk]]. exists m. by rewrite <- list_elem_of_In, list_in_spec.
Qed.

Lemma primary_eq :
  primary (storage_recommendation r) =
    if is_analytics && temporal && (rows >? 100000) then "clickhouse"
    else if rows >? 1000000 then "clickhouse" else "postgresql".
Proof.
  unfold r, _generate_rule_based_recommendations.
  fold rows temporal is_analytics.
  by destruct (is_analytics && temporal && (rows >? 100000)), (rows >? 1000000).
Qed.

Lemma partitioning_eq :
  partitioning (schema_design r) =
    if temporal && String.eqb (primary (storage_recommendation r)) "clickhouse"
    then (if rows >? 1000000 then Some monthly_expr else Some yearly_expr)
    else None.
Proof.
  unfold r, _generate_rule_based_recommendations.
  fold rows temporal is_analytics.
  by destruct (is_analytics && temporal && (rows >? 100000)), (rows >? 1000000).
Qed.

Lemma alternatives_eq :
  alternatives (storage_recommendation r) =
    if String.eqb (primary (storage_recommendation r)) "hdfs"
    then ["postgresql"; "clickhouse"] else ["hdfs"].
Proof.
  unfold r, _generate_rule_based_recommendations.
  fold rows temporal is_analytics.
  by destruct (is_analytics && temporal && (rows >? 100000)), (rows >? 1000000).
Qed.

(** C7. The storage is clickhouse when the target metrics meet the
    analytics keywords, the temporal signal is true and there are more
    than 100,000 rows; otherwise clickhouse when there are more than
    1,000,000 rows; otherwise postgresql.  A partition expression is
    emitted exactly when the temporal signal is true and the storage is
    clickhouse: the monthly one above 1,000,000 rows, else the yearly. *)
Theorem rule_based_storage_and_partition :
  let storage := primary (storage_recommendation r) in
  let partition := partitioning (schema_design r) in
  let first_rule := analytics br ∧ temporal = true ∧ rows > 100000 in
  (first_rule → storage = "clickhouse")
  ∧ (¬ first_rule → rows > 1000000 → storage = "clickhouse")
  ∧ (¬ first_rule → rows <= 1000000 → storage = "postgresql")
  ∧ (is_Some partition ↔ temporal = true ∧ storage = "clickhouse")
  ∧ (temporal = true → storage = "clickhouse" → rows > 1000000 →
     partition = Some monthly_expr)
  ∧ (temporal = true → storage = "clickhouse" → rows <= 1000000 →
     partition = Some yearly_expr).
Proof.
  cbv zeta. rewrite <- is_analytics_spec, partitioning_eq, primary_eq.
  destruct is_analytics, temporal; simpl;
    destruct (Z.gtb_spec rows 100000), (Z.gtb_spec rows 1000000); simpl;
    repeat split; try done; try lia; try tauto;
    try (intros [? ?]; done); try (intros; exfalso; lia);
    try (intros ?; by eexists).
Qed.

(** C10. The primary storage of the rules is clickhouse or postgresql,
    never hdfs, and the alternatives are the one-element list [hdfs]. *)
Theorem rule_based_never_hdfs :
  primary (storage_recommendation r) ≠ "hdfs"
  ∧ (primary (storage_recommendation r) = "clickhouse"
     ∨ primary (storage_recommendation r) = "postgresql")
  ∧ alternatives (storage_recommendation r) = ["hdfs"].
Proof.
  rewrite alternatives_eq, primary_eq.
  destruct (is_analytics && temporal && (rows >? 100000)), (rows >? 1000000);
    simpl; repeat split; try done; auto.
Qed.

End RuleBased.

Section RuleBasedCases.

Import Samples.

Lemma rule_based_storage_and_partition_witness :
  let r := _generate_rule_based_recommendations [orders; customers]
                                                 requirements large_temporal in
  primary (storage_recommendation r) = "clickhouse"
  ∧ partitioning (schema_design r) = Some monthly_expr.
Proof.
  destruct (rule_based_storage_and_partition [orders; customers] requirements
              large_temporal) as (H1 & _ & _ & _ & H5 & _).
  assert (Hfirst : analytics requirements
                   ∧ default false (p_has_temporal_data large_temporal) = true
                   ∧ default 0 (p_total_estimated_rows large_temporal) > 100000).
  { split; [|split; [reflexivity | reflexivity]].
    exists "аналитика". split; [apply list_elem_of_here|].
    apply list_elem_of_further, list_elem_of_here. }
  split.
  - exact (H1 Hfirst).
  - apply H5; [reflexivity | exact (H1 Hfirst) | reflexivity].
Defined.

End RuleBasedCases.

(* ===================================================================== *)
(** ** The pattern classifier                                             *)
(* ===================================================================== *)

Section Patterns.

Local Arguments matches : simpl never.

Lemma keeps_filter {A} (P : A → Prop) (f : A → bool) (l : list A) :
  (∀ x, f x = true ↔ P x) → keeps P l (List.filter f l).
Proof.
  intros Hf. induction l as [|x l IH]; simpl; [constructor|].
  destruct (f x) eqn:E.
  - apply keeps_yes; [by apply Hf | done].
  - apply keeps_no; [|done]. rewrite <- Hf, E. done.
Qed.

Lemma existsb_Exists {A} (P : A → Prop) (f : A → bool) (l : list A) :
  (∀ x, f x = true ↔ P x) → existsb f l = true ↔ Exists P l.
Proof.
  intros Hf. rewrite existsb_exists, Exists_exists. split.
  - intros [x [Hx Hfx]]. exists x. by rewrite list_elem_of_In, <- Hf.
  - intros [x [Hx Hfx]]. exists x. by rewrite <- list_elem_of_In, Hf.
Qed.

Lemma marked_nil p : marked p [] = p.
Proof. destruct p. unfold marked. simpl. by rewrite !orb_false_r, !app_nil_r. Qed.

Lemma marked_app p c1 c2 : marked (marked p c1) c2 = marked p (c1 ++ c2).
Proof.
  unfold marked. simpl.
  by rewrite !List.existsb_app, !List.filter_app, !orb_assoc, !app_assoc.
Qed.

Lemma fold_mark_temporal cols p :
  fold_left mark_temporal cols p =
    {| has_temporal_data :=
         has_temporal_data p || existsb (matches temporal_keywords) cols;
       temporal_columns :=
         temporal_columns p ++ List.filter (matches temporal_keywords) cols;
       has_geographical_data := has_geographical_data p;
       geographical_columns := geographical_columns p;
       total_estimated_rows := total_estimated_rows p;
       data_types_distribution := data_types_distribution p;
       suggested_partitioning := suggested_partitioning p |}.
Proof.
  revert p. induction cols as [|c cols IH]; intros p; simpl.
  - destruct p. simpl. by rewrite orb_false_r, app_nil_r.
  - rewrite IH. unfold mark_temporal.
    destruct (matches temporal_keywords c); simpl; [|done].
    f_equal; [by destruct (has_temporal_data p) | by rewrite <- app_assoc].
Qed.

Lemma fold_mark_geo cols p :
  fold_left mark_geo cols p =
    {| has_temporal_data := has_temporal_data p;
       temporal_columns := temporal_columns p;
       has_geographical_data :=
         has_geographical_data p || existsb (matches geo_keywords) cols;
       geographical_columns :=
         geographical_columns p ++ List.filter (matches geo_keywords) cols;
       total_estimated_rows := total_estimated_rows p;
       data_types_distribution := data_types_distribution p;
       suggested_partitioning := suggested_partitioning p |}.
Proof.
  revert p. induction cols as [|c cols IH]; intros p; simpl.
  - destruct p. simpl. by rewrite orb_false_r, app_nil_r.
  - rewrite IH. unfold mark_geo.
    destruct (matches geo_keywords c); simpl; [|done].
    f_equal; [by destruct (has_geographical_data p) | by rewrite <- app_assoc].
Qed.

Lemma source_step_eq st source :
  source_step st source =
    {| patterns := marked (patterns st) (columns_of source);
       total_rows := total_rows st + rows_of source;
       all_columns := all_columns st ++ columns_of source |}.
Proof.
  unfold source_step, columns_of, rows_of.
  destruct (schema_info source) as [d|]; [destruct (dict_truthy d)|].
  - by rewrite fold_mark_geo, fold_mark_temporal.
  - destruct st. simpl. by rewrite marked_nil, Z.add_0_r, app_nil_r.
  - destruct st. simpl. by rewrite marked_nil, Z.add_0_r, app_nil_r.
Qed.

Lemma fold_source_step sources st :
  fold_left source_step sources st =
    {| patterns := marked (patterns st) (flat_map columns_of sources);
       total_rows := total_rows st + sum (map rows_of sources);
       all_columns := all_columns st ++ flat_map columns_of sources |}.
Proof.
  revert st. induction sources as [|s sources IH]; intros st; simpl.
  - destruct st. simpl. by rewrite marked_nil, Z.add_0_r, app_nil_r.
  - rewrite IH, source_step_eq. simpl.
    by rewrite marked_app, Z.add_assoc, app_assoc.
Qed.

(** C8. A column is appended to the temporal (geographic) columns exactly
    when its lowercase name carries a temporal (geographic) keyword, and
    the flag is true exactly when some column does; the total is the sum
    of the row counts; the suggestion is monthly iff temporal and more
    than 1,000,000 rows, yearly iff temporal and more than 100,000 but
    at most 1,000,000 rows, and absent otherwise. *)
Theorem analyze_data_patterns_spec (sources : list DataSourceConfig) :
  let p := analyze_data_patterns sources in
  let cols := flat_map columns_of sources in
  let total := sum (map rows_of sources) in
  keeps (carries temporal_keywords) cols (temporal_columns p)
  ∧ (has_temporal_data p = true ↔ Exists (carries temporal_keywords) cols)
  ∧ keeps (carries geo_keywords) cols (geographical_columns p)
  ∧ (has_geographical_data p = true ↔ Exists (carries geo_keywords) cols)
  ∧ total_estimated_rows p = total
  ∧ (suggested_partitioning p = Some "monthly"
     ↔ has_temporal_data p = true ∧ total > 1000000)
  ∧ (suggested_partitioning p = Some "yearly"
     ↔ has_temporal_data p = true ∧ 100000 < total <= 1000000)
  ∧ (suggested_partitioning p = None
     ↔ has_temporal_data p = false ∨ total <= 100000).
Proof.
  cbv zeta. unfold analyze_data_patterns. rewrite fold_source_step.
  cbn [patterns total_rows]. rewrite Z.add_0_l.
  set (cols := flat_map columns_of sources).
  set (total := sum (map rows_of sources)).
  simpl.
  assert (Ht : ∀ c, matches temporal_keywords c = true ↔ carries temporal_keywords c)
    by (intros; apply matches_spec).
  assert (Hg : ∀ c, matches geo_keywords c = true ↔ carries geo_keywords c)
    by (intros; apply matches_spec).
  rewrite <- (existsb_Exists _ _ cols Ht), <- (existsb_Exists _ _ cols Hg).
  pose proof (keeps_filter _ _ cols Ht) as Kt.
  pose proof (keeps_filter _ _ cols Hg) as Kg.
  destruct (existsb (matches temporal_keywords) cols) eqn:Et; simpl.
  - destruct (Z.gtb_spec total 1000000); simpl;
      [|destruct (Z.gtb_spec total 100000); simpl];
      repeat split; try done; try lia;
      try (intros [? ?]; lia); try (intros [?|?]; [congruence|lia]); auto.
  - repeat split; try done; try congruence; try (intros [? ?]; congruence); auto.
Qed.

End Patterns.

(* ===================================================================== *)
(** ** The schema profiler                                                *)
(* ===================================================================== *)

Section Profiler.

Lemma rbind_Ok {A B} (r : result A) (k : A → result B) (v : B) :
  rbind r k = Ok v → ∃ a, r = Ok a ∧ k a = Ok v.
Proof. destruct r as [a|e]; simpl; [eauto | done]. Qed.

Lemma dom_py_dict_from {V} (items : list (string * V)) (m : gmap string V) :
  dom (fold_left (λ m kv, <[kv.1 := kv.2]> m) items m)
  = dom m ∪ list_to_set (map fst items).
Proof.
  revert m. induction items as [|[k v] items IH]; intros m; simpl.
  - set_solver.
  - rewrite IH, dom_insert_L. set_solver.
Qed.

Lemma dom_py_dict {V} (items : list (string * V)) :
  dom (py_dict items) = list_to_set (map fst items).
Proof. unfold py_dict. rewrite dom_py_dict_from. set_solver. Qed.

Lemma dict_comp_dom {V} (f : string → result V) cols acc m :
  dict_comp f cols acc = Ok m → dom m = dom acc ∪ list_to_set cols.
Proof.
  revert acc. induction cols as [|c cols IH]; intros acc; simpl.
  - intros [= ->]. set_solver.
  - intros H. apply rbind_Ok in H as [v [_ H]].
    apply IH in H. rewrite H, dom_insert_L. set_solver.
Qed.

(** What [_create_schema_info] returns when it returns. *)
Lemma create_schema_info_Ok df s :
  _create_schema_info df = Ok s →
  columns s = df_columns df
  ∧ keys_match s
  ∧ row_count s = Z.of_nat (length (df_rows df))
  ∧ length (sample_data s) = match df_columns df with
                             | [] => 0%nat
                             | _ => Nat.min 5 (length (df_rows df))
                             end.
Proof.
  unfold _create_schema_info. intros H.
  apply rbind_Ok in H as [nulls [Hn H]].
  apply rbind_Ok in H as [uniques [Hu H]].
  injection H as <-. apply dict_comp_dom in Hn, Hu.
  split; [done|]. split; [|split; [done|]].
  - unfold keys_match. cbn [columns dtypes null_counts unique_counts].
    rewrite Hn, Hu, dom_py_dict. unfold df_dtypes_items, df_columns.
    repeat split; set_solver.
  - cbn [sample_data]. unfold to_dict_records.
    change (df_columns (df_head 5 (fillna (JStr EmptyString) df))) with (df_columns df).
    destruct (df_columns df); [done|].
    rewrite length_map. cbn [df_rows df_head fillna].
    by rewrite length_firstn, length_map.
Qed.

Lemma keys_match_empty : keys_match empty_schema.
Proof. unfold keys_match. simpl. set_solver. Qed.

Lemma read_csv_Ok w src delimiter encoding n df :
  read_csv w src delimiter encoding n = Ok df → (length (df_rows df) <= n)%nat.
Proof.
  unfold read_csv. intros H. apply rbind_Ok in H as [df0 [_ [= <-]]].
  simpl. rewrite length_firstn. lia.
Qed.

Lemma read_excel_Ok w src n df :
  read_excel w src n = Ok df → (length (df_rows df) <= n)%nat.
Proof.
  unfold read_excel. intros H. apply rbind_Ok in H as [df0 [_ [= <-]]].
  simpl. rewrite length_firstn. lia.
Qed.

(** When the body of [analyze_source] returns, it returns the schema of
    a frame, and a frame read from a delimited file or a spreadsheet has
    at most 1000 rows. *)
Lemma analyze_source_body_Ok w source t s t' :
  analyze_source_body w source t = (Ok s, t') →
  ∃ df, _create_schema_info df = Ok s
        ∧ (type source = CSV ∨ type source = EXCEL → (length (df_rows df) <= 1000)%nat).
Proof.
  unfold analyze_source_body. destruct (type source) eqn:Ety.
  - unfold lift, _analyze_csv. intros [= H <-].
    apply rbind_Ok in H as [df [Hdf H]]. exists df. split; [done|]. intros _.
    destruct (has_key _ _); apply rbind_Ok in Hdf as [src [_ Hdf]];
      by apply read_csv_Ok in Hdf.
  - unfold _analyze_postgresql, bind, lift, create_engine, dispose, emit.
    intros H. repeat case_match; simplify_eq. eexists. split; [done|].
    intros [?|?]; done.
  - done.
  - unfold lift, _analyze_json. intros [= H <-].
    apply rbind_Ok in H as [data [_ H]].
    apply rbind_Ok in H as [df [_ H]]. exists df. split; [done|].
    intros [?|?]; done.
  - unfold lift, _analyze_excel. intros [= H <-].
    apply rbind_Ok in H as [df [Hdf H]]. exists df. split; [done|]. intros _.
    destruct (has_key _ _); apply rbind_Ok in Hdf as [src [_ Hdf]];
      by apply read_excel_Ok in Hdf.
  - done.
Qed.

(** [analyze_source] returns what its body returns, and the empty schema,
    after logging, when its body raises. *)
Lemma analyze_source_cases w source t :
  (∃ s t', analyze_source_body w source t = (Ok s, t')
           ∧ analyze_source w source t = (Ok s, t'))
  ∨ (∃ e t', analyze_source_body w source t = (Raise e, t')
             ∧ analyze_source w source t
               = (Ok empty_schema, t' ++ [ErrorLogged (analyze_error source e)])).
Proof.
  unfold analyze_source, try_except.
  destruct (analyze_source_body w source t) as [[s|e] t'].
  - left. by exists s, t'.
  - right. by exists e, t'.
Qed.

(** C9. For every Schema Info the profiler returns, after a failure or
    not, the keys of the dtype, null-count and distinct-count mappings
    are exactly the names in the columns sequence. *)
Theorem profile_keys_match (w : world) (source : DataSourceConfig) (t : trace) :
  ∃ s, (analyze_source w source t).1 = Ok s ∧ keys_match s.
Proof.
  destruct (analyze_source_cases w source t) as [(s & t' & Hb & ->)|(e & t' & _ & ->)].
  - exists s. split; [done|].
    apply analyze_source_body_Ok in Hb as (df & Hdf & _).
    by apply create_schema_info_Ok in Hdf as (_ & ? & _).
  - exists empty_schema. split; [done | apply keys_match_empty].
Qed.

(** X29. [analyze_source] has one handler around all of its body, so it
    never raises: what its body returns it returns, with nothing logged
    by itself; an exception of its body, whatever its class, is logged in
    one line and answered with the Schema Info whose fields are all empty
    or zero; and the ValueError that its last branch raises for a source
    kind outside the supported ones is such an exception. *)
Theorem analyze_source_never_raises (w : world) (source : DataSourceConfig) (t : trace) :
  (∃ s t', analyze_source w source t = (Ok s, t'))
  ∧ (∀ s t', analyze_source_body w source t = (Ok s, t') →
       analyze_source w source t = (Ok s, t'))
  ∧ (∀ e t', analyze_source_body w source t = (Raise e, t') →
       analyze_source w source t
       = (Ok empty_schema, t' ++ [ErrorLogged (analyze_error source e)]))
  ∧ (type source ∉ supported_types →
     analyze_source w source t
     = (Ok empty_schema,
        t ++ [ErrorLogged ("Error analyzing source " +:+ name source
                           +:+ ": Unsupported source type: " +:+ type_str (type source))])).
Proof.
  split; [|split; [|split]].
  - destruct (analyze_source_cases w source t) as [(s & t' & _ & ->)|(e & t' & _ & ->)];
      by do 2 eexists.
  - intros s t' Hb. unfold analyze_source, try_except. by rewrite Hb.
  - intros e t' Hb. unfold analyze_source, try_except. by rewrite Hb.
  - intros Hty. unfold analyze_source, try_except, analyze_source_body.
    destruct (type source); try done; exfalso; apply Hty;
      unfold supported_types; set_solver.
Qed.

(** A delimited file or a spreadsheet is profiled on at most 1000 rows. *)
Lemma tabular_profile_bounded w source t s :
  type source = CSV ∨ type source = EXCEL →
  (analyze_source w source t).1 = Ok s → 0 <= row_count s <= 1000.
Proof.
  intros Hty.
  destruct (analyze_source_cases w source t) as [(s' & t' & Hb & ->)|(e & t' & _ & ->)];
    simpl; intros [= <-]; [|done].
  apply analyze_source_body_Ok in Hb as (df & Hdf & Hlen).
  apply create_schema_info_Ok in Hdf as (_ & _ & -> & _).
  specialize (Hlen Hty). lia.
Qed.

(** The preview holds the first five rows of what was read, and nothing
    when what was read has no column. *)
Lemma sample_preview_bounded w source t s :
  (analyze_source w source t).1 = Ok s →
  Z.of_nat (length (sample_data s)) = match columns s with
                                      | [] => 0
                                      | _ => Z.min 5 (row_count s)
                                      end.
Proof.
  destruct (analyze_source_cases w source t) as [(s' & t' & Hb & ->)|(e & t' & _ & ->)];
    simpl; intros [= <-]; [|done].
  apply analyze_source_body_Ok in Hb as (df & Hdf & _).
  apply create_schema_info_Ok in Hdf as (-> & _ & -> & ->).
  destruct (df_columns df); lia.
Qed.

End Profiler.

Section ProfilerCases.

Import Samples.

(** C2 at a source of kind clickhouse, a kind outside the supported
    ones: the ValueError raised for it at the end of the [try] is caught
    by the handler of the same [try], logged, and answered with the empty
    Schema Info; nothing is raised to the caller, so the profiler does
    not raise exactly for the kinds that are not supported. *)
Theorem unsupported_kind_is_not_raised :
  (type clickhouse_source ∉ supported_types)
  ∧ analyze_source_body offline clickhouse_source []
    = (Raise (ValueError "Unsupported source type: SourceType.CLICKHOUSE"), [])
  ∧ analyze_source offline clickhouse_source []
    = (Ok empty_schema,
       [ErrorLogged
          "Error analyzing source warehouse: Unsupported source type: SourceType.CLICKHOUSE"])
  ∧ ¬ raises_iff_unsupported.
Proof.
  assert (Hty : type clickhouse_source ∉ supported_types)
    by (unfold supported_types; simpl; set_solver).
  split; [done|]. split; [reflexivity|]. split; [reflexivity|].
  intros H. apply (H offline clickhouse_source []) in Hty as [e He].
  vm_compute in He. discriminate.
Qed.

Lemma analyze_source_never_raises_witness :
  analyze_source offline (clickhouse_source) []
  = (Ok empty_schema,
     [ErrorLogged
        "Error analyzing source warehouse: Unsupported source type: SourceType.CLICKHOUSE"])
  ∧ analyze_source offline csv_source []
    = (Ok empty_schema,
       [ErrorLogged "Error analyzing source sales: No such file or directory"]).
Proof.
  split.
  - apply (proj2 (proj2 (proj2 (analyze_source_never_raises offline clickhouse_source [])))).
    unfold supported_types; simpl; set_solver.
  - apply (proj1 (proj2 (proj2 (analyze_source_never_raises offline csv_source [])))
             (OSError "No such file or directory") []).
    reflexivity.
Defined.

(** C3 at a document of 1001 elements: the whole document is read, and
    the row count exceeds the cap of 1000 rows. *)
Theorem json_profile_exceeds_cap :
  ∃ s, (analyze_source (with_document long_document) json_source []).1 = Ok s
       ∧ row_count s = 1001
       ∧ length (sample_data s) = 5%nat.
Proof. vm_compute. eexists. repeat split; reflexivity. Qed.

(** C4 at a query that raises: the engine created for the call is still
    live when [analyze_source] returns. *)
Theorem engine_leaks_when_query_raises :
  analyze_source (with_database undefined_table) postgres_source []
  = (Ok empty_schema,
     [EngineCreated 0 "postgresql://etl:secret@db:5432/crm";
      ErrorLogged "Error analyzing source crm: relation does not exist"])
  ∧ live_engines ((analyze_source (with_database undefined_table) postgres_source []).2)
    = [0%nat].
Proof. split; reflexivity. Qed.

(** When the query returns, the engine is disposed. *)
Example engine_disposed_when_query_returns :
  (analyze_source (with_database (Ok two_rows)) postgres_source []).2
  = [EngineCreated 0 "postgresql://etl:secret@db:5432/crm"; EngineDisposed 0]
  ∧ live_engines ((analyze_source (with_database (Ok two_rows)) postgres_source []).2) = [].
Proof. split; reflexivity. Qed.

End ProfilerCases.

(* ===================================================================== *)
(** ** The generative strategy and its fallback                           *)
(* ===================================================================== *)

Section Fallback.

Variables (self : LLMService) (b : backend).
Variables (sources : list DataSourceConfig) (br : BusinessRequirements)
          (dp : DataPatterns) (prompt : Prompt).
Hypothesis prompt_ok : _create_analysis_prompt sources br dp = Ok prompt.

Let rules := Rules (_generate_rule_based_recommendations sources br dp).

(** An exception of the first call made is answered by the rules. *)
Lemma fallback_when_yandex_raises t e :
  key_set (yandex_api_key self) = true →
  b_yandex b prompt = Failed e →
  generate_recommendations self b sources br dp t
  = (Ok rules,
     t ++ [ErrorLogged ("Error generating LLM recommendations: " +:+ exn_str e)]).
Proof.
  intros Hk Hy.
  unfold generate_recommendations, bind, lift, try_except, _call_yandex_gpt.
  by rewrite prompt_ok, Hk, Hy.
Qed.

(** Without a key no call is made. *)
Lemma fallback_without_keys t :
  key_set (yandex_api_key self) = false →
  key_set (deepseek_api_key self) = false →
  generate_recommendations self b sources br dp t = (Ok rules, t).
Proof.
  intros Hy Hd.
  unfold generate_recommendations, bind, lift, try_except.
  by rewrite prompt_ok, Hy, Hd.
Qed.

(** Two replies with a status other than 200 are answered by the rules. *)
Lemma fallback_on_status t c1 text1 body1 c2 text2 body2 :
  b_yandex b prompt = Response c1 text1 body1 → c1 ≠ 200 →
  b_deepseek b prompt = Response c2 text2 body2 → c2 ≠ 200 →
  (generate_recommendations self b sources br dp t).1 = Ok rules.
Proof.
  intros Hy H1 Hd H2.
  apply Z.eqb_neq in H1, H2.
  unfold generate_recommendations, bind, lift, try_except,
    _call_yandex_gpt, _call_deepseek, logger_error, emit, ret.
  rewrite prompt_ok, Hy, Hd, H1, H2.
  by destruct (key_set (yandex_api_key self)), (key_set (deepseek_api_key self)).
Qed.

(** A reply that is a string without an opening brace gives the dict
    without keys. *)
Lemma parse_without_brace t (reply : string) :
  find "{" reply = -1 →
  _parse_llm_response b (JStr reply) t
  = (Ok empty_dict,
     t ++ [ErrorLogged "Error parsing LLM response: JSON not found in response"]).
Proof.
  intros Hf. unfold _parse_llm_response, try_except. by rewrite Hf.
Qed.

End Fallback.

Section FallbackCases.

Import Samples.

(** C1 at a reply with status 200 and no JSON object in it: the result is
    the dict without keys, not the result of the rules. *)
Theorem unparsable_reply_returns_empty_dict :
  generate_recommendations service prose_backend [orders; customers]
                           requirements large_temporal []
  = (Ok empty_dict,
     [ErrorLogged "Error parsing LLM response: JSON not found in response"])
  ∧ empty_dict
    ≠ Rules (_generate_rule_based_recommendations [orders; customers]
                                                   requirements large_temporal).
Proof. split; [reflexivity | discriminate]. Qed.

(** A reply with status 500 is answered by the rules. *)
Example status_500_is_answered_by_the_rules :
  (generate_recommendations service broken_backend [orders; customers]
                            requirements large_temporal []).1
  = Ok (Rules (_generate_rule_based_recommendations [orders; customers]
                                                     requirements large_temporal)).
Proof. reflexivity. Qed.

End FallbackCases.

(* ===================================================================== *)
(** ** The relationship detector                                          *)
(* ===================================================================== *)

Section Quotients.

Lemma truediv_Q a b : (this (truediv a b) == inject_Z a / inject_Z b)%Q.
Proof.
  unfold truediv, Qcdiv, Qcmult, Qcinv. cbn [this Q2Qc].
  rewrite !Qred_correct. reflexivity.
Qed.



End Quotients.

Section Detector.

Variable iter : gset string → list string.

Lemma fold_left_append {A B} (f : A → list B) (l : list A) (acc : list B) :
  fold_left (λ acc x, acc ++ f x) l acc = acc ++ flat_map f l.
Proof.
  revert acc. induction l as [|x l IH]; intros acc; simpl.
  - by rewrite app_nil_r.
  - by rewrite IH, app_assoc.
Qed.

Lemma flat_map_map {A B C} (f : B → list C) (g : A → B) (l : list A) :
  flat_map f (map g l) = flat_map (λ x, f (g x)) l.
Proof. induction l as [|x l IH]; simpl; [done | by rewrite IH]. Qed.

(** The two loops of [find_relationships], started at any position. *)
Lemma find_relationships_from (before rest : list DataSourceConfig)
    (acc : list DataRelationship) :
  fold_left
    (λ relationships '(i, source1),
       fold_left
         (λ relationships source2, relationships ++ pair_step iter source1 source2)
         (drop (S i) (before ++ rest)) relationships)
    (imap (λ i s, ((length before + i)%nat, s)) rest) acc
  = acc ++ flat_map (λ p, pair_step iter p.1 p.2) (source_pairs rest).
Proof.
  revert before acc. induction rest as [|s rest IH]; intros before acc.
  - simpl. by rewrite app_nil_r.
  - cbn [imap fold_left source_pairs].
    rewrite fold_left_append.
    replace (drop (S (length before + 0)) (before ++ s :: rest)) with rest.
    2:{ rewrite (cons_middle s before rest), app_assoc.
        symmetry. apply drop_app_length'. rewrite length_app. simpl. lia. }
    rewrite (cons_middle s before rest), app_assoc.
    rewrite (imap_ext _ (λ i s0, ((length (before ++ [s]) + i)%nat, s0))).
    2:{ intros i x _. simpl. rewrite length_app. simpl. f_equal. lia. }
    rewrite IH, flat_map_app, flat_map_map. simpl. by rewrite app_assoc.
Qed.

Lemma find_relationships_flat (sources : list DataSourceConfig) :
  find_relationships iter sources
  = flat_map (λ p, pair_step iter p.1 p.2) (source_pairs sources).
Proof.
  unfold find_relationships.
  change (flat_map (λ p, pair_step iter p.1 p.2) (source_pairs sources))
    with ([] ++ flat_map (λ p, pair_step iter p.1 p.2) (source_pairs sources)).
  by rewrite <- (find_relationships_from [] sources []).
Qed.





(** Neither quotient of the detector divides by zero. *)
Lemma divisors_positive (d : SchemaDict) s1 s2 :
  0 < Z.max (get_row_count d 1) 1
  ∧ (common s1 s2 ≠ ∅ →
     0 < Z.max (Z.of_nat (size (column_set s1))) (Z.of_nat (size (column_set s2)))).
Proof.
  split; [lia|]. intros Hne.
  assert (size (common s1 s2) ≠ 0%nat)
    by (apply size_non_empty_iff; by intros ?%leibniz_equiv).
  assert (size (common s1 s2) <= size (column_set s1))%nat
    by (apply subseteq_size; unfold common; set_solver).
  lia.
Qed.

(** The body of the inner loop, in the words of the specification. *)
Lemma pair_step_eq s1 s2 :
  pair_step iter s1 s2 =
    if has_schema s1 && has_schema s2 && bool_decide (common s1 s2 ≠ ∅) then
      [ {| source1_id := id s1; source2_id := id s2; join_type := "LEFT JOIN";
           join_keys := join_keys_of (_identify_primary_key (iter (common s1 s2)) s1 s2);
           confidence := confidence_of s1 s2 |} ]
    else [].
Proof.
  unfold pair_step, has_schema, confidence_of, common, column_set, columns_of.
  destruct (schema_info s1) as [d1|], (schema_info s2) as [d2|]; simpl; try done.
  - destruct (dict_truthy d1), (dict_truthy d2); simpl; try done.
  - by destruct (dict_truthy d1).
Qed.





End Detector.

(* ===================================================================== *)
(** ** The choice of the join key                                         *)
(* ===================================================================== *)

Section JoinKey.

Lemma first_field_Some pattern fields k :
  first_field pattern fields = Some k ↔ first_with pattern fields k.
Proof.
  unfold first_with. induction fields as [|f fields IH]; simpl.
  - split; [done|]. intros (before & after & H & _). by destruct before.
  - destruct (str_in pattern (lower f)) eqn:E.
    + split.
      * intros [= ->]. exists [], fields. repeat split; [by apply str_in_spec|].
        intros f Hf. by apply elem_of_nil in Hf.
      * intros (before & after & H & Hk & Hb). destruct before as [|b before].
        -- by injection H as ->.
        -- injection H as -> _. exfalso. apply (Hb b); [by left | by apply str_in_spec].
    + rewrite IH. apply str_in_false in E. split.
      * intros (before & after & -> & Hk & Hb). exists (f :: before), after.
        repeat split; [done|]. intros g [->|Hg]%elem_of_cons; [done | by apply Hb].
      * intros (before & after & H & Hk & Hb). destruct before as [|b before].
        -- injection H as -> _. done.
        -- injection H as -> ->. exists before, after. repeat split; [done|].
           intros g Hg. apply Hb. by right.
Qed.

Lemma first_field_None pattern fields :
  first_field pattern fields = None ↔ ∀ f, f ∈ fields → ¬ occurs pattern (lower f).
Proof.
  induction fields as [|f fields IH]; simpl.
  - split; [|done]. intros _ f Hf. by apply elem_of_nil in Hf.
  - destruct (str_in pattern (lower f)) eqn:E.
    + split; [done|]. intros H. exfalso. apply (H f); [by left | by apply str_in_spec].
    + rewrite IH. apply str_in_false in E. split.
      * intros H g [->|Hg]%elem_of_cons; [done | by apply H].
      * intros H g Hg. apply H. by right.
Qed.

Lemma by_pattern_Some patterns fields k :
  (∃ earlier pattern later, patterns = earlier ++ pattern :: later
     ∧ (∀ q f, q ∈ earlier → f ∈ fields → ¬ occurs q (lower f))
     ∧ first_with pattern fields k) →
  by_pattern patterns fields = Some k.
Proof.
  revert k. induction patterns as [|p ps IH]; intros k (earlier & q & later & H & He & Hf).
  - by destruct earlier.
  - simpl. destruct earlier as [|e earlier]; simpl in H.
    + injection H as -> ->. apply first_field_Some in Hf. by rewrite Hf.
    + injection H as -> ->.
      assert (first_field e fields = None) as ->.
      { apply first_field_None. intros f Hin. apply He; [by left | done]. }
      apply IH. exists earlier, q, later. repeat split; [|done].
      intros q' f Hq' Hin. apply He; [by right | done].
Qed.

Lemma by_pattern_None patterns fields :
  (∀ q f, q ∈ patterns → f ∈ fields → ¬ occurs q (lower f)) →
  by_pattern patterns fields = None.
Proof.
  induction patterns as [|p ps IH]; intros H; simpl; [done|].
  assert (first_field p fields = None) as ->.
  { apply first_field_None. intros f Hin. apply H; [by left | done]. }
  apply IH. intros q f Hq Hin. apply H; [by right | done].
Qed.

Lemma gt_true a b : gt a b = true ↔ (b < a)%Qc.
Proof.
  unfold gt. destruct (Qclt_le_dec b a) as [H|H]; split; try done.
  intros Hlt. by apply Qcle_not_lt in H.
Qed.

(** The loop that keeps the best field, from any state, when every
    score is computed. *)
Lemma second_loop_spec d1 d2 fields (score : string → Qc) (best : option string) (m : Qc) :
  scores d1 d2 fields score →
  ((∀ f, f ∈ fields → (score f <= m)%Qc)
   ∧ Detector64.second_loop d1 d2 fields (best, m) = Ok (best, m))
  ∨ (∃ before k after, fields = before ++ k :: after
       ∧ (m < score k)%Qc
       ∧ (∀ f, f ∈ before → (score f < score k)%Qc)
       ∧ (∀ f, f ∈ after → (score f <= score k)%Qc)
       ∧ Detector64.second_loop d1 d2 fields (best, m) = Ok (Some k, score k)).
Proof.
  revert best m. induction fields as [|f fields IH]; intros best m Hs.
  - left. split; [|done]. intros f Hf. by apply elem_of_nil in Hf.
  - assert (Hs' : scores d1 d2 fields score) by (intros g Hg; apply Hs; by right).
    cbn [Detector64.second_loop]. unfold Detector64.best_step.
    rewrite (Hs f) by (by left). cbn [rbind snd].
    destruct (gt (score f) m) eqn:E.
    + apply gt_true in E. right.
      destruct (IH (Some f) (score f) Hs')
        as [[Hall Hr]|(before & k & after & -> & Hm & Hb & Ha & Hr)].
      * exists [], f, fields. repeat split; try done.
        intros g Hg. by apply elem_of_nil in Hg.
      * exists (f :: before), k, after. repeat split; try done.
        -- by apply Qclt_trans with (score f).
        -- intros g [->|Hg]%elem_of_cons; [done | by apply Hb].
    + assert (Hle : (score f <= m)%Qc).
      { apply Qcnot_lt_le. intros Hlt. apply gt_true in Hlt. congruence. }
      destruct (IH best m Hs')
        as [[Hall Hr]|(before & k & after & -> & Hm & Hb & Ha & Hr)].
      * left. split; [|done].
        intros g [->|Hg]%elem_of_cons; [done | by apply Hall].
      * right. exists (f :: before), k, after. repeat split; try done.
        intros g [->|Hg]%elem_of_cons; [|by apply Hb].
        by apply Qcle_lt_trans with m.
Qed.

(** The loop ends with the first exception of a quotient. *)
Lemma second_loop_raises d1 d2 before f after e st :
  (∀ g, g ∈ before → ∃ u, Detector64.uniqueness d1 d2 g = Ok u) →
  Detector64.uniqueness d1 d2 f = Raise e →
  Detector64.second_loop d1 d2 (before ++ f :: after) st = Raise e.
Proof.
  revert st. induction before as [|g before IH]; intros st Hb Hf.
  - cbn [app Detector64.second_loop]. unfold Detector64.best_step. by rewrite Hf.
  - cbn [app Detector64.second_loop]. unfold Detector64.best_step.
    destruct (Hb g) as [u ->]; [by left|]. cbn [rbind].
    apply IH; [|done]. intros h Hh. apply Hb. by right.
Qed.

(** A quotient of a count by a row count that is not smaller is a float. *)
Lemma truediv_of_count a b :
  0 <= a <= Z.max b 1 → ∃ u, Binary64.truediv a (Z.max b 1) = Ok u.
Proof.
  intros Hab. unfold Binary64.truediv.
  destruct (Z.eqb_spec (Z.max b 1) 0) as [?|_]; [lia|].
  destruct (Z.eqb_spec a 0) as [?|Ha]; [by eexists|].
  unfold Binary64.nearest.
  assert (He : Binary64.exponent (Z.abs a) (Z.abs (Z.max b 1)) <= 0).
  { unfold Binary64.exponent.
    assert (Z.log2 (Z.abs a) <= Z.log2 (Z.abs (Z.max b 1)))
      by (apply Z.log2_le_mono; lia).
    case_match; lia. }
  assert (Hq : Z.leb 0 (Z.max (Binary64.exponent (Z.abs a) (Z.abs (Z.max b 1))) (-1022) - 52)
               = false) by (apply Z.leb_gt; lia).
  rewrite Hq. cbn [andb]. by eexists.
Qed.

(** On the counts of a profile every score is computed. *)
Lemma uniqueness_of_profiles d1 d2 field :
  (∀ n, get_unique_counts d1 !! field = Some n → 0 <= n <= get_row_count d1 1) →
  (∀ n, get_unique_counts d2 !! field = Some n → 0 <= n <= get_row_count d2 1) →
  ∃ u, Detector64.uniqueness d1 d2 field = Ok u.
Proof.
  intros H1 H2. unfold Detector64.uniqueness.
  assert (Hc : ∀ d, (∀ n, get_unique_counts d !! field = Some n → 0 <= n <= get_row_count d 1) →
               ∃ u, Binary64.truediv (default 0 (get_unique_counts d !! field))
                                     (Z.max (get_row_count d 1) 1) = Ok u).
  { intros d H. destruct (get_unique_counts d !! field) as [n|] eqn:E; cbn [default].
    - apply truediv_of_count. specialize (H n eq_refl). unfold Datatypes.id. lia.
    - apply truediv_of_count. lia. }
  destruct (Hc d1 H1) as [u1 ->], (Hc d2 H2) as [u2 ->]. by eexists.
Qed.

Lemma first_best_unique (score : string → Qc) fields k k' :
  first_best score fields k → first_best score fields k' → k = k'.
Proof.
  intros (b1 & a1 & -> & Hb1 & Ha1) (b2 & a2 & Heq & Hb2 & Ha2).
  apply app_eq_app in Heq as [l [[-> Hl]|[-> Hl]]].
  - destruct l as [|x l]; simpl in Hl; [by injection Hl|].
    injection Hl as -> ->. exfalso.
    apply (Qclt_not_le (score x) (score k)).
    + apply Hb1. set_solver.
    + apply Ha2. set_solver.
  - destruct l as [|x l]; simpl in Hl; [by injection Hl|].
    injection Hl as Hx ->. subst x. exfalso.
    apply (Qclt_not_le (score k) (score k')).
    + apply Hb2. set_solver.
    + apply Ha1. set_solver.
Qed.

Lemma first_best_elem (score : string → Qc) fields k :
  first_best score fields k → k ∈ fields.
Proof. intros (b & a & -> & _). set_solver. Qed.

(** C6, as amended. The join key is the first common column, in the
    priority order id, uuid, key, code and then in the iteration order of
    the intersection, whose lowercase name carries the pattern.  If no
    common column carries a pattern, the score of a column is the smaller
    of its two ratios of distinct count to max(row count, 1), each ratio
    the float the interpreter computes: the first column of the highest
    score is selected when that score is positive, no key is selected
    when no score is positive, and the exception of the first ratio that
    is too large for a float is raised.  For the common columns user_id
    and name, in any iteration order, the key is user_id. *)
Theorem identify_primary_key_spec (fields : list string) (s1 s2 : DataSourceConfig)
    (d1 d2 : SchemaDict) :
  schema_info s1 = Some d1 → dict_truthy d1 = true →
  schema_info s2 = Some d2 → dict_truthy d2 = true →
  let key := Detector64._identify_primary_key fields s1 s2 in
  (∀ k, chosen_by_name fields k → key = Ok (Some k))
  ∧ (no_name_match fields →
     ∀ score, scores d1 d2 fields score →
       (∀ k, first_best score fields k → (0 < score k)%Qc → key = Ok (Some k))
       ∧ ((∀ f, f ∈ fields → (score f <= 0)%Qc) → key = Ok None))
  ∧ (no_name_match fields →
     ∀ before f after e, fields = before ++ f :: after →
       (∀ g, g ∈ before → ∃ u, Detector64.uniqueness d1 d2 g = Ok u) →
       Detector64.uniqueness d1 d2 f = Raise e →
       key = Raise e)
  ∧ (fields ≡ₚ ["user_id"; "name"] → key = Ok (Some "user_id")).
Proof.
  intros H1 T1 H2 T2. cbv zeta. unfold Detector64._identify_primary_key.
  split; [|split; [|split]].
  - intros k Hk. by rewrite (by_pattern_Some priority_patterns fields k Hk).
  - intros Hno score Hs.
    rewrite (by_pattern_None _ _ Hno), H1, H2, T1, T2. cbn [andb].
    destruct (second_loop_spec d1 d2 fields score None (Q2Qc 0) Hs)
      as [[Hall ->]|(before & k' & after & Hf & Hm & Hb & Ha & ->)]; cbn [rbind fst].
    + split; [|done]. intros k Hbest Hpos. exfalso.
      apply (Qclt_not_le _ _ Hpos), Hall. by eapply first_best_elem.
    + split.
      * intros k Hbest Hpos. do 2 f_equal.
        apply (first_best_unique score fields); [|done]. by exists before, after.
      * intros Hall. exfalso. apply (Qclt_not_le _ _ Hm), Hall. rewrite Hf. set_solver.
  - intros Hno before f after e -> Hb Hf.
    rewrite (by_pattern_None _ _ Hno), H1, H2, T1, T2. cbn [andb].
    by rewrite (second_loop_raises d1 d2 before f after e _ Hb Hf).
  - intros Hp. symmetry in Hp.
    apply Permutation_length_2_inv in Hp as [->| ->]; reflexivity.
Qed.

End JoinKey.

Section JoinKeyCases.

Import Samples.

Lemma no_pattern_in (fields : list string) :
  forallb (λ f, forallb (λ q, negb (str_in q (lower f))) priority_patterns) fields = true →
  no_name_match fields.
Proof.
  intros H q f Hq Hf. apply str_in_false.
  rewrite forallb_forall in H. apply list_elem_of_In in Hf. specialize (H f Hf).
  rewrite forallb_forall in H. apply list_elem_of_In in Hq. specialize (H q Hq).
  by destruct (str_in q (lower f)).
Qed.

(** C6, as the specification states it, fails: the two sources share the
    one column name, it carries no pattern and has the highest score, and
    no key is selected. *)
Lemma highest_score_is_not_selected :
  no_name_match ["name"]
  ∧ Detector64._identify_primary_key ["name"] left_header_only right_header_only = Ok None
  ∧ ¬ highest_score_is_selected.
Proof.
  assert (Hno : no_name_match ["name"]) by (by apply no_pattern_in).
  split; [done|]. split; [reflexivity|].
  intros H.
  specialize (H ["name"] left_header_only right_header_only _ _ (λ _, Q2Qc 0) "name"
                eq_refl eq_refl eq_refl eq_refl Hno).
  assert (Hk : Detector64._identify_primary_key ["name"] left_header_only right_header_only
               = Ok (Some "name")); [|discriminate Hk].
  apply H.
  - intros f ->%list_elem_of_singleton. reflexivity.
  - exists [], []. repeat split; intros f Hf; by apply elem_of_nil in Hf.
Qed.

Lemma identify_primary_key_spec_witness :
  Detector64._identify_primary_key ["name"; "user_id"] orders customers = Ok (Some "user_id")
  ∧ Detector64._identify_primary_key ["name"] left_header_only right_header_only = Ok None
  ∧ Detector64._identify_primary_key ["name"; "amount"] left_rounding right_rounding
    = Ok (Some "name")
  ∧ Detector64._identify_primary_key ["name"] left_overflowing right_header_only
    = Raise (OverflowError "integer division result too large for a float").
Proof.
  split; [|split; [|split]].
  - pose proof (identify_primary_key_spec ["name"; "user_id"] orders customers _ _
                  eq_refl eq_refl eq_refl eq_refl) as H.
    cbv zeta in H. destruct H as (_ & _ & _ & H). apply H, perm_swap.
  - pose proof (identify_primary_key_spec ["name"] left_header_only right_header_only _ _
                  eq_refl eq_refl eq_refl eq_refl) as H.
    cbv zeta in H. destruct H as (_ & H & _).
    destruct (H (no_pattern_in ["name"] eq_refl) (λ _, Q2Qc 0)) as [_ Hnone].
    + intros f ->%list_elem_of_singleton. reflexivity.
    + apply Hnone. intros f _. by vm_compute.
  - pose proof (identify_primary_key_spec ["name"; "amount"] left_rounding right_rounding
                  _ _ eq_refl eq_refl eq_refl eq_refl) as H.
    cbv zeta in H. destruct H as (_ & H & _).
    destruct (H (no_pattern_in ["name"; "amount"] eq_refl) (λ _, one_float)) as [Hbest _].
    + intros f Hf.
      apply elem_of_cons in Hf as [->|Hf]; [|apply list_elem_of_singleton in Hf as ->];
        unfold Detector64.uniqueness; f_equal; apply Qc_is_canon; by vm_compute.
    + apply Hbest; [|by vm_compute].
      exists [], ["amount"]. repeat split.
      * intros f Hf. by apply elem_of_nil in Hf.
      * intros f _. apply Qcle_refl.
  - pose proof (identify_primary_key_spec ["name"] left_overflowing right_header_only _ _
                  eq_refl eq_refl eq_refl eq_refl) as H.
    cbv zeta in H. destruct H as (_ & _ & H & _).
    apply (H (no_pattern_in ["name"] eq_refl) [] "name" [] _ eq_refl).
    + intros g Hg. by apply elem_of_nil in Hg.
    + by vm_compute.
Defined.

(** The two scores behind the third case differ as quotients: the exact
    score of [amount] is the higher one, and it is not selected. *)
Example scores_that_round_to_one_float :
  (uniqueness (schema_of left_rounding) (schema_of right_rounding) "name"
   < uniqueness (schema_of left_rounding) (schema_of right_rounding) "amount")%Qc
  ∧ Detector64.uniqueness (schema_of left_rounding) (schema_of right_rounding) "name"
    = Ok one_float
  ∧ Detector64.uniqueness (schema_of left_rounding) (schema_of right_rounding) "amount"
    = Ok one_float.
Proof.
  split; [by vm_compute|].
  split; unfold Detector64.uniqueness; f_equal; apply Qc_is_canon; by vm_compute.
Qed.

(** A column name written with the Kelvin sign carries the pattern key. *)
Example kelvin_sign_carries_key :
  lower kelvin_ey = "key"
  ∧ Detector64._identify_primary_key ["name"; kelvin_ey] left_header_only right_header_only
    = Ok (Some kelvin_ey).
Proof. split; reflexivity. Qed.

End JoinKeyCases.

(* ===================================================================== *)
(** ** The scenario of two sources                                        *)
(* ===================================================================== *)

Section Scenario.

Import Samples.

(** [orders] and [customers] share [customer_id]: one relationship, keyed
    by it, of confidence 1/4. *)
Example scenario_relationship :
  map (λ r, (source1_id r, source2_id r, join_type r,
             map_to_list (join_keys r), this (confidence r)))
      (find_relationships elements [orders; customers])
  = [("orders", "customers", "LEFT JOIN", [("customer_id", "customer_id")], 1 # 4)].
Proof. vm_compute. reflexivity. Qed.

Example scenario_patterns :
  let p := analyze_data_patterns [orders; customers] in
  has_temporal_data p = true ∧ temporal_columns p = ["created_at"]
  ∧ has_geographical_data p = true ∧ geographical_columns p = ["country"]
  ∧ total_estimated_rows p = 510000
  ∧ suggested_partitioning p = Some "yearly".
Proof. vm_compute. repeat split; reflexivity. Qed.

(** Without an analytics keyword and below a million rows the rules choose
    postgresql, with an index on the temporal column. *)
Example scenario_storage :
  let br := {| goal := "reporting"; target_metrics := ["revenue"];
               update_frequency := WEEKLY; expected_load := "low";
               data_retention := "1y" |} in
  let r := _generate_rule_based_recommendations [orders; customers] br
             (of_patterns (analyze_data_patterns [orders; customers])) in
  primary (storage_recommendation r) = "postgresql"
  ∧ partitioning (schema_design r) = None
  ∧ indexes (schema_design r) = ["created_at"]
  ∧ main_table (schema_design r) = "processed_data"
  ∧ schedule (etl_pipeline r) = "0 2 * * 0".
Proof. vm_compute. repeat split; reflexivity. Qed.

(** [str.lower], [in], [strip] and [find] on small inputs. *)
Example python_strings :
  lower "User_ID" = "user_id"
  ∧ str_in "id" "user_id" = true ∧ str_in "id" "name" = false
  ∧ strip (nl +:+ " a b " +:+ nl +:+ nl) = "a b"
  ∧ find "{" "ab{c}d}" = 2 ∧ rfind "}" "ab{c}d}" = 6 ∧ find "{" "abc" = -1
  ∧ str_of_int 5432 = "5432".
Proof. repeat split; reflexivity. Qed.

(** A frame of two rows, profiled. *)
Example profile_two_rows :
  (λ s, (columns s, row_count s, map_to_list (null_counts s),
         map_to_list (unique_counts s), length (sample_data s)))
    <$> (match (analyze_source (with_database (Ok two_rows)) postgres_source []).1 with
         | Ok s => Some s
         | Raise _ => None
         end)
  = Some (["customer_id"; "name"], 2,
          [("customer_id", 0); ("name", 1)], [("customer_id", 2); ("name", 1)], 2%nat).
Proof. vm_compute. reflexivity. Qed.

End Scenario.

(* ===================================================================== *)
(** ** The profiler, source kind by source kind                           *)
(* ===================================================================== *)

Section ProfilerKinds.

Lemma length_json_normalize column nested (data : list json) (df : DataFrame) :
  existsb is_arr data = false →
  json_normalize column nested data = Ok df →
  length (df_rows df) = length data.
Proof.
  unfold json_normalize. intros ->. intros H.
  apply rbind_Ok in H as (converted & _ & [= <-]).
  cbn [df_rows]. by rewrite length_imap, length_map.
Qed.

(** What [_analyze_json] does with the document it has read. *)
Lemma analyze_json_read w config stream data :
  reads_from w config stream →
  w_json_load w stream = Ok data →
  _analyze_json w config
  = let? df := json_normalize (w_column w) (w_nested w) (root_elements data) in
    _create_schema_info df.
Proof.
  intros Hr Hload. unfold _analyze_json, has_key, item.
  destruct Hr as [->|(-> & file_path & -> & Ho)]; cbn [present rbind].
  - rewrite Hload. cbn [rbind]. by destruct data.
  - rewrite Ho. cbn [rbind]. rewrite Hload. cbn [rbind]. by destruct data.
Qed.

(** X3. A JSON source is profiled on the whole document.  Let the
    document be the one decoded from the uploaded file, or else from the
    file at the path, and let none of its elements be a list.  Then either
    the profiler returns a Schema Info whose row count is the number of
    elements of the root array, without a cap (1 when the root is not an
    array), and logs nothing; or pandas raises while it builds the frame
    or while the frame is profiled, and the profiler logs that exception
    and returns the empty Schema Info. *)
Theorem json_row_count_is_document_length (w : world) (source : DataSourceConfig)
    (t : trace) (stream : pyval) (data : json) :
  type source = JSON →
  reads_from w (config source) stream →
  w_json_load w stream = Ok data →
  existsb is_arr (root_elements data) = false →
  (∃ s, analyze_source w source t = (Ok s, t)
        ∧ row_count s = Z.of_nat (length (root_elements data)))
  ∨ (∃ e, analyze_source w source t
          = (Ok empty_schema, t ++ [ErrorLogged (analyze_error source e)])
          ∧ (json_normalize (w_column w) (w_nested w) (root_elements data) = Raise e
             ∨ ∃ df, json_normalize (w_column w) (w_nested w) (root_elements data) = Ok df
                     ∧ _create_schema_info df = Raise e)).
Proof.
  intros Hty Hr Hload Hflat.
  unfold analyze_source, try_except, analyze_source_body. rewrite Hty.
  unfold lift. rewrite (analyze_json_read w (config source) stream data Hr Hload).
  destruct (json_normalize _ _ _) as [df|e] eqn:Hdf; cbn [rbind].
  - destruct (_create_schema_info df) as [s|e] eqn:Hs.
    + left. exists s. split; [done|].
      apply create_schema_info_Ok in Hs as (_ & _ & -> & _).
      by rewrite (length_json_normalize _ _ _ _ Hflat Hdf).
    + right. exists e. split; [done|]. right. by exists df.
  - right. exists e. split; [done|]. by left.
Qed.

(** A dict comprehension holds, for each key, the value computed for it. *)
Lemma dict_comp_lookup {V} (f : string → result V) cols acc m c v :
  dict_comp f cols acc = Ok m → m !! c = Some v →
  f c = Ok v ∨ acc !! c = Some v.
Proof.
  revert acc. induction cols as [|col cols IH]; intros acc; simpl.
  - intros [= ->] ?. by right.
  - intros H Hm. apply rbind_Ok in H as (v0 & Hf & H).
    destruct (IH _ H Hm) as [?|Hacc]; [by left|].
    destruct (decide (col = c)) as [->|Hne].
    + rewrite lookup_insert_eq in Hacc. injection Hacc as ->. by left.
    + rewrite lookup_insert_ne in Hacc by done. by right.
Qed.

Lemma length_distinct (l : list json) : (length (distinct l) <= length l)%nat.
Proof.
  induction l as [|x l IH]; simpl; [done|].
  destruct (existsb (cell_eqb x) l); simpl; lia.
Qed.

Lemma length_filter_split (l : list json) :
  (length (filter (λ c, isnull c = true) l)
   + length (filter (λ c, isnull c = false) l) = length l)%nat.
Proof.
  induction l as [|x l IH]; [done|].
  rewrite !filter_cons. destruct (isnull x) eqn:E; repeat case_decide; try done;
    simpl; lia.
Qed.

Lemma length_getitem df col vals :
  getitem df col = Ok vals → length vals = length (df_rows df).
Proof.
  unfold getitem. destruct (positions col (df_columns df) 0) as [|i [|]]; try done.
  intros [= <-]. by rewrite length_map.
Qed.

(** X4. In every Schema Info the profiler returns, the null count and the
    distinct count of a column are not negative and together do not
    exceed the row count. *)
Theorem profile_counts_bounded (w : world) (source : DataSourceConfig) (t : trace) :
  ∃ s, (analyze_source w source t).1 = Ok s
       ∧ ∀ col n u, null_counts s !! col = Some n → unique_counts s !! col = Some u →
                    0 <= n ∧ 0 <= u ∧ n + u <= row_count s.
Proof.
  destruct (analyze_source_cases w source t) as [(s & t' & Hb & ->)|(e & t' & _ & ->)].
  - exists s. split; [done|]. intros col n u Hn Hu.
    apply analyze_source_body_Ok in Hb as (df & Hdf & _).
    unfold _create_schema_info in Hdf.
    apply rbind_Ok in Hdf as (nulls & Hnulls & Hdf).
    apply rbind_Ok in Hdf as (uniques & Huniques & [= <-]).
    simpl in *.
    destruct (dict_comp_lookup _ _ _ _ _ _ Hnulls Hn) as [Hfn|?]; [|done].
    destruct (dict_comp_lookup _ _ _ _ _ _ Huniques Hu) as [Hfu|?]; [|done].
    apply rbind_Ok in Hfn as (vals & Hvals & [= <-]).
    apply rbind_Ok in Hfu as (vals' & Hvals' & Hnu).
    rewrite Hvals in Hvals'. injection Hvals' as <-.
    apply length_getitem in Hvals.
    unfold nunique in Hnu. destruct (existsb unhashable vals); [done|].
    injection Hnu as <-. unfold isnull_sum, df_len.
    pose proof (length_filter_split vals).
    pose proof (length_distinct (filter (λ c, isnull c = false) vals)).
    lia.
  - exists empty_schema. split; [done|]. intros col n u Hn. by simpl in Hn.
Qed.

(** The engines created before the trace [t]. *)
Let created (t : trace) : nat := length (List.filter is_created t).

(** X5. When the query returns, one engine is created for the call and it
    is disposed before the frame is profiled: the outcome of the call is
    the outcome of profiling the frame, raised or returned. *)
Theorem engine_disposed_after_query (w : world) (config : gmap string pyval) (t : trace)
    (url : string) (table : pyval) (df : DataFrame) :
  connection_string config = Ok url →
  w_create_engine w url = Ok tt →
  config !! "table" = Some table →
  w_read_sql w ("SELECT * FROM " +:+ str_of table +:+ " LIMIT 1000") url = Ok df →
  _analyze_postgresql w config t
  = (_create_schema_info df,
     t ++ [EngineCreated (created t) url; EngineDisposed (created t)]).
Proof.
  intros Hurl Hengine Htable Hsql.
  unfold _analyze_postgresql, bind, lift, create_engine, dispose, emit, item.
  rewrite Hurl, Hengine, Htable, Hsql. by rewrite <- app_assoc.
Qed.

(** X6. A configuration that lacks the user name, the password, the host
    or the database gives the empty Schema Info and a logged KeyError, and
    no engine is created. *)
Theorem missing_credential_creates_no_engine (w : world) (source : DataSourceConfig)
    (t : trace) (key : string) :
  type source = POSTGRESQL →
  key ∈ ["username"; "password"; "host"; "database"] →
  config source !! key = None →
  ∃ missing,
    config source !! missing = None
    ∧ analyze_source w source t
      = (Ok empty_schema, t ++ [ErrorLogged (analyze_error source (KeyError missing))]).
Proof.
  intros Hty Hkey Hnone.
  assert (∃ missing, config source !! missing = None
                     ∧ connection_string (config source) = Raise (KeyError missing))
    as (missing & Hm & Hc).
  { unfold connection_string, item.
    destruct (config source !! "username") eqn:E1; [|by exists "username"].
    destruct (config source !! "password") eqn:E2; [|by exists "password"].
    destruct (config source !! "host") eqn:E3; [|by exists "host"].
    destruct (config source !! "database") eqn:E4; [|by exists "database"].
    exfalso. repeat (apply elem_of_cons in Hkey as [->|Hkey]; [congruence|]).
    by apply elem_of_nil in Hkey. }
  exists missing. split; [done|].
  unfold analyze_source, try_except, analyze_source_body. rewrite Hty.
  unfold _analyze_postgresql, bind, lift. by rewrite Hc.
Qed.

(** X7. A configuration with the four credentials and no table name
    creates an engine and raises the KeyError before anything disposes it. *)
Theorem missing_table_leaves_engine (w : world) (config : gmap string pyval) (t : trace)
    (url : string) :
  connection_string config = Ok url →
  w_create_engine w url = Ok tt →
  config !! "table" = None →
  _analyze_postgresql w config t
  = (Raise (KeyError "table"), t ++ [EngineCreated (created t) url]).
Proof.
  intros Hurl Hengine Htable.
  unfold _analyze_postgresql, bind, lift, create_engine, item.
  by rewrite Hurl, Hengine, Htable.
Qed.

(** X8. An uploaded stream takes precedence over a path: with [file_data]
    in the configuration, [file_path] is never read. *)
Theorem file_data_takes_precedence (w : world) (config : gmap string pyval)
    (stream path : pyval) :
  config !! "file_data" = Some stream →
  _analyze_csv w (<["file_path" := path]> config) = _analyze_csv w config
  ∧ _analyze_json w (<["file_path" := path]> config) = _analyze_json w config
  ∧ _analyze_excel w (<["file_path" := path]> config) = _analyze_excel w config.
Proof.
  intros Hs.
  unfold _analyze_csv, _analyze_json, _analyze_excel, has_key, item, get.
  rewrite !lookup_insert_ne by done. by rewrite Hs.
Qed.

(** X9. An empty JSON array is profiled without an error, and the schema
    returned is the one returned on failure. *)
Theorem empty_array_looks_like_failure (w : world) (source : DataSourceConfig)
    (t : trace) (stream : pyval) :
  type source = JSON →
  config source !! "file_data" = Some stream →
  w_json_load w stream = Ok (JArr []) →
  analyze_source w source t = (Ok empty_schema, t).
Proof.
  intros Hty Hs Hload.
  unfold analyze_source, try_except, analyze_source_body. rewrite Hty.
  unfold lift.
  by rewrite (analyze_json_read w (config source) stream (JArr []) (or_introl Hs) Hload).
Qed.

End ProfilerKinds.

Section ProfilerKindsCases.

Import Samples Cases.

Lemma json_row_count_is_document_length_witness :
  ∃ s, analyze_source (with_document long_document) json_source [] = (Ok s, [])
       ∧ row_count s = 1001.
Proof.
  destruct (json_row_count_is_document_length (with_document long_document)
              json_source [] (VStr "events.json") long_document eq_refl)
    as [H|(e & H & _)].
  - right. split; [reflexivity|]. exists (VStr "events.json"). split; reflexivity.
  - reflexivity.
  - reflexivity.
  - exact H.
  - vm_compute in H. discriminate H.
Defined.

Lemma engine_disposed_after_query_witness :
  _analyze_postgresql (with_database (Ok two_rows)) (config postgres_source) []
  = (_create_schema_info two_rows,
     [EngineCreated 0 "postgresql://etl:secret@db:5432/crm"; EngineDisposed 0]).
Proof.
  apply (engine_disposed_after_query (with_database (Ok two_rows))
           (config postgres_source) [] "postgresql://etl:secret@db:5432/crm"
           (VStr "missing_table") two_rows);
    reflexivity.
Defined.

Lemma missing_credential_creates_no_engine_witness :
  ∃ missing,
    config passwordless_source !! missing = None
    ∧ analyze_source offline passwordless_source []
      = (Ok empty_schema,
         [ErrorLogged (analyze_error passwordless_source (KeyError missing))]).
Proof.
  apply (missing_credential_creates_no_engine offline passwordless_source []
           "password" eq_refl).
  - apply list_elem_of_further, list_elem_of_here.
  - reflexivity.
Defined.

Lemma missing_table_leaves_engine_witness :
  _analyze_postgresql (with_database (Ok two_rows)) (config tableless_source) []
  = (Raise (KeyError "table"), [EngineCreated 0 "postgresql://etl:secret@db:5432/crm"]).
Proof.
  apply (missing_table_leaves_engine (with_database (Ok two_rows))
           (config tableless_source) [] "postgresql://etl:secret@db:5432/crm");
    reflexivity.
Defined.

Lemma file_data_takes_precedence_witness :
  _analyze_json (with_document long_document)
                (<["file_path" := VStr "other.json"]> (config uploaded_json_source))
  = _analyze_json (with_document long_document) (config uploaded_json_source).
Proof.
  apply (file_data_takes_precedence (with_document long_document)
           (config uploaded_json_source) (VFile 3) (VStr "other.json")).
  reflexivity.
Defined.

Lemma empty_array_looks_like_failure_witness :
  analyze_source (with_document (JArr [])) uploaded_json_source []
  = (Ok empty_schema, []).
Proof.
  apply (empty_array_looks_like_failure (with_document (JArr [])) uploaded_json_source
           [] (VFile 3)); reflexivity.
Defined.

(** A JSON array of six numbers: six rows, no column, and no preview. *)
Example array_of_numbers_has_rows_and_no_preview :
  (λ s, (columns s, row_count s, sample_data s))
    <$> (match (analyze_source
                  (with_document (JArr [JInt 1; JInt 2; JInt 3; JInt 4; JInt 5; JInt 6]))
                  json_source []).1 with
         | Ok s => Some s
         | Raise _ => None
         end)
  = Some ([], 6, []).
Proof. vm_compute. reflexivity. Qed.

End ProfilerKindsCases.

(* ===================================================================== *)
(** ** The detector: how many relationships, and which keys               *)
(* ===================================================================== *)

Section DetectorMore.

Variable iter : gset string → list string.

Lemma length_source_pairs (sources : list DataSourceConfig) :
  (2 * length (source_pairs sources) = length sources * (length sources - 1))%nat.
Proof.
  induction sources as [|s sources IH]; [done|].
  cbn [source_pairs length]. rewrite length_app, length_map. nia.
Qed.

Lemma length_pair_step s1 s2 : (length (pair_step iter s1 s2) <= 1)%nat.
Proof.
  rewrite pair_step_eq.
  destruct (has_schema s1 && has_schema s2 && bool_decide (common s1 s2 ≠ ∅)); simpl; lia.
Qed.

(** X10. [n] sources give at most [n (n - 1) / 2] relationships; in
    particular fewer than two sources give none. *)
Theorem relationships_at_most_pairs (sources : list DataSourceConfig) :
  (2 * length (find_relationships iter sources)
   <= length sources * (length sources - 1))%nat.
Proof.
  rewrite find_relationships_flat, <- length_source_pairs.
  induction (source_pairs sources) as [|[s1 s2] pairs IH]; [done|].
  cbn [flat_map length fst snd]. rewrite length_app.
  pose proof (length_pair_step s1 s2). lia.
Qed.

Lemma first_field_elem pattern fields k :
  first_field pattern fields = Some k → k ∈ fields.
Proof.
  induction fields as [|f fields IH]; simpl; [done|].
  destruct (str_in pattern (lower f)).
  - intros [= ->]. by left.
  - intros H. right. by apply IH.
Qed.

Lemma by_pattern_elem patterns fields k :
  by_pattern patterns fields = Some k → k ∈ fields.
Proof.
  induction patterns as [|p ps IH]; simpl; [done|].
  destruct (first_field p fields) eqn:E; [|done].
  intros [= ->]. by eapply first_field_elem.
Qed.

Lemma best_fold_elem d1 d2 fields (st : option string * Qc) k :
  (fold_left (best_step d1 d2) fields st).1 = Some k → st.1 = Some k ∨ k ∈ fields.
Proof.
  revert st. induction fields as [|f fields IH]; intros st; cbn [fold_left].
  - by left.
  - intros [H|H]%IH; [|right; by right].
    unfold best_step in H. destruct (gt _ _); [|by left].
    injection H as ->. right. by left.
Qed.

(** The key that [_identify_primary_key] selects is one of the fields. *)
Lemma identify_primary_key_elem fields s1 s2 k :
  _identify_primary_key fields s1 s2 = Some k → k ∈ fields.
Proof.
  unfold _identify_primary_key.
  destruct (by_pattern priority_patterns fields) eqn:E.
  { intros [= ->]. by eapply by_pattern_elem. }
  assert (Hhead : head fields = Some k → k ∈ fields).
  { destruct fields; [done|]. intros [= ->]. by left. }
  destruct (schema_info s1) as [d1|], (schema_info s2) as [d2|]; try done.
  destruct (dict_truthy d1 && dict_truthy d2); [|done].
  by intros [?|?]%best_fold_elem.
Qed.

Lemma truediv_pos a b : 0 < a → 0 < b → (0 < truediv a b)%Qc.
Proof.
  intros Ha Hb. unfold Qclt. rewrite truediv_Q. cbn [this Q2Qc Qred].
  apply Qlt_shift_div_l.
  - change (inject_Z 0 < inject_Z b)%Q. rewrite <- Zlt_Qlt. lia.
  - rewrite Qmult_0_l. change (inject_Z 0 < inject_Z a)%Q. rewrite <- Zlt_Qlt. lia.
Qed.

Hypothesis iter_elements : ∀ (X : gset string) k, k ∈ iter X → k ∈ X.

(** X11. Every relationship has a confidence above 0, and its join keys
    are either empty or one column name mapped to itself, a name that both
    of its sources have among their columns. *)
Theorem join_key_is_common_column (sources : list DataSourceConfig) :
  Forall (λ r,
            (0 < confidence r)%Qc
            ∧ (join_keys r = ∅
               ∨ ∃ k s1 s2,
                   join_keys r = {[ k := k ]}
                   ∧ (s1, s2) ∈ source_pairs sources
                   ∧ source1_id r = id s1 ∧ source2_id r = id s2
                   ∧ k ∈ columns_of s1 ∧ k ∈ columns_of s2))
         (find_relationships iter sources).
Proof.
  rewrite find_relationships_flat. apply Forall_forall. intros r Hr.
  apply list_elem_of_In, in_flat_map in Hr as ([s1 s2] & Hp & Hr).
  apply list_elem_of_In in Hp. cbn [fst snd] in Hr.
  rewrite pair_step_eq in Hr.
  destruct (has_schema s1 && has_schema s2) eqn:Hs; [|by destruct Hr].
  case_bool_decide as Hne; [|by destruct Hr].
  destruct Hr as [<-|[]]. cbn [confidence join_keys source1_id source2_id]. split.
  - destruct (divisors_positive {| d_columns := None; d_dtypes := None;
        d_sample_data := None; d_row_count := None; d_null_counts := None;
        d_unique_counts := None |} s1 s2) as [_ Hmax].
    apply truediv_pos; [|by apply Hmax].
    assert (size (common s1 s2) ≠ 0%nat); [|lia].
    apply size_non_empty_iff. by intros ?%leibniz_equiv.
  - destruct (_identify_primary_key (iter (common s1 s2)) s1 s2) as [[|c k]|] eqn:E;
      [by left | right | by left].
    exists (String c k), s1, s2. repeat split; try done.
    all: apply identify_primary_key_elem, iter_elements in E;
      unfold common, column_set in E; set_solver.
Qed.

End DetectorMore.

Section DetectorMoreCases.

Import Samples.

Lemma join_key_is_common_column_witness :
  Forall (λ r,
            (0 < confidence r)%Qc
            ∧ (join_keys r = ∅
               ∨ ∃ k s1 s2,
                   join_keys r = {[ k := k ]}
                   ∧ (s1, s2) ∈ source_pairs [orders; customers]
                   ∧ source1_id r = id s1 ∧ source2_id r = id s2
                   ∧ k ∈ columns_of s1 ∧ k ∈ columns_of s2))
         (find_relationships elements [orders; customers]).
Proof.
  apply (join_key_is_common_column elements).
  intros X k Hk. by apply elem_of_elements in Hk.
Defined.

End DetectorMoreCases.

(* ===================================================================== *)
(** ** The classifier over several lists of sources                       *)
(* ===================================================================== *)

Section PatternsMore.

Local Arguments matches : simpl never.

(** The fields of the patterns, in closed form. *)
Lemma analyze_data_patterns_fields (sources : list DataSourceConfig) :
  let p := analyze_data_patterns sources in
  let cols := flat_map columns_of sources in
  let total := sum (map rows_of sources) in
  has_temporal_data p = existsb (matches temporal_keywords) cols
  ∧ temporal_columns p = List.filter (matches temporal_keywords) cols
  ∧ has_geographical_data p = existsb (matches geo_keywords) cols
  ∧ geographical_columns p = List.filter (matches geo_keywords) cols
  ∧ total_estimated_rows p = total
  ∧ data_types_distribution p = ∅
  ∧ suggested_partitioning p =
      if existsb (matches temporal_keywords) cols then
        if total >? 1000000 then Some "monthly"
        else if total >? 100000 then Some "yearly" else None
      else None.
Proof.
  cbv zeta. unfold analyze_data_patterns. rewrite fold_source_step.
  cbn [patterns total_rows]. rewrite Z.add_0_l.
  set (cols := flat_map columns_of sources).
  set (total := sum (map rows_of sources)).
  simpl.
  destruct (existsb (matches temporal_keywords) cols) eqn:Et; simpl;
    [destruct (total >? 1000000); [|destruct (total >? 100000)]|];
    simpl; rewrite ?Et; done.
Qed.

Lemma sum_app (l1 l2 : list Z) : sum (l1 ++ l2) = sum l1 + sum l2.
Proof. induction l1 as [|x l1 IH]; simpl; [done | rewrite IH; lia]. Qed.

(** X12. The classifier works source by source: for two lists of sources
    put one after the other, the temporal and the geographic columns are
    those of the first list followed by those of the second, the flags
    are the disjunctions and the total is the sum. *)
Theorem analyze_data_patterns_app (l1 l2 : list DataSourceConfig) :
  let p := analyze_data_patterns (l1 ++ l2) in
  let p1 := analyze_data_patterns l1 in
  let p2 := analyze_data_patterns l2 in
  temporal_columns p = temporal_columns p1 ++ temporal_columns p2
  ∧ geographical_columns p = geographical_columns p1 ++ geographical_columns p2
  ∧ has_temporal_data p = has_temporal_data p1 || has_temporal_data p2
  ∧ has_geographical_data p = has_geographical_data p1 || has_geographical_data p2
  ∧ total_estimated_rows p = total_estimated_rows p1 + total_estimated_rows p2.
Proof.
  cbv zeta.
  destruct (analyze_data_patterns_fields (l1 ++ l2)) as (-> & -> & -> & -> & -> & _).
  destruct (analyze_data_patterns_fields l1) as (-> & -> & -> & -> & -> & _).
  destruct (analyze_data_patterns_fields l2) as (-> & -> & -> & -> & -> & _).
  rewrite flat_map_app, map_app, sum_app, !List.filter_app, !List.existsb_app.
  done.
Qed.

Lemma columns_of_without_schema s : has_schema s = false → columns_of s = [].
Proof.
  unfold has_schema, columns_of. destruct (schema_info s) as [d|]; [|done].
  by intros ->.
Qed.

Lemma rows_of_without_schema s : has_schema s = false → rows_of s = 0.
Proof.
  unfold has_schema, rows_of. destruct (schema_info s) as [d|]; [|done].
  by intros ->.
Qed.

(** X13. Sources without a schema contribute nothing: leaving them out
    does not change the patterns; and the distribution of data types is
    never filled in. *)
Theorem unprofiled_sources_contribute_nothing (sources : list DataSourceConfig) :
  analyze_data_patterns (List.filter has_schema sources) = analyze_data_patterns sources
  ∧ data_types_distribution (analyze_data_patterns sources) = ∅.
Proof.
  split; [|apply analyze_data_patterns_fields].
  unfold analyze_data_patterns. rewrite !fold_source_step.
  assert (flat_map columns_of (List.filter has_schema sources)
          = flat_map columns_of sources) as ->.
  { induction sources as [|s sources IH]; [done|]. simpl.
    destruct (has_schema s) eqn:E; simpl; rewrite IH; [done|].
    by rewrite (columns_of_without_schema s E). }
  assert (sum (map rows_of (List.filter has_schema sources))
          = sum (map rows_of sources)) as ->; [|done].
  induction sources as [|s sources IH]; [done|]. simpl.
  destruct (has_schema s) eqn:E; simpl; rewrite IH; [done|].
  by rewrite (rows_of_without_schema s E).
Qed.

Lemma existsb_flat_map_perm {A B} (f : B → bool) (g : A → list B) (l l' : list A) :
  l ≡ₚ l' → existsb f (flat_map g l) = existsb f (flat_map g l').
Proof.
  induction 1 as [|x l l' _ IH|x y l|l l' l'' _ IH1 _ IH2]; simpl.
  - done.
  - by rewrite !List.existsb_app, IH.
  - rewrite !List.existsb_app.
    by destruct (existsb f (g x)), (existsb f (g y)).
  - by rewrite IH1.
Qed.

Lemma filter_flat_map_perm {A B} (f : B → bool) (g : A → list B) (l l' : list A) :
  l ≡ₚ l' → List.filter f (flat_map g l) ≡ₚ List.filter f (flat_map g l').
Proof.
  induction 1 as [|x l l' _ IH|x y l|l l' l'' _ IH1 _ IH2]; simpl.
  - done.
  - rewrite !List.filter_app. by apply Permutation_app_head.
  - rewrite !List.filter_app, !app_assoc. apply Permutation_app_tail.
    apply Permutation_app_comm.
  - by rewrite IH1.
Qed.

Lemma sum_perm (l l' : list Z) : l ≡ₚ l' → sum l = sum l'.
Proof.
  induction 1 as [|x l l' _ IH|x y l|l l' l'' _ IH1 _ IH2]; simpl; lia.
Qed.

(** X14. The order of the sources changes the order of the temporal and
    geographic columns and nothing else: the flags, the total and the
    partition suggestion are the same for any rearrangement. *)
Theorem analyze_data_patterns_perm (sources sources' : list DataSourceConfig) :
  sources ≡ₚ sources' →
  let p := analyze_data_patterns sources in
  let p' := analyze_data_patterns sources' in
  has_temporal_data p = has_temporal_data p'
  ∧ has_geographical_data p = has_geographical_data p'
  ∧ total_estimated_rows p = total_estimated_rows p'
  ∧ suggested_partitioning p = suggested_partitioning p'
  ∧ temporal_columns p ≡ₚ temporal_columns p'
  ∧ geographical_columns p ≡ₚ geographical_columns p'.
Proof.
  intros Hp. cbv zeta.
  destruct (analyze_data_patterns_fields sources) as (-> & -> & -> & -> & -> & _ & ->).
  destruct (analyze_data_patterns_fields sources') as (-> & -> & -> & -> & -> & _ & ->).
  rewrite (existsb_flat_map_perm _ columns_of _ _ Hp).
  rewrite (existsb_flat_map_perm (matches geo_keywords) columns_of _ _ Hp).
  rewrite (sum_perm (map rows_of sources) (map rows_of sources')) by by apply Permutation_map.
  repeat split; by apply filter_flat_map_perm.
Qed.

End PatternsMore.

Section PatternsMoreCases.

Import Samples.

Lemma analyze_data_patterns_perm_witness :
  let p := analyze_data_patterns [orders; customers] in
  let p' := analyze_data_patterns [customers; orders] in
  has_temporal_data p = has_temporal_data p'
  ∧ has_geographical_data p = has_geographical_data p'
  ∧ total_estimated_rows p = total_estimated_rows p'
  ∧ suggested_partitioning p = suggested_partitioning p'
  ∧ temporal_columns p ≡ₚ temporal_columns p'
  ∧ geographical_columns p ≡ₚ geographical_columns p'.
Proof.
  apply (analyze_data_patterns_perm [orders; customers] [customers; orders]).
  apply perm_swap.
Defined.

End PatternsMoreCases.

(* ===================================================================== *)
(** ** The rules over the patterns of the classifier                      *)
(* ===================================================================== *)

Section RulesOverPatterns.

Local Arguments matches : simpl never.

Lemma rule_based_indexes sources br dp :
  indexes (schema_design (_generate_rule_based_recommendations sources br dp))
  = firstn 2 (default [] (p_temporal_columns dp)).
Proof.
  unfold _generate_rule_based_recommendations.
  destruct (any _ _ && default false (p_has_temporal_data dp)
            && (default 0 (p_total_estimated_rows dp) >? 100000)),
    (default 0 (p_total_estimated_rows dp) >? 1000000);
    simpl; by destruct (default [] (p_temporal_columns dp)).
Qed.

Lemma rule_based_main_table sources br dp :
  main_table (schema_design (_generate_rule_based_recommendations sources br dp))
  = if any (λ metric, list_in metric analytics_keywords) (target_metrics br)
    then "analytics_data" else "processed_data".
Proof.
  unfold _generate_rule_based_recommendations.
  by destruct (any _ _ && default false (p_has_temporal_data dp)
               && (default 0 (p_total_estimated_rows dp) >? 100000)),
    (default 0 (p_total_estimated_rows dp) >? 1000000).
Qed.

Variables (sources : list DataSourceConfig) (br : BusinessRequirements).

Let p := analyze_data_patterns sources.
Let r := _generate_rule_based_recommendations sources br (of_patterns p).

(** X15. With the patterns of the classifier, the index list of the rules
    holds the first two temporal columns in the order of the sources: at
    most two names, each a column of a profiled source whose lowercase
    name carries a temporal keyword. *)
Theorem indexes_are_temporal_columns :
  indexes (schema_design r) = firstn 2 (temporal_columns p)
  ∧ (length (indexes (schema_design r)) <= 2)%nat
  ∧ Forall (λ i, i ∈ flat_map columns_of sources ∧ carries temporal_keywords i)
           (indexes (schema_design r)).
Proof.
  unfold r. rewrite rule_based_indexes. cbn [of_patterns p_temporal_columns default].
  split; [done|]. split; [rewrite length_firstn; lia|].
  unfold p. destruct (analyze_data_patterns_fields sources) as (_ & -> & _).
  apply Forall_forall. intros i Hi.
  apply subseteq_take, list_elem_of_In, filter_In in Hi as [Hin Hm].
  split; [by apply list_elem_of_In | by apply matches_spec].
Qed.

(** X16. The partition of the rules agrees with the suggestion of the
    classifier: it is the monthly expression exactly when the suggestion
    is monthly; it is the yearly expression only when the suggestion is
    yearly and the metrics are analytic; it is absent when there is no
    suggestion. *)
Theorem partition_follows_suggestion :
  (partitioning (schema_design r) = Some monthly_expr
   ↔ suggested_partitioning p = Some "monthly")
  ∧ (partitioning (schema_design r) = Some yearly_expr
     ↔ suggested_partitioning p = Some "yearly" ∧ analytics br)
  ∧ (suggested_partitioning p = None → partitioning (schema_design r) = None).
Proof.
  unfold r. rewrite partitioning_eq, primary_eq, <- is_analytics_spec.
  cbn [of_patterns p_has_temporal_data p_total_estimated_rows default from_option
       Datatypes.id].
  unfold p.
  destruct (analyze_data_patterns_fields sources) as (-> & _ & _ & _ & -> & _ & ->).
  set (total := sum (map rows_of sources)).
  destruct (total >? 100000) eqn:E1, (total >? 1000000) eqn:E2;
    rewrite Z.gtb_ltb in E1, E2;
    try apply Z.ltb_lt in E1; try apply Z.ltb_ge in E1;
    try apply Z.ltb_lt in E2; try apply Z.ltb_ge in E2;
    try (exfalso; lia);
    destruct (any _ (target_metrics br)),
      (existsb (matches temporal_keywords) (flat_map columns_of sources));
    simpl; repeat split; try done; try (intros [? ?]; done).
Qed.

End RulesOverPatterns.

(* ===================================================================== *)
(** ** The SQL scripts for a recommendation of the rules                  *)
(* ===================================================================== *)

Section SqlScripts.

(** The scripts for the dict of the rules. *)
Lemma generate_sql_scripts_rules (r : Recommendations) :
  generate_sql_scripts (rules_json r)
  = Ok (<["optimization" :=
            JStr (if String.eqb (primary (storage_recommendation r)) "clickhouse"
                  then clickhouse_optimization else postgresql_optimization)]>
          {[ "ddl" := JStr (ddl_script (schema_design r)) ]}).
Proof.
  unfold generate_sql_scripts, rules_json, dict_get, py_dict.
  repeat (progress cbn [fold_left fst snd default from_option Datatypes.id rbind is_str]
          || rewrite lookup_insert_eq
          || rewrite lookup_insert_ne by done).
  by destruct (String.eqb (primary (storage_recommendation r)) "clickhouse").
Qed.

Variables (sources : list DataSourceConfig) (br : BusinessRequirements)
          (dp : DataPatterns).

Let r := _generate_rule_based_recommendations sources br dp.

(** X17. For a recommendation of the rules the scripts never fail and
    the DDL is the one of the recommendation, while the optimization
    script names a fixed table: it names the main table of the
    recommendation exactly when the storage is clickhouse and the metrics
    are analytic, or the storage is postgresql and they are not. *)
Theorem optimization_script_names_fixed_table :
  ∃ scripts,
    generate_sql_scripts (rules_json r) = Ok scripts
    ∧ scripts !! "ddl" = Some (JStr (ddl_script (schema_design r)))
    ∧ ∃ text, scripts !! "optimization" = Some (JStr text)
              ∧ (occurs (main_table (schema_design r)) text
                 ↔ (primary (storage_recommendation r) = "clickhouse" ↔ analytics br)).
Proof.
  rewrite generate_sql_scripts_rules. eexists. split; [done|].
  split; [by rewrite lookup_insert_ne|].
  eexists. split; [by rewrite lookup_insert_eq|].
  rewrite <- str_in_spec, <- is_analytics_spec.
  unfold r. rewrite primary_eq, rule_based_main_table.
  destruct (any _ (target_metrics br)),
    (default false (p_has_temporal_data dp)),
    (default 0 (p_total_estimated_rows dp) >? 100000),
    (default 0 (p_total_estimated_rows dp) >? 1000000);
    cbn [andb String.eqb Ascii.eqb Bool.eqb];
    match goal with |- context [str_in ?a ?b] =>
      let v := eval vm_compute in (str_in a b) in
      change (str_in a b) with v
    end;
    split; try done; try (intros [H1 H2]; by (discriminate H1 || discriminate H2)).
Qed.

End SqlScripts.

(* ===================================================================== *)
(** ** The generative strategy, call by call                              *)
(* ===================================================================== *)

Section GenerativeMore.

Variables (self : LLMService) (b : backend).
Variables (sources : list DataSourceConfig) (br : BusinessRequirements)
          (dp : DataPatterns).

Let rules := Rules (_generate_rule_based_recommendations sources br dp).

Lemma sources_info_outcome (l : list DataSourceConfig) :
  (Exists (λ s, schema_info s = None) l
   ∧ sources_info l = Raise (AttributeError "'NoneType' object has no attribute 'get'"))
  ∨ (Forall (λ s, schema_info s ≠ None) l ∧ ∃ lines, sources_info l = Ok lines).
Proof.
  induction l as [|s l IH]; simpl.
  - right. split; [constructor | by eexists].
  - unfold source_line. destruct (schema_info s) as [d|] eqn:E; simpl.
    + destruct IH as [[Hex ->]|[Hall [lines ->]]]; simpl.
      * left. split; [by apply Exists_cons_tl | done].
      * right. split; [|by eexists]. constructor; [by rewrite E | done].
    + left. split; [by apply Exists_cons_hd | done].
Qed.

(** [_parse_llm_response] handles its own exceptions. *)
Lemma parse_never_raises response t :
  ∃ a t', _parse_llm_response b response t = (Ok a, t').
Proof.
  unfold _parse_llm_response, try_except, bind, lift, raise, ret, logger_error, emit.
  repeat case_match; by do 2 eexists.
Qed.

(** With a schema on every source the call returns. *)
Lemma generate_returns_when_profiled (t : trace) :
  Forall (λ s, schema_info s ≠ None) sources →
  ∃ a t', generate_recommendations self b sources br dp t = (Ok a, t').
Proof.
  intros Hall.
  unfold generate_recommendations, _create_analysis_prompt, bind, lift.
  destruct (sources_info_outcome sources) as [[Hex _]|[_ [lines ->]]].
  - exfalso. apply Exists_exists in Hex as (s & Hs & Hnone).
    by eapply Forall_forall in Hall.
  - simpl. unfold try_except.
    match goal with |- context [match ?c with _ => _ end] =>
      destruct c as [[a|e'] t'] end; by do 2 eexists.
Qed.

(** X22. [_parse_llm_response] never raises, and its outcome is one of
    four.  For a reply that is a string with an opening and a closing
    brace, the text from the first opening brace up to the last closing
    brace is given to [json.loads]: what it returns is returned, with
    nothing logged; when it raises, the exception is logged and the dict
    without keys returned.  For a string without one of the braces the
    ValueError raised for it is logged and the dict without keys
    returned, and [json.loads] is not consulted.  For a reply that is not
    a string one line is logged and the dict without keys returned. *)
Theorem parse_llm_response_outcomes (response : json) (t : trace) :
  let logged e := t ++ [ErrorLogged ("Error parsing LLM response: " +:+ exn_str e)] in
  (∀ reply j,
     response = JStr reply → find "{" reply ≠ -1 → rfind "}" reply ≠ -1 →
     b_json_loads b (slice reply (find "{" reply) (rfind "}" reply + 1)) = Ok j →
     _parse_llm_response b response t = (Ok (Decoded j), t))
  ∧ (∀ reply e,
       response = JStr reply → find "{" reply ≠ -1 → rfind "}" reply ≠ -1 →
       b_json_loads b (slice reply (find "{" reply) (rfind "}" reply + 1)) = Raise e →
       _parse_llm_response b response t = (Ok empty_dict, logged e))
  ∧ (∀ reply,
       response = JStr reply → find "{" reply = -1 ∨ rfind "}" reply = -1 →
       _parse_llm_response b response t
       = (Ok empty_dict, logged (ValueError "JSON not found in response")))
  ∧ ((∀ reply, response ≠ JStr reply) →
     _parse_llm_response b response t
     = (Ok empty_dict,
        logged (AttributeError ("'" +:+ type_name response
                                +:+ "' object has no attribute 'find'")))).
Proof.
  cbv zeta.
  unfold _parse_llm_response, try_except, bind, lift, raise, ret, logger_error, emit.
  split; [|split; [|split]].
  - intros reply j -> Hf Hr Hj.
    apply Z.eqb_neq in Hf. rewrite Hf.
    assert (Z.eqb (rfind "}" reply + 1) 0 = false) as -> by (apply Z.eqb_neq; lia).
    cbn [negb andb]. by rewrite Hj.
  - intros reply e -> Hf Hr He.
    apply Z.eqb_neq in Hf. rewrite Hf.
    assert (Z.eqb (rfind "}" reply + 1) 0 = false) as -> by (apply Z.eqb_neq; lia).
    cbn [negb andb]. by rewrite He.
  - intros reply -> [Hf|Hr].
    + rewrite Hf. reflexivity.
    + rewrite Hr. cbn [Z.add Z.eqb negb]. by rewrite andb_false_r.
  - intros Hn. destruct response; try reflexivity. by destruct (Hn s).
Qed.

Variable prompt : Prompt.
Hypothesis prompt_ok : _create_analysis_prompt sources br dp = Ok prompt.

(** X19. Whatever makes the first call raise (no connection, a timeout, a
    body that is not JSON or lacks the expected path), the result is the
    one of the rules, and the second backend is not consulted. *)
Theorem fallback_when_call_raises (t t' : trace) (e : exn) :
  key_set (yandex_api_key self) = true →
  _call_yandex_gpt b prompt t = (Raise e, t') →
  generate_recommendations self b sources br dp t
  = (Ok rules,
     t' ++ [ErrorLogged ("Error generating LLM recommendations: " +:+ exn_str e)]).
Proof.
  intros Hk Hcall.
  unfold generate_recommendations, bind, lift, try_except.
  by rewrite prompt_ok, Hk, Hcall.
Qed.

(** X20. A reply of the first backend that is not empty decides the
    result: it is what [_parse_llm_response] makes of it, and the second
    backend is not consulted. *)
Theorem first_reply_is_used (t t' : trace) (reply : json) :
  key_set (yandex_api_key self) = true →
  _call_yandex_gpt b prompt t = (Ok reply, t') →
  truthy reply = true →
  generate_recommendations self b sources br dp t = _parse_llm_response b reply t'.
Proof.
  intros Hk Hcall Hreply.
  unfold generate_recommendations, bind, lift, try_except.
  rewrite prompt_ok, Hk, Hcall, Hreply.
  by destruct (parse_never_raises reply t') as (a & t'' & ->).
Qed.

(** X21. When the first backend answers with a status other than 200, the
    error is logged and the second backend is asked; its reply, if not
    empty, decides the result. *)
Theorem second_backend_after_status (t t' : trace) (status_code : Z) (text : string)
    (body : result json) (reply : json) :
  key_set (yandex_api_key self) = true →
  key_set (deepseek_api_key self) = true →
  b_yandex b prompt = Response status_code text body →
  status_code ≠ 200 →
  _call_deepseek b prompt
    (t ++ [ErrorLogged ("YandexGPT API error: " +:+ str_of_int status_code
                        +:+ " - " +:+ text)])
  = (Ok reply, t') →
  truthy reply = true →
  generate_recommendations self b sources br dp t = _parse_llm_response b reply t'.
Proof.
  intros Hky Hkd Hy Hcode Hcall Hreply. apply Z.eqb_neq in Hcode.
  unfold generate_recommendations, bind, lift, try_except, _call_yandex_gpt,
    logger_error, emit, ret.
  rewrite prompt_ok, Hky, Hkd, Hy, Hcode. simpl. rewrite Hcall, Hreply.
  by destruct (parse_never_raises reply t') as (a & t'' & ->).
Qed.

End GenerativeMore.

Section PromptErrors.

(** X18. The prompt is rendered before the [try] of
    [generate_recommendations].  With a source that has no schema the
    call raises, before a backend is called or a line is logged.  With
    the dict of a Schema Info on every source, and the patterns of the
    classifier, it returns: every exception after the prompt is answered
    by the rules. *)
Theorem generate_raises_when_unprofiled (self : LLMService) (b : backend)
    (sources : list DataSourceConfig) (br : BusinessRequirements) (p : Patterns)
    (t : trace) :
  (Exists (λ s, schema_info s = None) sources →
   ∃ e, generate_recommendations self b sources br (of_patterns p) t = (Raise e, t))
  ∧ (Forall (λ s, ∃ info, schema_info s = Some (to_dict info)) sources →
     ∃ a t', generate_recommendations self b sources br (of_patterns p) t = (Ok a, t')).
Proof.
  split.
  - intros Hex.
    unfold generate_recommendations, _create_analysis_prompt, bind, lift.
    destruct (sources_info_outcome sources) as [[_ ->]|[Hall _]]; [by eexists|].
    exfalso. apply Exists_exists in Hex as (s & Hs & Hnone).
    by eapply Forall_forall in Hall.
  - intros Hall. apply generate_returns_when_profiled.
    eapply Forall_impl; [exact Hall|]. intros s [info ->]. done.
Qed.

End PromptErrors.

Section GenerativeMoreCases.

Import Samples Cases.

Lemma fallback_when_call_raises_witness :
  generate_recommendations both_keys malformed_backend [orders; customers]
                           requirements large_temporal []
  = (Ok (Rules (_generate_rule_based_recommendations [orders; customers]
                                                      requirements large_temporal)),
     [ErrorLogged "Error generating LLM recommendations: 'result'"]).
Proof.
  apply (fallback_when_call_raises both_keys malformed_backend [orders; customers]
           requirements large_temporal sample_prompt eq_refl [] []
           (KeyError "result"));
    reflexivity.
Defined.

Lemma first_reply_is_used_witness :
  generate_recommendations both_keys first_backend [orders; customers]
                           requirements large_temporal []
  = _parse_llm_response first_backend (JStr "{}") [].
Proof.
  apply (first_reply_is_used both_keys first_backend [orders; customers]
           requirements large_temporal sample_prompt eq_refl [] [] (JStr "{}"));
    reflexivity.
Defined.

Lemma second_backend_after_status_witness :
  generate_recommendations both_keys second_backend [orders; customers]
                           requirements large_temporal []
  = _parse_llm_response second_backend (JStr "{}")
      [ErrorLogged "YandexGPT API error: 500 - Internal Server Error"].
Proof.
  apply (second_backend_after_status both_keys second_backend [orders; customers]
           requirements large_temporal sample_prompt eq_refl []
           [ErrorLogged "YandexGPT API error: 500 - Internal Server Error"]
           500 "Internal Server Error" (Raise (DecodeError "Expecting value"))
           (JStr "{}"));
    [reflexivity | reflexivity | reflexivity | lia | reflexivity | reflexivity].
Defined.

End GenerativeMoreCases.

(* ===================================================================== *)
(** ** The detector with its quotients as floats                          *)
(* ===================================================================== *)

Section FloatDetector.

Lemma truediv_within a b :
  0 <= a <= b → 0 < b → ∃ u, Binary64.truediv a b = Ok u.
Proof.
  intros Hab Hb. replace b with (Z.max b 1) by lia.
  apply truediv_of_count. lia.
Qed.

Lemma second_loop_returns d1 d2 fields st :
  (∀ f, f ∈ fields → ∃ u, Detector64.uniqueness d1 d2 f = Ok u) →
  ∃ st', Detector64.second_loop d1 d2 fields st = Ok st'.
Proof.
  revert st. induction fields as [|f fields IH]; intros st Hf; [by eexists|].
  cbn [Detector64.second_loop]. unfold Detector64.best_step.
  destruct (Hf f) as [u ->]; [by left|]. cbn [rbind].
  apply IH. intros g Hg. apply Hf. by right.
Qed.

Lemma identify_primary_key_returns fields s1 s2 :
  within_rows s1 → within_rows s2 →
  ∃ k, Detector64._identify_primary_key fields s1 s2 = Ok k.
Proof.
  intros B1 B2. unfold Detector64._identify_primary_key.
  destruct (by_pattern priority_patterns fields); [by eexists|].
  destruct (schema_info s1) as [d1|] eqn:E1; [|by eexists].
  destruct (schema_info s2) as [d2|] eqn:E2; [|by eexists].
  destruct (dict_truthy d1 && dict_truthy d2); [|by eexists].
  destruct (second_loop_returns d1 d2 fields (None, Q2Qc 0)) as [st ->]; [|by eexists].
  intros f _. apply uniqueness_of_profiles.
  - intros n. by apply B1.
  - intros n. by apply B2.
Qed.

Lemma pair_step_returns iter s1 s2 :
  within_rows s1 → within_rows s2 → ∃ found, Detector64.pair_step iter s1 s2 = Ok found.
Proof.
  intros B1 B2. unfold Detector64.pair_step.
  destruct (schema_info s1) as [d1|] eqn:E1; [|by eexists].
  destruct (schema_info s2) as [d2|] eqn:E2; [|by eexists].
  destruct (negb (dict_truthy d1) || negb (dict_truthy d2)); [by eexists|].
  case_bool_decide as Hne; [|by eexists].
  destruct (identify_primary_key_returns
              (iter (list_to_set (get_columns d1) ∩ list_to_set (get_columns d2))) s1 s2 B1 B2)
    as [k ->]. cbn [rbind].
  set (cols1 := list_to_set (get_columns d1) : gset string) in *.
  set (cols2 := list_to_set (get_columns d2) : gset string) in *.
  assert (size (cols1 ∩ cols2) <= size cols1)%nat
    by (apply subseteq_size; set_solver).
  assert (size (cols1 ∩ cols2) ≠ 0%nat)
    by (apply size_non_empty_iff; by intros ?%leibniz_equiv).
  destruct (truediv_within (Z.of_nat (size (cols1 ∩ cols2)))
              (Z.max (Z.of_nat (size cols1)) (Z.of_nat (size cols2)))) as [u ->];
    [lia | lia | by eexists].
Qed.

Lemma inner_loop_returns iter s1 rest acc :
  within_rows s1 → Forall within_rows rest →
  ∃ rels, Detector64.inner_loop iter s1 rest acc = Ok rels.
Proof.
  intros B1 Hr. revert acc. induction Hr as [|s2 rest B2 _ IH]; intros acc; [by eexists|].
  cbn [Detector64.inner_loop].
  destruct (pair_step_returns iter s1 s2 B1 B2) as [found ->]. apply IH.
Qed.

Lemma find_relationships_returns iter sources :
  Forall within_rows sources → ∃ rels, Detector64.find_relationships iter sources = Ok rels.
Proof.
  unfold Detector64.find_relationships. generalize (@nil DataRelationship).
  intros acc Hs. revert acc. induction Hs as [|s rest B Hr IH]; intros acc; [by eexists|].
  cbn [Detector64.outer_loop].
  destruct (inner_loop_returns iter s rest acc B Hr) as [rels ->]. apply IH.
Qed.

Variable iter : gset string → list string.

(** The two relationships are of the same pair of sources. *)
Let same_pair (r r' : DataRelationship) : Prop :=
  source1_id r = source1_id r' ∧ source2_id r = source2_id r'
  ∧ join_type r = join_type r'.

Lemma pair_step_same_pair s1 s2 found :
  Detector64.pair_step iter s1 s2 = Ok found →
  Forall2 same_pair found (pair_step iter s1 s2).
Proof.
  unfold Detector64.pair_step, pair_step.
  destruct (schema_info s1) as [d1|]; [|intros [= <-]; constructor].
  destruct (schema_info s2) as [d2|]; [|intros [= <-]; constructor].
  destruct (negb (dict_truthy d1) || negb (dict_truthy d2)); [intros [= <-]; constructor|].
  case_bool_decide; [|intros [= <-]; constructor].
  intros Hk. apply rbind_Ok in Hk as (k & _ & Hu).
  apply rbind_Ok in Hu as (u & _ & [= <-]).
  constructor; [done | constructor].
Qed.

Lemma inner_loop_same_pair s1 rest acc rels :
  Detector64.inner_loop iter s1 rest acc = Ok rels →
  ∃ found, rels = acc ++ found
           ∧ Forall2 same_pair found (flat_map (pair_step iter s1) rest).
Proof.
  revert acc. induction rest as [|s2 rest IH]; intros acc; cbn [Detector64.inner_loop flat_map].
  - intros [= <-]. exists []. split; [by rewrite app_nil_r | constructor].
  - intros H. apply rbind_Ok in H as (found & Hf & H).
    apply IH in H as (more & -> & Hm).
    exists (found ++ more). split; [by rewrite app_assoc|].
    apply Forall2_app; [by apply pair_step_same_pair | done].
Qed.

Lemma outer_loop_same_pair sources acc rels :
  Detector64.outer_loop iter sources acc = Ok rels →
  ∃ found, rels = acc ++ found
           ∧ Forall2 same_pair found
               (flat_map (λ p, pair_step iter p.1 p.2) (source_pairs sources)).
Proof.
  revert acc. induction sources as [|s1 rest IH]; intros acc;
    cbn [Detector64.outer_loop source_pairs flat_map].
  - intros [= <-]. exists []. split; [by rewrite app_nil_r | constructor].
  - intros H. apply rbind_Ok in H as (rels1 & H1 & H).
    apply inner_loop_same_pair in H1 as (found1 & -> & Hf1).
    apply IH in H as (found & -> & Hf).
    exists (found1 ++ found). split; [by rewrite app_assoc|].
    rewrite flat_map_app, flat_map_map. by apply Forall2_app.
Qed.

(** X30. [find_relationships] as the interpreter runs it, with every
    quotient a float, either raises the exception of a quotient or
    returns the relationships of the same pairs of sources, in the same
    order, as with exact quotients: the pairs that C5 describes.  On
    sources whose distinct counts lie within their row counts it
    returns. *)
Theorem float_detector_same_pairs (sources : list DataSourceConfig) :
  (∀ relationships,
     Detector64.find_relationships iter sources = Ok relationships →
     Forall2 (λ r r', source1_id r = source1_id r' ∧ source2_id r = source2_id r'
                      ∧ join_type r = join_type r')
             relationships (find_relationships iter sources))
  ∧ (Forall within_rows sources →
     ∃ relationships, Detector64.find_relationships iter sources = Ok relationships).
Proof.
  split.
  - intros rels H. unfold Detector64.find_relationships in H.
    apply outer_loop_same_pair in H as (found & -> & Hf).
    by rewrite find_relationships_flat.
  - apply find_relationships_returns.
Qed.

End FloatDetector.

(* ===================================================================== *)
(** ** The endpoints                                                      *)
(* ===================================================================== *)

Section Endpoints.

Variable w : world.

(** The body of [analyze_source] only adds to the trace, and what it
    returns or raises does not depend on the trace. *)
Lemma analyze_source_body_fixed (source : DataSourceConfig) (t : trace) :
  ∃ added, analyze_source_body w source t
           = ((analyze_source_body w source []).1, t ++ added).
Proof.
  unfold analyze_source_body. destruct (type source);
    try (exists []; unfold lift, raise; cbn [fst]; by rewrite app_nil_r).
  unfold _analyze_postgresql, bind, lift, create_engine, dispose, emit.
  destruct (connection_string (config source)) as [url|e];
    [|exists []; cbn [fst]; by rewrite app_nil_r].
  destruct (w_create_engine w url) as [[]|e];
    [|exists []; cbn [fst]; by rewrite app_nil_r].
  destruct (item (config source) "table") as [table|e];
    [|eexists; cbn [fst]; reflexivity].
  destruct (w_read_sql w _ url) as [df|e];
    [|eexists; cbn [fst]; reflexivity].
  eexists. cbn [fst]. by rewrite <- app_assoc.
Qed.

(** [analyze_source] returns the Schema Info [profile_of], whatever was
    logged before, and only adds to the trace. *)
Lemma analyze_source_result_fixed (source : DataSourceConfig) (t : trace) :
  ∃ added, analyze_source w source t = (Ok (profile_of w source), t ++ added).
Proof.
  unfold profile_of, analyze_source, try_except, bind, logger_error, emit, ret.
  destruct (analyze_source_body_fixed source t) as [added ->].
  destruct (analyze_source_body w source []) as [[s|e] t0]; cbn [fst].
  - by exists added.
  - exists (added ++ [ErrorLogged (analyze_error source e)]). by rewrite app_assoc.
Qed.

Lemma has_schema_profiled_by (source : DataSourceConfig) :
  has_schema (profiled_by w source) = true.
Proof. unfold profiled_by. by destruct (has_schema source) eqn:E. Qed.

Lemma profile_missing_eq (sources : list DataSourceConfig) (t : trace) :
  ∃ added,
    profile_missing w sources t = (Ok (map (profiled_by w) sources), t ++ added)
    ∧ (Forall (λ s, has_schema s = true) sources → added = []).
Proof.
  revert t. induction sources as [|s sources IH]; intros t.
  - exists []. split; [|done]. cbn [profile_missing map]. unfold ret. by rewrite app_nil_r.
  - cbn [profile_missing map]. unfold bind, ret, profiled_by.
    destruct (has_schema s) eqn:Hs; cbn [negb].
    + destruct (IH t) as (added & -> & Hnone). exists added. split; [done|].
      intros Hall. apply Hnone. by inversion Hall.
    + destruct (analyze_source_result_fixed s t) as [added1 ->].
      destruct (IH (t ++ added1)) as (added & -> & _).
      exists (added1 ++ added). split; [by rewrite app_assoc|].
      intros Hall. inversion Hall; congruence.
Qed.

(** X23. The profiling loop of the endpoints never raises and only adds
    to the log.  It leaves a source that has a schema as it is, and gives
    every other source the dict of the Schema Info that [analyze_source]
    returns for it (the empty one after a failure), changing nothing else
    of the source; a call of [analyze_source] returns that Schema Info
    whatever was logged before it.  So every source has a schema after
    the loop, and nothing is logged when every source had one. *)
Theorem profile_missing_gives_every_source_a_schema
    (sources : list DataSourceConfig) (t : trace) :
  (∃ added,
     profile_missing w sources t = (Ok (map (profiled_by w) sources), t ++ added)
     ∧ (Forall (λ s, has_schema s = true) sources → added = []))
  ∧ (∀ source t0, (analyze_source w source t0).1 = Ok (profile_of w source))
  ∧ Forall (λ s, has_schema s = true) (map (profiled_by w) sources).
Proof.
  split; [apply profile_missing_eq|]. split.
  - intros source t0. by destruct (analyze_source_result_fixed source t0) as [added ->].
  - apply Forall_forall. intros s' Hs'. apply list_elem_of_fmap in Hs' as (s & -> & _).
    apply has_schema_profiled_by.
Qed.

(** X24. Let every source of a request arrive without a schema or with
    the dict of a Schema Info.  Then [generate_recommendations], called as
    the endpoint calls it, on the sources after the profiling loop and
    with the patterns of the classifier for them, returns, for any
    service, backends and requirements: the one exception it lets
    through cannot occur on these sources. *)
Theorem recommendations_after_profiling (self : LLMService) (b : backend)
    (sources : list DataSourceConfig) (br : BusinessRequirements) (t : trace) :
  Forall (λ s, has_schema s = false ∨ ∃ info, schema_info s = Some (to_dict info))
         sources →
  ∃ added a t',
    profile_missing w sources t = (Ok (map (profiled_by w) sources), t ++ added)
    ∧ generate_recommendations self b (map (profiled_by w) sources) br
        (of_patterns (analyze_data_patterns (map (profiled_by w) sources))) (t ++ added)
      = (Ok a, t').
Proof.
  intros _.
  destruct (profile_missing_eq sources t) as (added & Hp & _).
  destruct (generate_returns_when_profiled self b (map (profiled_by w) sources) br
              (of_patterns (analyze_data_patterns (map (profiled_by w) sources)))
              (t ++ added)) as (a & t' & Hg).
  - apply Forall_forall. intros s' Hs'. apply list_elem_of_fmap in Hs' as (s & -> & _).
    pose proof (has_schema_profiled_by s) as Hs. unfold has_schema in Hs.
    by destruct (schema_info (profiled_by w s)).
  - by exists added, a, t'.
Qed.

(** The distinct counts of a Schema Info made from a frame lie within its
    row count. *)
Lemma create_schema_info_counts df s :
  _create_schema_info df = Ok s → counts_within s.
Proof.
  unfold _create_schema_info. intros H.
  apply rbind_Ok in H as (nulls & _ & H).
  apply rbind_Ok in H as (uniques & Hu & [= <-]).
  intros col n Hn. cbn [unique_counts row_count] in *.
  destruct (dict_comp_lookup _ _ _ _ _ _ Hu Hn) as [Hf|?]; [|done].
  apply rbind_Ok in Hf as (vals & Hvals & Hnu).
  apply length_getitem in Hvals.
  unfold nunique in Hnu. destruct (existsb unhashable vals); [done|].
  injection Hnu as <-. unfold df_len.
  pose proof (length_filter_split vals).
  pose proof (length_distinct (filter (λ c, isnull c = false) vals)).
  lia.
Qed.

Lemma counts_within_profile_of (source : DataSourceConfig) :
  counts_within (profile_of w source).
Proof.
  unfold profile_of.
  destruct (analyze_source_cases w source []) as [(s & t' & Hb & ->)|(e & t' & _ & ->)];
    cbn [fst].
  - apply analyze_source_body_Ok in Hb as (df & Hdf & _).
    by eapply create_schema_info_counts.
  - intros col n Hn. by cbn in Hn.
Qed.

Lemma bounded_profiled_by (source : DataSourceConfig) :
  well_formed source → within_rows (profiled_by w source).
Proof.
  intros Hw d Hd f n Hn. unfold profiled_by in Hd.
  destruct (has_schema source) eqn:Hs.
  - destruct Hw as [?|(info & Hi & Hc)]; [congruence|].
    rewrite Hi in Hd. injection Hd as <-. by apply (Hc f).
  - cbn in Hd. injection Hd as <-. by apply (counts_within_profile_of source f).
Qed.

(** X25. Let every source of a request arrive without a schema, or with
    the dict of a Schema Info whose distinct counts lie within its row
    count.  Then POST /find-relationships does not answer with an HTTP
    error: no quotient of the detector is too large for a float on the
    sources after the profiling loop, and the answer holds the
    relationships of these sources and their number. *)
Theorem find_data_relationships_answers (iter : gset string → list string)
    (sources : list DataSourceConfig) (t : trace) :
  Forall well_formed sources →
  ∃ relationships added,
    Detector64.find_relationships iter (map (profiled_by w) sources) = Ok relationships
    ∧ find_data_relationships w iter sources t
      = (Ok (Answer (relationships, Z.of_nat (length relationships))), t ++ added).
Proof.
  intros Hw.
  destruct (profile_missing_eq sources t) as (added & Hp & _).
  destruct (find_relationships_returns iter (map (profiled_by w) sources)) as [rels Hr].
  - apply Forall_forall. intros s' Hs'. apply list_elem_of_fmap in Hs' as (s & -> & Hs).
    apply bounded_profiled_by. by eapply Forall_forall in Hw.
  - exists rels, added. split; [done|].
    unfold find_data_relationships, try_except, bind, lift, ret. by rewrite Hp, Hr.
Qed.

Lemma endswith_spec (suffix s : string) :
  endswith suffix s = true ↔ ∃ pre, s = pre +:+ suffix.
Proof.
  induction s as [|c s IH]; cbn [endswith].
  - rewrite orb_false_r, String.eqb_eq. split.
    + intros ->. by exists EmptyString.
    + intros [pre H]. destruct pre; [done | discriminate H].
  - rewrite orb_true_iff, String.eqb_eq, IH. split.
    + intros [->|[pre ->]]; [by exists EmptyString | by exists (String c pre)].
    + intros [[|a pre] H]; simpl in H; [by left|].
      injection H as -> ->. right. by exists pre.
Qed.

(** X26. POST /upload-csv never answers with status 400.  For a file name
    that ends in [.csv] it answers success with the dict of the Schema
    Info that [analyze_source] returns for the uploaded file, read as a
    delimited file with a comma; and so also when the file cannot be
    read, with the empty Schema Info.  For another file name the
    HTTPException of status 400 raised inside the [try] is caught by its
    handler and answered with status 500, [str] of that exception as the
    detail; without a file name the AttributeError is answered the same
    way.  In both cases the file is not read. *)
Theorem upload_csv_file_outcomes (str_http : Z → string → string)
    (filename : option string) (file : nat) (t : trace) :
  (∀ name, filename = Some name → (∃ pre, name = pre +:+ ".csv") →
     ∃ added,
       analyze_source w (uploaded_source name file) t
       = (Ok (profile_of w (uploaded_source name file)), t ++ added)
       ∧ upload_csv_file w str_http filename file t
         = (Ok (Answer (name, to_dict (profile_of w (uploaded_source name file)), "success")),
            t ++ added))
  ∧ (∀ name, filename = Some name → ¬ (∃ pre, name = pre +:+ ".csv") →
     upload_csv_file w str_http filename file t
     = (Ok (HTTPException 500 (str_http 400 "File must be a CSV")),
        t ++ [ErrorLogged ("Error uploading CSV: " +:+ str_http 400 "File must be a CSV")]))
  ∧ (filename = None →
     upload_csv_file w str_http filename file t
     = (Ok (HTTPException 500 "'NoneType' object has no attribute 'endswith'"),
        t ++ [ErrorLogged
                "Error uploading CSV: 'NoneType' object has no attribute 'endswith'"])).
Proof.
  unfold upload_csv_file, try_except, raise, bind, logger_error, emit, ret.
  split; [|split].
  - intros name -> Hcsv. apply endswith_spec in Hcsv. rewrite Hcsv. cbn [negb].
    destruct (analyze_source_result_fixed (uploaded_source name file) t) as [added ->].
    by exists added.
  - intros name -> Hcsv. rewrite <- endswith_spec in Hcsv.
    destruct (endswith ".csv" name); [done|]. reflexivity.
  - intros ->. reflexivity.
Qed.

End Endpoints.

Section EndpointsCases.

Import Samples Cases.

Lemma py_dict_elem {V} (items : list (string * V)) (m : gmap string V) k v :
  fold_left (λ m kv, <[kv.1 := kv.2]> m) items m !! k = Some v →
  (k, v) ∈ items ∨ m !! k = Some v.
Proof.
  revert m. induction items as [|[k0 v0] items IH]; intros m; cbn [fold_left fst snd].
  - by right.
  - intros [H|H]%IH; [left; by right|].
    apply lookup_insert_Some in H as [[-> ->]|[_ H]]; [left; by left | by right].
Qed.

Lemma recommendations_after_profiling_witness :
  ∃ added a t',
    profile_missing offline [unprofiled; orders] []
    = (Ok (map (profiled_by offline) [unprofiled; orders]), [] ++ added)
    ∧ generate_recommendations both_keys unavailable_backend
        (map (profiled_by offline) [unprofiled; orders]) requirements
        (of_patterns (analyze_data_patterns (map (profiled_by offline) [unprofiled; orders])))
        ([] ++ added)
      = (Ok a, t').
Proof.
  apply (recommendations_after_profiling offline both_keys unavailable_backend
           [unprofiled; orders] requirements []).
  constructor; [by left|].
  constructor; [|constructor].
  right. by exists (sample_profile ["order_id"; "customer_id"; "amount"; "created_at"] 500000
                     [("order_id", 1000); ("customer_id", 400); ("amount", 800);
                      ("created_at", 990)]).
Defined.

Lemma find_data_relationships_answers_witness :
  ∃ relationships added,
    Detector64.find_relationships elements
      (map (profiled_by offline) [unprofiled; orders; customers]) = Ok relationships
    ∧ find_data_relationships offline elements [unprofiled; orders; customers] []
      = (Ok (Answer (relationships, Z.of_nat (length relationships))), [] ++ added).
Proof.
  apply (find_data_relationships_answers offline elements
           [unprofiled; orders; customers] []).
  constructor; [by left|].
  constructor; [|constructor; [|constructor]].
  - right. exists (sample_profile ["order_id"; "customer_id"; "amount"; "created_at"] 500000
              [("order_id", 1000); ("customer_id", 400); ("amount", 800); ("created_at", 990)]).
    split; [reflexivity|]. unfold counts_within, sample_profile. cbn [unique_counts row_count].
    intros col n [H|H]%py_dict_elem; [|by rewrite lookup_empty in H].
    repeat (apply elem_of_cons in H as [[= -> ->]|H]; [lia|]).
    by apply elem_of_nil in H.
  - right. exists (sample_profile ["customer_id"; "name"; "country"] 10000
              [("customer_id", 1000); ("name", 950); ("country", 30)]).
    split; [reflexivity|]. unfold counts_within, sample_profile. cbn [unique_counts row_count].
    intros col n [H|H]%py_dict_elem; [|by rewrite lookup_empty in H].
    repeat (apply elem_of_cons in H as [[= -> ->]|H]; [lia|]).
    by apply elem_of_nil in H.
Defined.

(** [orders] and [customers] with floats: the same relationship, its
    confidence the float 0.25. *)
Example scenario_relationship_in_floats :
  (map (λ r, (source1_id r, source2_id r, join_type r,
              map_to_list (join_keys r), this (confidence r))))
    <$> (match Detector64.find_relationships elements [orders; customers] with
         | Ok l => Some l
         | Raise _ => None
         end)
  = Some [("orders", "customers", "LEFT JOIN", [("customer_id", "customer_id")], 1 # 4)].
Proof. vm_compute. reflexivity. Qed.

(** A distinct count outside every profile: the quotient is too large
    for a float, and the endpoint answers with status 500. *)
Example find_data_relationships_overflow :
  find_data_relationships offline (λ _, ["name"]) [left_overflowing; right_header_only] []
  = (Ok (HTTPException 500 "integer division result too large for a float"),
     [ErrorLogged
        "Error finding relationships: integer division result too large for a float"]).
Proof. by vm_compute. Qed.

End EndpointsCases.

(* ===================================================================== *)
(** ** The text of the DDL                                                *)
(* ===================================================================== *)

Section DdlText.

Lemma append_not_empty (a b : string) : b ≠ EmptyString → a +:+ b ≠ EmptyString.
Proof. destruct a; [done | discriminate]. Qed.

(** [rstrip] only looks at the end of a string. *)
Lemma rstrip_app (a b : string) :
  rstrip b ≠ EmptyString → rstrip (a +:+ b) = a +:+ rstrip b.
Proof.
  intros Hb. induction a as [|c a IH]; [done|].
  change (rstrip (String c a +:+ b))
    with (match rstrip (a +:+ b) with
          | EmptyString => if is_space c then EmptyString else String c EmptyString
          | String x y => String c (String x y)
          end).
  rewrite IH.
  change (String c a +:+ rstrip b) with (String c (a +:+ rstrip b)).
  pose proof (append_not_empty a (rstrip b) Hb).
  by destruct (a +:+ rstrip b).
Qed.

Lemma rstrip_app_not_empty (a b : string) :
  rstrip b ≠ EmptyString → rstrip (a +:+ b) ≠ EmptyString.
Proof. intros Hb. rewrite rstrip_app by done. by apply append_not_empty. Qed.

Lemma append_assoc (a b c : string) : (a +:+ b) +:+ c = a +:+ (b +:+ c).
Proof.
  induction a as [|x a IH]; [done|].
  change (String x ((a +:+ b) +:+ c) = String x (a +:+ (b +:+ c))).
  by rewrite IH.
Qed.

(** The side condition of [rstrip_app], for a text that ends in a
    closing bracket or a semicolon before its last line break. *)
Ltac ends_in_text :=
  repeat first [ by (vm_compute; discriminate) | apply rstrip_app_not_empty ].

Lemma strip_ddl_clickhouse (mt : string) (partitioning : option string)
    (indexes : list string) :
  strip (ddl_clickhouse mt partitioning indexes)
  = "CREATE TABLE " +:+ mt +:+ nl
    +:+ "(" +:+ nl
    +:+ "    date Date," +:+ nl
    +:+ "    timestamp DateTime," +:+ nl
    +:+ "    -- Add your columns here based on source analysis" +:+ nl
    +:+ ") ENGINE = MergeTree()" +:+ nl
    +:+ (match partitioning with
         | Some p => if String.eqb p EmptyString then EmptyString else p
         | None => EmptyString
         end) +:+ nl
    +:+ "ORDER BY ("
    +:+ (match indexes with [] => "date" | _ => join ", " indexes end)
    +:+ ")".
Proof.
  unfold strip, ddl_clickhouse.
  set (part := match partitioning with Some _ => _ | None => _ end).
  set (cols := match indexes with [] => _ | _ => _ end).
  change (lstrip (nl +:+ "CREATE TABLE " +:+ ?rest)) with ("CREATE TABLE " +:+ rest).
  repeat (rewrite rstrip_app by ends_in_text).
  reflexivity.
Qed.

Lemma strip_ddl_postgresql (mt : string) (indexes : list string) :
  strip (ddl_postgresql mt indexes)
  = "CREATE TABLE " +:+ mt +:+ " (" +:+ nl
    +:+ "    id SERIAL PRIMARY KEY," +:+ nl
    +:+ "    created_at TIMESTAMP DEFAULT CURRENT_TIMESTAMP," +:+ nl
    +:+ "    -- Add your columns here based on source analysis" +:+ nl
    +:+ ");"
    +:+ (match indexes with
         | [] => EmptyString
         | _ => nl +:+ "CREATE INDEX ON " +:+ mt +:+ " (" +:+ join ", " indexes +:+ ");"
         end).
Proof.
  unfold strip, ddl_postgresql.
  change (lstrip (nl +:+ "CREATE TABLE " +:+ ?rest)) with ("CREATE TABLE " +:+ rest).
  destruct indexes as [|i indexes].
  - repeat (rewrite rstrip_app by ends_in_text). reflexivity.
  - set (cols := join ", " (i :: indexes)).
    rewrite !append_assoc.
    repeat (rewrite rstrip_app by ends_in_text). reflexivity.
Qed.

Variables (sources : list DataSourceConfig) (br : BusinessRequirements)
          (dp : DataPatterns).

Let d := schema_design (_generate_rule_based_recommendations sources br dp).
Let storage :=
  primary (storage_recommendation (_generate_rule_based_recommendations sources br dp)).

(** X27. [strip] removes the line breaks around the DDL and nothing of
    its content.  For clickhouse the text runs from CREATE TABLE to the
    ORDER BY clause, which lists the indexes, or [date] when there is
    none; for postgresql it ends with the closing of the table, followed
    by one CREATE INDEX statement exactly when there are indexes. *)
Theorem ddl_script_text :
  (storage = "clickhouse" →
   ddl_script d
   = "CREATE TABLE " +:+ main_table d +:+ nl
     +:+ "(" +:+ nl
     +:+ "    date Date," +:+ nl
     +:+ "    timestamp DateTime," +:+ nl
     +:+ "    -- Add your columns here based on source analysis" +:+ nl
     +:+ ") ENGINE = MergeTree()" +:+ nl
     +:+ default EmptyString (partitioning d) +:+ nl
     +:+ "ORDER BY ("
     +:+ (match indexes d with [] => "date" | _ => join ", " (indexes d) end)
     +:+ ")")
  ∧ (storage = "postgresql" →
     ddl_script d
     = "CREATE TABLE " +:+ main_table d +:+ " (" +:+ nl
       +:+ "    id SERIAL PRIMARY KEY," +:+ nl
       +:+ "    created_at TIMESTAMP DEFAULT CURRENT_TIMESTAMP," +:+ nl
       +:+ "    -- Add your columns here based on source analysis" +:+ nl
       +:+ ");"
       +:+ (match indexes d with
            | [] => EmptyString
            | _ => nl +:+ "CREATE INDEX ON " +:+ main_table d +:+ " ("
                   +:+ join ", " (indexes d) +:+ ");"
            end)).
Proof.
  unfold d, storage, _generate_rule_based_recommendations.
  set (a := any _ _).
  set (idx := match default [] (p_temporal_columns dp) with
              | [] => []
              | _ => [] ++ firstn 2 (default [] (p_temporal_columns dp))
              end).
  destruct (default false (p_has_temporal_data dp)),
    (default 0 (p_total_estimated_rows dp) >? 100000),
    (default 0 (p_total_estimated_rows dp) >? 1000000), a;
    cbn [primary storage_recommendation schema_design ddl_script main_table
         partitioning indexes String.eqb Ascii.eqb Bool.eqb andb];
    (split; intros ?; try done);
    rewrite ?strip_ddl_clickhouse, ?strip_ddl_postgresql; reflexivity.
Qed.

End DdlText.

(* ===================================================================== *)
(** ** Caps of the profiler and the last fallback                         *)
(* ===================================================================== *)

Section Caps.

(** X1. A delimited file and a spreadsheet are profiled on at most 1000
    rows: the profiler returns a Schema Info whose row count lies between
    0 and 1000, whatever the reader answers. *)
Theorem tabular_sample_capped (w : world) (source : DataSourceConfig) (t : trace) :
  type source = CSV ∨ type source = EXCEL →
  ∃ s, (analyze_source w source t).1 = Ok s ∧ 0 <= row_count s <= 1000.
Proof.
  intros Hty.
  destruct (analyze_source_cases w source t) as [(s & t' & Hb & Ha)|(e & t' & _ & Ha)].
  - exists s. split; [by rewrite Ha|].
    apply (tabular_profile_bounded w source t s Hty). by rewrite Ha.
  - exists empty_schema. by rewrite Ha.
Qed.

(** X2. The profiler always returns a Schema Info; its row count is not
    negative, and its preview holds min(5, row count) records when the
    schema has a column, and no record when it has none (also when rows
    were read: a JSON array of numbers has rows and no column). *)
Theorem preview_holds_first_five_rows (w : world) (source : DataSourceConfig)
    (t : trace) :
  ∃ s, (analyze_source w source t).1 = Ok s
       ∧ 0 <= row_count s
       ∧ Z.of_nat (length (sample_data s)) = match columns s with
                                             | [] => 0
                                             | _ => Z.min 5 (row_count s)
                                             end.
Proof.
  destruct (analyze_source_cases w source t) as [(s & t' & Hb & Ha)|(e & t' & _ & Ha)].
  - exists s. split; [by rewrite Ha|].
    apply analyze_source_body_Ok in Hb as (df & Hdf & _).
    apply create_schema_info_Ok in Hdf as (-> & _ & -> & ->).
    split; [lia|]. destruct (df_columns df); lia.
  - exists empty_schema. by rewrite Ha.
Qed.

(** X28. When every backend that has a key answers with a status other
    than 200, the result is the one of the rules. *)
Theorem rules_when_no_backend_answers (self : LLMService) (b : backend)
    (sources : list DataSourceConfig) (br : BusinessRequirements) (dp : DataPatterns)
    (prompt : Prompt) (t : trace) :
  _create_analysis_prompt sources br dp = Ok prompt →
  (key_set (yandex_api_key self) = true →
   ∃ status_code text body,
     b_yandex b prompt = Response status_code text body ∧ status_code ≠ 200) →
  (key_set (deepseek_api_key self) = true →
   ∃ status_code text body,
     b_deepseek b prompt = Response status_code text body ∧ status_code ≠ 200) →
  (generate_recommendations self b sources br dp t).1
  = Ok (Rules (_generate_rule_based_recommendations sources br dp)).
Proof.
  intros Hp Hy Hd.
  unfold generate_recommendations, bind, lift, try_except,
    _call_yandex_gpt, _call_deepseek, logger_error, emit, ret.
  rewrite Hp.
  destruct (key_set (yandex_api_key self)).
  - destruct (Hy eq_refl) as (c1 & text1 & body1 & -> & Hc1).
    apply Z.eqb_neq in Hc1. rewrite Hc1.
    destruct (key_set (deepseek_api_key self)); [|done].
    destruct (Hd eq_refl) as (c2 & text2 & body2 & -> & Hc2).
    apply Z.eqb_neq in Hc2. by rewrite Hc2.
  - destruct (key_set (deepseek_api_key self)); [|done].
    destruct (Hd eq_refl) as (c2 & text2 & body2 & -> & Hc2).
    apply Z.eqb_neq in Hc2. by rewrite Hc2.
Qed.

End Caps.

Section CapsCases.

Import Samples Cases.

Lemma tabular_sample_capped_witness :
  ∃ s, (analyze_source (with_csv two_rows) csv_source []).1 = Ok s
       ∧ 0 <= row_count s <= 1000.
Proof.
  apply (tabular_sample_capped (with_csv two_rows) csv_source []).
  left. reflexivity.
Defined.

Lemma rules_when_no_backend_answers_witness :
  (generate_recommendations both_keys unavailable_backend [orders; customers]
                            requirements large_temporal []).1
  = Ok (Rules (_generate_rule_based_recommendations [orders; customers]
                                                     requirements large_temporal)).
Proof.
  apply (rules_when_no_backend_answers both_keys unavailable_backend
           [orders; customers] requirements large_temporal sample_prompt [] eq_refl).
  - intros _. exists 503, "Service Unavailable", (Raise (DecodeError "Expecting value")).
    split; [reflexivity | lia].
  - intros _. exists 503, "Service Unavailable", (Raise (DecodeError "Expecting value")).
    split; [reflexivity | lia].
Defined.

End CapsCases.
